(** * UTM click attribution: webhook matcher, engagement updater and
      spreadsheet export

    A shallow embedding of [server.js] (the [/gallabox-webhook] and
    [/store-click] handlers) and of [google-sheets-sync.js]
    ([syncToSheets] and the change-stream handler of [setupRealtimeSync])
    over an explicit model of the [utmClicks] collection.

    Modelling conventions:
    - a JS string that may be [undefined] or [null] is an [option string];
      truthiness is [Js.truthy]; a string is the UTF-8 encoding of the JS
      string, and [slice] and [substring] count UTF-16 code units as
      JavaScript does;
    - a [Date] is the number of milliseconds since the epoch, a [Z]; one
      request reads the clock once ([now]);
    - the collection is the list of its documents in insertion order. The
      schema of db.js declares no [_id], so Mongoose types it [ObjectId]:
      the [_id] of a document is held as the 24 hex digits of its
      [toString()], a string passed as an id is cast to an [ObjectId]
      first, and one that is not 24 hex digits makes the call throw;
    - object literals passed to [create] and [findByIdAndUpdate] are lists of
      field assignments, later ones overriding earlier ones as with the
      spread operator;
    - every handler runs in a state-and-exception monad over a [World]
      (collection, spreadsheet, fault schedule of the Sheets API) and leaves
      a chronological [trace] of the store and sink calls it made. *)

From Stdlib Require Import ZArith String Ascii List Lia Permutation.
From stdpp Require Import base decidable option list strings numbers sorting pretty infinite.

Local Open Scope string_scope.
Local Open Scope list_scope.
Local Open Scope Z_scope.

(** ** JavaScript strings and flat objects *)

(** A flat JS object with string values, keys in insertion order. *)
Definition JsObject := list (string * string).

Module Js.

(** [Boolean(x)] for a string-or-nullish value. *)
Definition truthy (o : option string) : bool :=
  match o with
  | Some s => negb (String.eqb s "")
  | None => false
  end.

(** [a || b]. *)
Definition or (a b : option string) : option string :=
  if truthy a then a else b.

(** [if (a) { k a } else { otherwise }] with [a] unwrapped. *)
Definition if_truthy {A} (o : option string) (k : string -> A) (otherwise : A)
    : A :=
  match o with
  | Some s => if String.eqb s "" then otherwise else k s
  | None => otherwise
  end.

(** [a || 'literal']: the result is a string. *)
Definition or_lit (a : option string) (lit : string) : string :=
  match a with
  | Some s => if String.eqb s "" then lit else s
  | None => lit
  end.

(** [s.replace(/^0+/, '')]. *)
Fixpoint strip_leading_zeros (s : string) : string :=
  match s with
  | String "0"%char rest => strip_leading_zeros rest
  | _ => s
  end.

Definition is_digit (c : ascii) : bool :=
  let n := nat_of_ascii c in (48 <=? n)%nat && (n <=? 57)%nat.

(** [s.replace(/\D/g, '')]. *)
Fixpoint digits_only (s : string) : string :=
  match s with
  | EmptyString => EmptyString
  | String c rest =>
      if is_digit c then String c (digits_only rest) else digits_only rest
  end.

(** [s.startsWith(p)]. *)
Definition startsWith (s p : string) : bool := String.prefix p s.

(** UTF-16 code units. The strings of this file are UTF-8 byte strings;
    JavaScript indexes a string by its UTF-16 code units, so [slice] and
    [substring] are computed on the code units and encoded back. A byte
    that is no part of a UTF-8 sequence reads as U+FFFD, as a decoder
    does. *)
Fixpoint utf8_decode (s : string) (need : nat) (acc : N) : list N :=
  match s with
  | EmptyString => match need with O => [] | S _ => [65533%N] end
  | String c rest =>
      let b := N_of_ascii c in
      let start :=
        if (b <? 128)%N then b :: utf8_decode rest 0 0%N
        else if (192 <=? b)%N && (b <? 224)%N
             then utf8_decode rest 1 (b - 192)%N
        else if (224 <=? b)%N && (b <? 240)%N
             then utf8_decode rest 2 (b - 224)%N
        else if (240 <=? b)%N && (b <? 248)%N
             then utf8_decode rest 3 (b - 240)%N
        else 65533%N :: utf8_decode rest 0 0%N in
      match need with
      | O => start
      | S more =>
          if (128 <=? b)%N && (b <? 192)%N
          then let acc' := (acc * 64 + (b - 128))%N in
               match more with
               | O => acc' :: utf8_decode rest 0 0%N
               | S _ => utf8_decode rest more acc'
               end
          else 65533%N :: start
      end
  end.

(** The code units of one code point: itself, or a surrogate pair. *)
Definition units_of (cp : N) : list N :=
  if (cp <? 65536)%N then [cp]
  else [ (55296 + (cp - 65536) / 1024)%N; (56320 + (cp - 65536) mod 1024)%N ].

Definition utf16_units (s : string) : list N :=
  flat_map units_of (utf8_decode s 0 0%N).


Definition utf8_encode (cp : N) : string :=
  let byte (n : N) := ascii_of_N n in
  if (cp <? 128)%N then String (byte cp) EmptyString
  else if (cp <? 2048)%N
       then String (byte (192 + cp / 64)%N)
              (String (byte (128 + cp mod 64)%N) EmptyString)
  else if (cp <? 65536)%N
       then String (byte (224 + cp / 4096)%N)
              (String (byte (128 + (cp / 64) mod 64)%N)
                 (String (byte (128 + cp mod 64)%N) EmptyString))
  else String (byte (240 + cp / 262144)%N)
         (String (byte (128 + (cp / 4096) mod 64)%N)
            (String (byte (128 + (cp / 64) mod 64)%N)
               (String (byte (128 + cp mod 64)%N) EmptyString))).

Definition is_high_surrogate (u : N) : bool :=
  (55296 <=? u)%N && (u <? 56320)%N.
Definition is_low_surrogate (u : N) : bool :=
  (56320 <=? u)%N && (u <? 57344)%N.

(** Code units back to bytes: a surrogate pair is one code point, a lone
    surrogate is encoded as it is. *)
Fixpoint of_utf16_units (units : list N) : string :=
  match units with
  | [] => EmptyString
  | u :: rest =>
      match rest with
      | v :: rest' =>
          if is_high_surrogate u && is_low_surrogate v
          then utf8_encode (65536 + (u - 55296) * 1024 + (v - 56320))%N
               +:+ of_utf16_units rest'
          else utf8_encode u +:+ of_utf16_units rest
      | [] => utf8_encode u
      end
  end.

(** [s.slice(0, n)] and [s.substring(0, n)]. *)
Definition slice0 (n : nat) (s : string) : string :=
  of_utf16_units (take n (utf16_units s)).

Fixpoint get (k : string) (o : JsObject) : option string :=
  match o with
  | [] => None
  | (k', v) :: o' => if String.eqb k k' then Some v else get k o'
  end.

(** [{...o, k: v}]: an existing key keeps its position. *)
Fixpoint set (k v : string) (o : JsObject) : JsObject :=
  match o with
  | [] => [(k, v)]
  | (k', v') :: o' =>
      if String.eqb k k' then (k', v) :: o' else (k', v') :: set k v o'
  end.

(** The position of a key among the properties of an object: an array
    index (the canonical decimal of a number below 2^32 - 1) or any other
    string. *)
Definition digit_value (c : ascii) : N := (N_of_ascii c - 48)%N.

Definition array_index (k : string) : option N :=
  match k with
  | EmptyString => None
  | String c rest =>
      let canonical :=
        forallb is_digit (list_ascii_of_string k)
        && (negb (Ascii.eqb c "0"%char)
            || match rest with EmptyString => true | _ => false end)
        && (String.length k <=? 10)%nat in
      let value :=
        fold_left (fun n d => (n * 10 + digit_value d)%N)
          (list_ascii_of_string k) 0%N in
      if canonical && (value <? 4294967295)%N then Some value else None
  end.

(** Whether a new key [k] is listed before the existing key [k']: array
    indices come first, in ascending order; the other keys follow in the
    order in which they were added. *)
Definition listed_before (k k' : string) : bool :=
  match array_index k, array_index k' with
  | Some i, Some j => (i <? j)%N
  | Some _, None => true
  | None, _ => false
  end.

Fixpoint insert_key (k v : string) (o : JsObject) : JsObject :=
  match o with
  | [] => [(k, v)]
  | (k', v') :: o' =>
      if listed_before k k' then (k, v) :: o else (k', v') :: insert_key k v o'
  end.

(** [o[k] = v]: an existing key keeps its place, a new one goes where the
    property order of JavaScript puts it. *)
Definition define (k v : string) (o : JsObject) : JsObject :=
  match get k o with
  | Some _ => set k v o
  | None => insert_key k v o
  end.

End Js.

(** [c.toLowerCase()] and [s.toLowerCase()] on ASCII letters; the code
    applies it to ASCII names and to hex digits only. *)
Definition lower_ascii (c : ascii) : ascii :=
  let n := nat_of_ascii c in
  if (65 <=? n)%nat && (n <=? 90)%nat then ascii_of_nat (n + 32) else c.

Fixpoint toLowerCase (s : string) : string :=
  match s with
  | EmptyString => EmptyString
  | String c rest => String (lower_ascii c) (toLowerCase rest)
  end.

(** ** ObjectIds

    db.js gives the schema no [_id], so Mongoose adds one of type
    [ObjectId]. Where the code passes a string as an id ([findById],
    [findByIdAndUpdate], the [_id] of a literal given to [create]) Mongoose
    casts it: 24 hex digits make an ObjectId, any other string is a
    [CastError]. [toString()] gives the 24 digits in lower case. (Drivers
    before bson 5 also took any string of 12 characters; none of the ids
    the code or the page makes up has that length.) *)

Definition is_hex (c : ascii) : bool :=
  let n := nat_of_ascii c in
  ((48 <=? n)%nat && (n <=? 57)%nat)
  || ((97 <=? n)%nat && (n <=? 102)%nat)
  || ((65 <=? n)%nat && (n <=? 70)%nat).

(** [mongoose.isValidObjectId] on a string, as the cast applies it. *)
Definition is_hex24 (s : string) : bool :=
  (String.length s =? 24)%nat && forallb is_hex (list_ascii_of_string s).

(** Two strings that stand for the same ObjectId: hex digits are compared
    whatever their case. *)
Definition same_id (a b : string) : bool :=
  String.eqb (toLowerCase a) (toLowerCase b).

(** The [n]-th ObjectId Mongoose makes up: [n] in hex, lowest digit first,
    on 24 digits. A real ObjectId has 96 bits; so that a new one can be
    made whatever the collection holds, the model carries on with more
    digits past [16^24]. *)
Definition hex_digit (d : N) : ascii :=
  match d with
  | 0%N => "0" | 1%N => "1" | 2%N => "2" | 3%N => "3" | 4%N => "4"
  | 5%N => "5" | 6%N => "6" | 7%N => "7" | 8%N => "8" | 9%N => "9"
  | 10%N => "a" | 11%N => "b" | 12%N => "c" | 13%N => "d" | 14%N => "e"
  | _ => "f"
  end%char.

Definition hex_value (c : ascii) : N :=
  let n := N_of_ascii c in
  if (97 <=? n)%N then (n - 87)%N else (n - 48)%N.

Fixpoint hex_digits (width : nat) (n : N) : string :=
  match width with
  | O => EmptyString
  | S width' => String (hex_digit (n mod 16)) (hex_digits width' (n / 16))
  end.

Fixpoint oid_number (s : string) : N :=
  match s with
  | EmptyString => 0%N
  | String c rest => (hex_value c + 16 * oid_number rest)%N
  end.

Definition oid_width (n : N) : nat :=
  Nat.max 24 (N.to_nat ((N.size n + 3) / 4)).

Definition oid_string (n : N) : string := hex_digits (oid_width n) n.

(** ** Documents of the [utmClicks] collection (db.js, [utmClickSchema]) *)

Record Doc := mkDoc {
  _id : string;
  source : string;
  medium : string;
  campaign : string;
  content : string;
  placement : string;
  original_params : JsObject;
  hasEngaged : bool;
  phoneNumber : option string;
  contactId : option string;
  conversationId : option string;
  contactName : option string;
  lastMessage : option string;
  attribution_source : string;
  timestamp : Z;
  click_time : Z;
  engagedAt : option Z;
  syncedToSheets : bool;
  lastSynced : option Z;
  full_url : option string;
  createdAt : Z;
  updatedAt : Z
}.

Definition with_id (v : string) (d : Doc) : Doc :=
  mkDoc v (source d) (medium d) (campaign d) (content d) (placement d) (original_params d) (hasEngaged d)
    (phoneNumber d) (contactId d) (conversationId d) (contactName d) (lastMessage d) (attribution_source d) (timestamp d)
    (click_time d) (engagedAt d) (syncedToSheets d) (lastSynced d) (full_url d) (createdAt d) (updatedAt d).
Definition with_source (v : string) (d : Doc) : Doc :=
  mkDoc (_id d) v (medium d) (campaign d) (content d) (placement d) (original_params d) (hasEngaged d)
    (phoneNumber d) (contactId d) (conversationId d) (contactName d) (lastMessage d) (attribution_source d) (timestamp d)
    (click_time d) (engagedAt d) (syncedToSheets d) (lastSynced d) (full_url d) (createdAt d) (updatedAt d).
Definition with_medium (v : string) (d : Doc) : Doc :=
  mkDoc (_id d) (source d) v (campaign d) (content d) (placement d) (original_params d) (hasEngaged d)
    (phoneNumber d) (contactId d) (conversationId d) (contactName d) (lastMessage d) (attribution_source d) (timestamp d)
    (click_time d) (engagedAt d) (syncedToSheets d) (lastSynced d) (full_url d) (createdAt d) (updatedAt d).
Definition with_campaign (v : string) (d : Doc) : Doc :=
  mkDoc (_id d) (source d) (medium d) v (content d) (placement d) (original_params d) (hasEngaged d)
    (phoneNumber d) (contactId d) (conversationId d) (contactName d) (lastMessage d) (attribution_source d) (timestamp d)
    (click_time d) (engagedAt d) (syncedToSheets d) (lastSynced d) (full_url d) (createdAt d) (updatedAt d).
Definition with_content (v : string) (d : Doc) : Doc :=
  mkDoc (_id d) (source d) (medium d) (campaign d) v (placement d) (original_params d) (hasEngaged d)
    (phoneNumber d) (contactId d) (conversationId d) (contactName d) (lastMessage d) (attribution_source d) (timestamp d)
    (click_time d) (engagedAt d) (syncedToSheets d) (lastSynced d) (full_url d) (createdAt d) (updatedAt d).
Definition with_placement (v : string) (d : Doc) : Doc :=
  mkDoc (_id d) (source d) (medium d) (campaign d) (content d) v (original_params d) (hasEngaged d)
    (phoneNumber d) (contactId d) (conversationId d) (contactName d) (lastMessage d) (attribution_source d) (timestamp d)
    (click_time d) (engagedAt d) (syncedToSheets d) (lastSynced d) (full_url d) (createdAt d) (updatedAt d).
Definition with_original_params (v : JsObject) (d : Doc) : Doc :=
  mkDoc (_id d) (source d) (medium d) (campaign d) (content d) (placement d) v (hasEngaged d)
    (phoneNumber d) (contactId d) (conversationId d) (contactName d) (lastMessage d) (attribution_source d) (timestamp d)
    (click_time d) (engagedAt d) (syncedToSheets d) (lastSynced d) (full_url d) (createdAt d) (updatedAt d).
Definition with_hasEngaged (v : bool) (d : Doc) : Doc :=
  mkDoc (_id d) (source d) (medium d) (campaign d) (content d) (placement d) (original_params d) v
    (phoneNumber d) (contactId d) (conversationId d) (contactName d) (lastMessage d) (attribution_source d) (timestamp d)
    (click_time d) (engagedAt d) (syncedToSheets d) (lastSynced d) (full_url d) (createdAt d) (updatedAt d).
Definition with_phoneNumber (v : option string) (d : Doc) : Doc :=
  mkDoc (_id d) (source d) (medium d) (campaign d) (content d) (placement d) (original_params d) (hasEngaged d)
    v (contactId d) (conversationId d) (contactName d) (lastMessage d) (attribution_source d) (timestamp d)
    (click_time d) (engagedAt d) (syncedToSheets d) (lastSynced d) (full_url d) (createdAt d) (updatedAt d).
Definition with_contactId (v : option string) (d : Doc) : Doc :=
  mkDoc (_id d) (source d) (medium d) (campaign d) (content d) (placement d) (original_params d) (hasEngaged d)
    (phoneNumber d) v (conversationId d) (contactName d) (lastMessage d) (attribution_source d) (timestamp d)
    (click_time d) (engagedAt d) (syncedToSheets d) (lastSynced d) (full_url d) (createdAt d) (updatedAt d).
Definition with_conversationId (v : option string) (d : Doc) : Doc :=
  mkDoc (_id d) (source d) (medium d) (campaign d) (content d) (placement d) (original_params d) (hasEngaged d)
    (phoneNumber d) (contactId d) v (contactName d) (lastMessage d) (attribution_source d) (timestamp d)
    (click_time d) (engagedAt d) (syncedToSheets d) (lastSynced d) (full_url d) (createdAt d) (updatedAt d).
Definition with_contactName (v : option string) (d : Doc) : Doc :=
  mkDoc (_id d) (source d) (medium d) (campaign d) (content d) (placement d) (original_params d) (hasEngaged d)
    (phoneNumber d) (contactId d) (conversationId d) v (lastMessage d) (attribution_source d) (timestamp d)
    (click_time d) (engagedAt d) (syncedToSheets d) (lastSynced d) (full_url d) (createdAt d) (updatedAt d).
Definition with_lastMessage (v : option string) (d : Doc) : Doc :=
  mkDoc (_id d) (source d) (medium d) (campaign d) (content d) (placement d) (original_params d) (hasEngaged d)
    (phoneNumber d) (contactId d) (conversationId d) (contactName d) v (attribution_source d) (timestamp d)
    (click_time d) (engagedAt d) (syncedToSheets d) (lastSynced d) (full_url d) (createdAt d) (updatedAt d).
Definition with_attribution_source (v : string) (d : Doc) : Doc :=
  mkDoc (_id d) (source d) (medium d) (campaign d) (content d) (placement d) (original_params d) (hasEngaged d)
    (phoneNumber d) (contactId d) (conversationId d) (contactName d) (lastMessage d) v (timestamp d)
    (click_time d) (engagedAt d) (syncedToSheets d) (lastSynced d) (full_url d) (createdAt d) (updatedAt d).
Definition with_timestamp (v : Z) (d : Doc) : Doc :=
  mkDoc (_id d) (source d) (medium d) (campaign d) (content d) (placement d) (original_params d) (hasEngaged d)
    (phoneNumber d) (contactId d) (conversationId d) (contactName d) (lastMessage d) (attribution_source d) v
    (click_time d) (engagedAt d) (syncedToSheets d) (lastSynced d) (full_url d) (createdAt d) (updatedAt d).
Definition with_click_time (v : Z) (d : Doc) : Doc :=
  mkDoc (_id d) (source d) (medium d) (campaign d) (content d) (placement d) (original_params d) (hasEngaged d)
    (phoneNumber d) (contactId d) (conversationId d) (contactName d) (lastMessage d) (attribution_source d) (timestamp d)
    v (engagedAt d) (syncedToSheets d) (lastSynced d) (full_url d) (createdAt d) (updatedAt d).
Definition with_engagedAt (v : option Z) (d : Doc) : Doc :=
  mkDoc (_id d) (source d) (medium d) (campaign d) (content d) (placement d) (original_params d) (hasEngaged d)
    (phoneNumber d) (contactId d) (conversationId d) (contactName d) (lastMessage d) (attribution_source d) (timestamp d)
    (click_time d) v (syncedToSheets d) (lastSynced d) (full_url d) (createdAt d) (updatedAt d).
Definition with_syncedToSheets (v : bool) (d : Doc) : Doc :=
  mkDoc (_id d) (source d) (medium d) (campaign d) (content d) (placement d) (original_params d) (hasEngaged d)
    (phoneNumber d) (contactId d) (conversationId d) (contactName d) (lastMessage d) (attribution_source d) (timestamp d)
    (click_time d) (engagedAt d) v (lastSynced d) (full_url d) (createdAt d) (updatedAt d).
Definition with_lastSynced (v : option Z) (d : Doc) : Doc :=
  mkDoc (_id d) (source d) (medium d) (campaign d) (content d) (placement d) (original_params d) (hasEngaged d)
    (phoneNumber d) (contactId d) (conversationId d) (contactName d) (lastMessage d) (attribution_source d) (timestamp d)
    (click_time d) (engagedAt d) (syncedToSheets d) v (full_url d) (createdAt d) (updatedAt d).
Definition with_full_url (v : option string) (d : Doc) : Doc :=
  mkDoc (_id d) (source d) (medium d) (campaign d) (content d) (placement d) (original_params d) (hasEngaged d)
    (phoneNumber d) (contactId d) (conversationId d) (contactName d) (lastMessage d) (attribution_source d) (timestamp d)
    (click_time d) (engagedAt d) (syncedToSheets d) (lastSynced d) v (createdAt d) (updatedAt d).
Definition with_createdAt (v : Z) (d : Doc) : Doc :=
  mkDoc (_id d) (source d) (medium d) (campaign d) (content d) (placement d) (original_params d) (hasEngaged d)
    (phoneNumber d) (contactId d) (conversationId d) (contactName d) (lastMessage d) (attribution_source d) (timestamp d)
    (click_time d) (engagedAt d) (syncedToSheets d) (lastSynced d) (full_url d) v (updatedAt d).
Definition with_updatedAt (v : Z) (d : Doc) : Doc :=
  mkDoc (_id d) (source d) (medium d) (campaign d) (content d) (placement d) (original_params d) (hasEngaged d)
    (phoneNumber d) (contactId d) (conversationId d) (contactName d) (lastMessage d) (attribution_source d) (timestamp d)
    (click_time d) (engagedAt d) (syncedToSheets d) (lastSynced d) (full_url d) (createdAt d) v.

(** One [key: value] entry of an object literal handed to the store.
    [Set_id None] is [_id: undefined]; [Set_id (Some s)] gives the [_id] as
    a string, which Mongoose casts. *)
Inductive Setter :=
  | Set_id (v : option string)
  | Set_source (v : string)
  | Set_medium (v : string)
  | Set_campaign (v : string)
  | Set_content (v : string)
  | Set_placement (v : string)
  | Set_original_params (v : JsObject)
  | Set_hasEngaged (v : bool)
  | Set_phoneNumber (v : option string)
  | Set_contactId (v : option string)
  | Set_conversationId (v : option string)
  | Set_contactName (v : option string)
  | Set_lastMessage (v : option string)
  | Set_attribution_source (v : string)
  | Set_timestamp (v : Z)
  | Set_click_time (v : Z)
  | Set_engagedAt (v : option Z)
  | Set_syncedToSheets (v : bool)
  | Set_lastSynced (v : option Z)
  | Set_full_url (v : option string).

(** An object literal: its entries in source order. [{...a, ...b}] is
    [a ++ b]. *)
Definition Patch := list Setter.

Definition apply_setter (d : Doc) (s : Setter) : Doc :=
  match s with
  | Set_id None => d
  | Set_id (Some v) => with_id (toLowerCase v) d
  | Set_source v => with_source v d
  | Set_medium v => with_medium v d
  | Set_campaign v => with_campaign v d
  | Set_content v => with_content v d
  | Set_placement v => with_placement v d
  | Set_original_params v => with_original_params v d
  | Set_hasEngaged v => with_hasEngaged v d
  | Set_phoneNumber v => with_phoneNumber v d
  | Set_contactId v => with_contactId v d
  | Set_conversationId v => with_conversationId v d
  | Set_contactName v => with_contactName v d
  | Set_lastMessage v => with_lastMessage v d
  | Set_attribution_source v => with_attribution_source v d
  | Set_timestamp v => with_timestamp v d
  | Set_click_time v => with_click_time v d
  | Set_engagedAt v => with_engagedAt v d
  | Set_syncedToSheets v => with_syncedToSheets v d
  | Set_lastSynced v => with_lastSynced v d
  | Set_full_url v => with_full_url v d
  end.

Definition apply_patch (p : Patch) (d : Doc) : Doc := fold_left apply_setter p d.

(** [obj._id] of an object literal, when it is a string. *)
Definition patch_id (p : Patch) : option string :=
  fold_left (fun id s => match s with Set_id (Some v) => Some v | _ => id end)
    p None.

(** [obj.source] of an object literal. *)
Fixpoint patch_source (p : Patch) : option string :=
  match p with
  | [] => None
  | Set_source v :: p' =>
      match patch_source p' with Some v' => Some v' | None => Some v end
  | _ :: p' => patch_source p'
  end.

(** [doc.toObject()]. *)
Definition toObject (d : Doc) : Patch :=
  [ Set_id (Some (_id d)); Set_source (source d); Set_medium (medium d);
    Set_campaign (campaign d); Set_content (content d);
    Set_placement (placement d); Set_original_params (original_params d);
    Set_hasEngaged (hasEngaged d); Set_phoneNumber (phoneNumber d);
    Set_contactId (contactId d); Set_conversationId (conversationId d);
    Set_contactName (contactName d); Set_lastMessage (lastMessage d);
    Set_attribution_source (attribution_source d);
    Set_timestamp (timestamp d); Set_click_time (click_time d);
    Set_engagedAt (engagedAt d); Set_syncedToSheets (syncedToSheets d);
    Set_lastSynced (lastSynced d); Set_full_url (full_url d) ].

(** The document Mongoose builds before the literal's entries are applied:
    the schema defaults, an [_id] of its own making, and the
    [timestamps: true] pair. *)
Definition schema_defaults (objectId : string) (now : Z) : Doc :=
  {| _id := objectId;
     source := "direct_message"; medium := "whatsapp"; campaign := "organic";
     content := "none"; placement := "N/A";
     original_params := [];
     hasEngaged := false; phoneNumber := None;
     contactId := None; conversationId := None; contactName := None;
     lastMessage := None;
     attribution_source := "unknown";
     timestamp := now; click_time := now; engagedAt := None;
     syncedToSheets := false; lastSynced := None;
     full_url := None;
     createdAt := now; updatedAt := now |}.

(** ** The store, the sink and the effect monad *)

Definition Store := list Doc.

(** The filters the code passes to [find] and [findOne]. *)
Inductive Query :=
  | QRecentUnengaged (since : Z)
      (* { hasEngaged: false, timestamp: { $gte: since } } *)
  | QPhoneUnengaged (phone : string)
      (* { phoneNumber: phone, hasEngaged: false } *)
  | QDirectConversation (conv : string)
      (* { conversationId: conv, source: 'direct_message' } *)
  | QEngagedUnsynced.
      (* { hasEngaged: true, syncedToSheets: false,
           source: { $ne: 'direct_message' } } *)

Definition matches (q : Query) (d : Doc) : bool :=
  match q with
  | QRecentUnengaged since => negb (hasEngaged d) && (since <=? timestamp d)
  | QPhoneUnengaged phone =>
      bool_decide (phoneNumber d = Some phone) && negb (hasEngaged d)
  | QDirectConversation conv =>
      bool_decide (conversationId d = Some conv)
      && String.eqb (source d) "direct_message"
  | QEngagedUnsynced =>
      hasEngaged d && negb (syncedToSheets d)
      && negb (String.eqb (source d) "direct_message")
  end.

(** [.sort({ timestamp: -1 })]. *)
Definition newer_or_same (a b : Doc) : Prop := timestamp b <= timestamp a.

#[export] Instance newer_or_same_dec a b : Decision (newer_or_same a b) :=
  Z_le_dec (timestamp b) (timestamp a).

Definition sort_newest_first (l : list Doc) : list Doc :=
  merge_sort newer_or_same l.

(** A spreadsheet cell: a string, or a date the row holds as its
    [toISOString()] rendering. *)
Inductive Cell := CStr (s : string) | CIso (t : Z).
Definition Row := list Cell.

(** The spreadsheet: whether a sheet titled 'Sheet1' exists, and its rows. *)
Record Sink := mkSink { hasSheet1 : bool; sheetRows : list Row }.

Inductive SheetsCall :=
  | InitClient                 (* initializeSheetsClient() *)
  | SpreadsheetsGet            (* spreadsheets.get *)
  | AddSheet                   (* spreadsheets.batchUpdate addSheet *)
  | ValuesGetHeader            (* spreadsheets.values.get A1:N1 *)
  | ValuesUpdateHeader (h : Row)  (* spreadsheets.values.update A1:N1 *)
  | ValuesAppend (rows : list Row). (* spreadsheets.values.append A:N *)

Inductive Effect :=
  | FindOne (q : Query)
  | Find (q : Query) (limit : nat)
  | FindById (id : option string)
  | FindByIdAndUpdate (id : option string) (p : Patch)
  | Create (p : Patch)
  | Sheets (c : SheetsCall) (ok : bool)
  | Sleep (ms : Z).

(** [faults]: for each coming Sheets API call in turn, whether it throws;
    past the end of the schedule nothing fails. *)
Record World := mkWorld {
  store : Store;
  sink : Sink;
  faults : list bool;
  trace : list Effect
}.

Inductive Outcome (A : Type) :=
  | Return (a : A)
  | Throw (msg : string).
Arguments Return {A} a.
Arguments Throw {A} msg.

Definition M (A : Type) : Type := World -> Outcome A * World.

#[export] Instance M_ret : MRet M := fun A a w => (Return a, w).

#[export] Instance M_bind : MBind M := fun A B f m w =>
  match m w with
  | (Return a, w') => f a w'
  | (Throw e, w') => (Throw e, w')
  end.

Definition throw {A} (msg : string) : M A := fun w => (Throw msg, w).

(** [try { m } catch (err) { h err.message }]. *)
Definition try_catch {A} (m : M A) (h : string -> M A) : M A := fun w =>
  match m w with
  | (Return a, w') => (Return a, w')
  | (Throw e, w') => h e w'
  end.

Definition log (e : Effect) : M unit := fun w =>
  (Return tt, mkWorld (store w) (sink w) (faults w) (trace w ++ [e])).

Definition get_store : M Store := fun w => (Return (store w), w).

Definition put_store (st : Store) : M unit := fun w =>
  (Return tt, mkWorld st (sink w) (faults w) (trace w)).

(** *** Mongoose model operations *)

(** The document has the ObjectId that [i] stands for. *)
Definition has_id (i : string) (d : Doc) : bool := same_id (_id d) i.

(** The document a query by [_id] finds: the one whose ObjectId [id] casts
    to. *)
Definition lookup_id (id : option string) (st : Store) : option Doc :=
  match id with
  | Some i => List.find (has_id i) st
  | None => None          (* findById(undefined) is findOne({ _id: null }) *)
  end.

(** The message of the [CastError] of a query, and of the validation error
    of a document, for a string that is no ObjectId (what Mongoose adds
    after the path varies with its version and is left out). *)
Definition quoted (s : string) : string :=
  String (ascii_of_nat 34) (s +:+ String (ascii_of_nat 34) EmptyString).

Definition cast_error (value : string) : string :=
  "Cast to ObjectId failed for value " +:+ quoted value
  +:+ " (type string) at path " +:+ quoted "_id"
  +:+ " for model " +:+ quoted "UtmClick".

Definition validation_error (value : string) : string :=
  "UtmClick validation failed: _id: Cast to ObjectId failed for value "
  +:+ quoted value +:+ " (type string) at path " +:+ quoted "_id".

(** Whether Mongoose accepts the value as an id: [undefined], or a string
    of 24 hex digits. *)
Definition castable (id : option string) : bool :=
  match id with
  | Some i => is_hex24 i
  | None => true
  end.

(** [UtmClick.findById(id)]: the id is cast before the collection is
    asked. *)
Definition findById (id : option string) : M (option Doc) :=
  _ ← log (FindById id);
  match id with
  | Some i =>
      if is_hex24 i
      then st ← get_store; mret (lookup_id id st)
      else throw (cast_error i)
  | None => mret None
  end.

(** [UtmClick.findOne(q)]: the first match in natural order. *)
Definition select_first (q : Query) (st : Store) : option Doc :=
  head (filter (fun d => matches q d = true) st).

Definition findOne (q : Query) : M (option Doc) :=
  _ ← log (FindOne q);
  st ← get_store;
  mret (select_first q st).

(** [UtmClick.findOne(q).sort({ timestamp: -1 }).limit(1)]. *)
Definition select_one_newest (q : Query) (st : Store) : option Doc :=
  head (sort_newest_first (filter (fun d => matches q d = true) st)).

Definition findOneNewest (q : Query) : M (option Doc) :=
  _ ← log (FindOne q);
  st ← get_store;
  mret (select_one_newest q st).

(** [UtmClick.find(q).sort({ timestamp: -1 }).limit(n)]. *)
Definition select_newest (q : Query) (n : nat) (st : Store) : list Doc :=
  take n (sort_newest_first (filter (fun d => matches q d = true) st)).

Definition findNewest (q : Query) (n : nat) : M (list Doc) :=
  _ ← log (Find q n);
  st ← get_store;
  mret (select_newest q n st).

(** The [$set] of an update, with the [updatedAt] Mongoose adds. *)
Definition update_doc (now : Z) (p : Patch) (d : Doc) : Doc :=
  with_updatedAt now (apply_patch p d).

Definition update_store (now : Z) (id : option string) (p : Patch)
    (st : Store) : Store :=
  match id with
  | Some i => map (fun d => if has_id i d then update_doc now p d else d) st
  | None => st
  end.

(** [UtmClick.findByIdAndUpdate(id, p)]; a missing document is no error.
    Every call of the code passes the [_id] of a document it has read, or
    its [toString()], or a string that [findById] has just accepted, so the
    cast cannot fail here. *)
Definition findByIdAndUpdate (now : Z) (id : option string) (p : Patch)
    : M unit :=
  _ ← log (FindByIdAndUpdate id p);
  st ← get_store;
  put_store (update_store now id p st).

(** The [ObjectId] Mongoose makes up for a document created without an
    [_id]: one that no document of the collection has. *)
Definition objectId (st : Store) : string :=
  oid_string (fresh (map (fun d => oid_number (toLowerCase (_id d))) st)).

Definition new_doc (st : Store) (now : Z) (p : Patch) : Doc :=
  apply_patch p (schema_defaults (objectId st) now).

(** [UtmClick.create(p)]: a string given as [_id] must cast to an ObjectId,
    and the insert is refused when the [_id] is taken. *)
Definition create (now : Z) (p : Patch) : M unit :=
  _ ← log (Create p);
  if castable (patch_id p)
  then
    st ← get_store;
    let d := new_doc st now p in
    if existsb (has_id (_id d)) st
    then throw "E11000 duplicate key error"
    else put_store (st ++ [d])
  else throw (validation_error (default "" (patch_id p))).

(** ** The webhook handler (server.js, [app.post('/gallabox-webhook')]) *)

(** The fields of the request body the handler reads. *)
Record Event := mkEvent {
  ev_channelNumber : option string;      (* event.channelNumber *)
  ev_whatsapp_from : option string;      (* event.whatsapp?.from *)
  ev_text_body : option string;          (* event.whatsapp?.text?.body *)
  ev_list_reply_title : option string;   (* event.whatsapp?.interactive?.list_reply?.title *)
  ev_contactId : option string;          (* event.contactId *)
  ev_contact_id : option string;         (* event.contact?.id *)
  ev_contact_name : option string;       (* event.contact?.name *)
  ev_conversationId : option string;     (* event.conversationId *)
  ev_context : option string             (* event.context *)
}.

(** What one request reads from the process and the runtime. *)
Record Env := mkEnv {
  Date_now : Z;                            (* Date.now(), new Date() *)
  randomUUID : string;                     (* crypto.randomUUID() *)
  WHATSAPP_NUMBER : option string;         (* process.env.WHATSAPP_NUMBER *)
  STORE_DIRECT_MESSAGES : option string    (* process.env.STORE_DIRECT_MESSAGES *)
}.

(** A decoded context token: its [session_id] and the entries of the object
    that the schema knows. *)
Record Context := mkContext {
  session_id : option string;
  ctx_fields : Patch
}.

(** The three [let] variables of the handler. *)
Record Locals := mkLocals {
  sessionId : option string;
  utmData : Patch;
  attribution : string
}.

Inductive Response :=
  | Skipped                 (* 200 { status: 'skipped', reason: 'wrong_number' } *)
  | MissingPhone            (* 400 { error: 'Missing phone number' } *)
  | Processed (sessionId : option string) (source : option string)
              (attribution : string)
                            (* 200 { status: 'processed', ... } *)
  | Failed (details : string). (* 500 { error: 'Processing failed', details } *)

Definition status (r : Response) : Z :=
  match r with
  | Skipped => 200
  | MissingPhone => 400
  | Processed _ _ _ => 200
  | Failed _ => 500
  end.

Definition senderPhone (ev : Event) : string :=
  match ev_whatsapp_from ev with
  | Some from => Js.strip_leading_zeros from
  | None => ""
  end.

Definition countryCode : string := "91".

Definition normalizePhone (senderPhone : string) : string :=
  if negb (String.eqb senderPhone "")
     && negb (Js.startsWith senderPhone countryCode)
  then countryCode +:+ senderPhone
  else senderPhone.

Definition normalizedPhone (ev : Event) : string :=
  normalizePhone (senderPhone ev).

Definition contactId_of (ev : Event) : option string :=
  Js.or (ev_contactId ev) (Js.or (ev_contact_id ev) None).

Definition conversationId_of (ev : Event) : option string :=
  Js.or (ev_conversationId ev) None.

Definition contactName_of (ev : Event) : option string :=
  Js.or (ev_contact_name ev) None.

Definition messageContent_of (ev : Event) : string :=
  match Js.or (ev_text_body ev)
          (Some (Js.or_lit (ev_list_reply_title ev) "No text content")) with
  | Some s => s
  | None => "No text content"
  end.

Definition initial_locals : Locals :=
  {| sessionId := None;
     utmData := [ Set_source "direct_message"; Set_medium "whatsapp";
                  Set_campaign "organic"; Set_content "none" ];
     attribution := "direct" |}.

Definition fiveMinutesAgo (env : Env) : Z := Date_now env - 5 * 60 * 1000.

Definition direct_id (env : Env) : string :=
  "direct-" +:+ pretty (Date_now env) +:+ "-" +:+ Js.slice0 8 (randomUUID env).

(** The object the handler writes onto the record it settled on. *)
Definition updateData (env : Env) (attribution normalizedPhone : string)
    (contactId conversationId contactName : option string)
    (messageContent : string) : Patch :=
  [ Set_hasEngaged true;
    Set_phoneNumber (Some normalizedPhone);
    Set_engagedAt (Some (Date_now env));
    Set_syncedToSheets false;
    Set_attribution_source attribution;
    Set_contactId contactId;
    Set_conversationId conversationId ]
  ++ (if Js.truthy contactName then [Set_contactName contactName] else [])
  ++ (if negb (String.eqb messageContent "")
      then [Set_lastMessage (Some messageContent)] else []).

Section Webhook.

(** [JSON.parse(Buffer.from(token, 'base64').toString())]: [None] when it
    throws or yields a value without properties. *)
Variable parseContext : string -> option Context.

Variable env : Env.

Section Request.

Variables (normalizedPhone : string)
          (contactId conversationId contactName : option string)
          (messageContent : string).

(** Matching Priority 1: Context Parameter. *)
Definition priority1 (context : option string) (l : Locals) : M Locals :=
  Js.if_truthy context
    (fun token =>
       match parseContext token with
       | Some ctx =>
           if Js.truthy (session_id ctx)
           then mret {| sessionId := session_id ctx;
                        utmData := ctx_fields ctx;
                        attribution := "context" |}
           else mret l
       | None => mret l
       end)
    (mret l).

(** Matching Priority 2: Gallabox Identifiers. *)
Definition priority2 (l : Locals) : M Locals :=
  if negb (Js.truthy (sessionId l))
     && (Js.truthy contactId || Js.truthy conversationId)
  then
    recentClick ← findOneNewest (QRecentUnengaged (fiveMinutesAgo env));
    match recentClick with
    | Some click =>
        let sid := Some (_id click) in
        _ ← findByIdAndUpdate (Date_now env) sid
              [ Set_contactId contactId;
                Set_conversationId conversationId;
                Set_contactName (Js.or contactName None) ];
        mret {| sessionId := sid;
                utmData := toObject click;
                attribution := "gallabox_id_match" |}
    | None => mret l
    end
  else mret l.

(** Matching Priority 3: Phone Number. *)
Definition priority3 (l : Locals) : M Locals :=
  if negb (Js.truthy (sessionId l))
  then
    phoneMatch ← findOneNewest (QPhoneUnengaged normalizedPhone);
    match phoneMatch with
    | Some click =>
        mret {| sessionId := Some (_id click);
                utmData := toObject click;
                attribution := "phone_match" |}
    | None => mret l
    end
  else mret l.

(** Direct message handling. *)
Definition directHandling (l : Locals) : M Locals :=
  if negb (Js.truthy (sessionId l))
  then
    Js.if_truthy conversationId
      (fun conv =>
         existingDirect ← findOne (QDirectConversation conv);
         match existingDirect with
         | Some direct =>
             let sid := Some (_id direct) in
             _ ← findByIdAndUpdate (Date_now env) sid
                   [ Set_lastMessage (Some messageContent);
                     Set_engagedAt (Some (Date_now env)) ];
             mret {| sessionId := sid;
                     utmData := utmData l;
                     attribution := "existing_direct" |}
         | None =>
             if bool_decide (STORE_DIRECT_MESSAGES env = Some "true")
             then
               let sid := Some (direct_id env) in
               _ ← create (Date_now env)
                     ([ Set_id sid ] ++ utmData l ++
                      [ Set_timestamp (Date_now env);
                        Set_hasEngaged true;
                        Set_phoneNumber (Some normalizedPhone);
                        Set_lastMessage (Some messageContent);
                        Set_engagedAt (Some (Date_now env));
                        Set_syncedToSheets false;
                        Set_contactId contactId;
                        Set_conversationId conversationId;
                        Set_contactName contactName ]);
               mret {| sessionId := sid;
                       utmData := utmData l;
                       attribution := "new_direct" |}
             else
               mret {| sessionId := Some "not_stored";
                       utmData := utmData l;
                       attribution := "ignored_direct" |}
         end)
      (mret l)
  else mret l.

(** The strategy chain: the four blocks in source order. *)
Definition matchStrategies (context : option string) : M Locals :=
  l ← priority1 context initial_locals;
  l ← priority2 l;
  l ← priority3 l;
  directHandling l.

(** Update existing records. *)
Definition updateRecord (l : Locals) : M unit :=
  if negb (String.eqb (attribution l) "new_direct")
     && negb (bool_decide (sessionId l = Some "not_stored"))
  then
    let upd := updateData env (attribution l) normalizedPhone
                 contactId conversationId contactName messageContent in
    existingDoc ← findById (sessionId l);
    match existingDoc with
    | Some _ => findByIdAndUpdate (Date_now env) (sessionId l) upd
    | None =>
        create (Date_now env)
          ([ Set_id (sessionId l) ] ++ utmData l ++ upd ++
           [ Set_timestamp (Date_now env) ])
    end
  else mret tt.

End Request.

Definition gallabox_webhook (event : Event) (w : World) : Response * World :=
  let receivingNumber :=
    Js.digits_only (Js.or_lit (ev_channelNumber event) "") in
  let americanHairlineNumber :=
    Js.or_lit (WHATSAPP_NUMBER env) "919137279145" in
  if negb (String.eqb receivingNumber americanHairlineNumber)
  then (Skipped, w)
  else
    let phone := normalizedPhone event in
    let contactId := contactId_of event in
    let conversationId := conversationId_of event in
    let contactName := contactName_of event in
    let messageContent := messageContent_of event in
    if String.eqb phone ""
    then (MissingPhone, w)
    else
      match (l ← matchStrategies phone contactId conversationId contactName
                   messageContent (ev_context event);
             _ ← updateRecord phone contactId conversationId contactName
                   messageContent l;
             mret l) w with
      | (Return l, w') =>
          (Processed (sessionId l) (patch_source (utmData l)) (attribution l),
           w')
      | (Throw details, w') => (Failed details, w')
      end.

End Webhook.

(** ** The click endpoint (server.js, [app.post('/store-click')]) *)

Record ClickBody := mkClickBody {
  cb_session_id : option string;          (* session_id *)
  cb_original_params : option JsObject;   (* original_params *)
  cb_source : option string;              (* ...rawData *)
  cb_medium : option string;
  cb_campaign : option string;
  cb_content : option string;
  cb_placement : option string
}.

Inductive ClickResponse :=
  | ClickStored (session_id : option string)  (* 201 *)
  | ClickFailed.                              (* 500 *)

Definition click_utmData (now : Z) (body : ClickBody) : Patch :=
  let params := default [] (cb_original_params body) in
  let pick k raw lit := Js.or_lit (Js.or (Js.get k params) raw) lit in
  let source := pick "source" (cb_source body) "facebook" in
  let medium := pick "medium" (cb_medium body) "fb_ads" in
  let campaign := pick "campaign" (cb_campaign body) "unknown" in
  let content := pick "content" (cb_content body) "unknown" in
  let placement := pick "placement" (cb_placement body) "unknown" in
  [ Set_source source; Set_medium medium; Set_campaign campaign;
    Set_content content; Set_placement placement;
    Set_original_params
      (Js.set "placement" placement
        (Js.set "content" content
          (Js.set "source" source
            (Js.set "medium" medium
              (Js.set "campaign" campaign params)))));
    Set_click_time now ].

Definition store_click (env : Env) (body : ClickBody) (w : World)
    : ClickResponse * World :=
  let now := Date_now env in
  match (existing ← findById (cb_session_id body);
         match existing with
         | Some _ => mret tt
         | None =>
             create now
               ([ Set_id (cb_session_id body) ] ++ click_utmData now body ++
                [ Set_timestamp now; Set_hasEngaged false;
                  Set_syncedToSheets false ])
         end) w with
  | (Return _, w') => (ClickStored (cb_session_id body), w')
  | (Throw _, w') => (ClickFailed, w')
  end.

(** ** The export to the spreadsheet (google-sheets-sync.js) *)

(** One Sheets API call: it throws when the fault schedule says so, else it
    acts on the sheet and answers. *)
Definition sheets_api {A} (c : SheetsCall) (effect : Sink -> Sink)
    (reply : Sink -> A) : M A := fun w =>
  match faults w with
  | true :: rest =>
      (Throw "Sheets API error",
       mkWorld (store w) (sink w) rest (trace w ++ [Sheets c false]))
  | _ =>
      (Return (reply (sink w)),
       mkWorld (store w) (effect (sink w)) (tail (faults w))
         (trace w ++ [Sheets c true]))
  end.

Definition initializeSheetsClient : M unit :=
  sheets_api InitClient id (fun _ => tt).

(** [spreadsheets.get], reduced to [sheetExists]. *)
Definition spreadsheets_get : M bool :=
  sheets_api SpreadsheetsGet id hasSheet1.

Definition batchUpdate_addSheet : M unit :=
  sheets_api AddSheet (fun s => mkSink true (sheetRows s)) (fun _ => tt).

(** [values.get] of A1:N1: the first row when it holds anything. *)
Definition values_get_header : M (option Row) :=
  sheets_api ValuesGetHeader id
    (fun s => match sheetRows s with
              | [] => None
              | [] :: _ => None
              | r :: _ => Some r
              end).

Definition values_update_header (h : Row) : M unit :=
  sheets_api (ValuesUpdateHeader h)
    (fun s => mkSink (hasSheet1 s) (h :: tail (sheetRows s))) (fun _ => tt).

Definition values_append (rows : list Row) : M unit :=
  sheets_api (ValuesAppend rows)
    (fun s => mkSink (hasSheet1 s) (sheetRows s ++ rows)) (fun _ => tt).

Definition sleep (ms : Z) : M unit := log (Sleep ms).

(** [a || b || ... || 'literal']. *)
Fixpoint first_truthy (l : list (option string)) (lit : string) : string :=
  match l with
  | [] => lit
  | a :: l' => Js.if_truthy a (fun s => s) (first_truthy l' lit)
  end.

Fixpoint replace_newlines (s : string) : string :=
  match s with
  | EmptyString => EmptyString
  | String c rest =>
      String (if Ascii.eqb c "010"%char then " "%char else c)
             (replace_newlines rest)
  end.

Definition sheetRow (data : Doc) : Row :=
  let originalParams := original_params data in
  let op k := Js.get k originalParams in
  [ CIso (click_time data);
    CStr (first_truthy [phoneNumber data] "N/A");
    CStr (first_truthy [op "CampaignSource"; op "Campaign Source";
                        op "Campaign_Source"; op "source";
                        Some (source data)] "direct");
    CStr (first_truthy [op "AdSetName"; op "Ad Set Name"; op "Ad_Set_Name";
                        op "medium"; Some (medium data)] "organic");
    CStr (first_truthy [op "CampaignName"; op "Campaign Name";
                        op "Campaign_Name"; op "campaign";
                        Some (campaign data)] "none");
    CStr (first_truthy [op "AdName"; op "Ad Name"; op "Ad_Name";
                        op "content"; Some (content data)] "none");
    CStr (first_truthy [op "Placement"; op "placement";
                        Some (placement data)] "N/A");
    CStr (if hasEngaged data then "✅ YES" else "❌ NO");
    match engagedAt data with Some t => CIso t | None => CStr "N/A" end;
    CStr (first_truthy [Some (attribution_source data)] "unknown");
    CStr (first_truthy [contactId data] "N/A");
    CStr (first_truthy [conversationId data] "N/A");
    CStr (first_truthy [contactName data] "Anonymous");
    CStr (Js.if_truthy (lastMessage data)
            (fun m => replace_newlines (Js.slice0 150 m))
            "No text content") ].

Definition convertToSheetRows (docs : list Doc) : list Row := map sheetRow docs.

Definition requiredHeaders : Row :=
  map CStr [ "Timestamp"; "Phone Number"; "UTM Source"; "UTM Medium";
             "UTM Campaign"; "UTM Content"; "Placement"; "Engaged";
             "Engaged At"; "Attribution Source"; "Contact ID";
             "Conversation ID"; "Contact Name"; "Last Message" ].

Inductive SyncResult :=
  | NothingToSync          (* { count: 0 } *)
  | Synced (count : nat).  (* { count, spreadsheetId, sheetName } *)

Definition markSynced (now : Z) : Patch :=
  [ Set_syncedToSheets true; Set_lastSynced (Some now) ].

(** [await Promise.all(documents.map(doc => findByIdAndUpdate(...)))]. *)
Fixpoint markAll (now : Z) (documents : list Doc) : M unit :=
  match documents with
  | [] => mret tt
  | doc :: rest =>
      _ ← findByIdAndUpdate now (Some (_id doc)) (markSynced now);
      markAll now rest
  end.

(** The body of the [try] in [syncToSheets]: one attempt. *)
Definition syncAttempt (now : Z) : M SyncResult :=
  _ ← initializeSheetsClient;
  sheetExists ← spreadsheets_get;
  _ ← (if negb sheetExists then batchUpdate_addSheet else mret tt);
  header ← values_get_header;
  _ ← (match header with
        | None => values_update_header requiredHeaders
        | Some _ => mret tt
        end);
  documents ← findNewest QEngagedUnsynced 250;
  if (length documents =? 0)%nat
  then mret NothingToSync
  else
    let rows := convertToSheetRows documents in
    _ ← values_append rows;
    _ ← markAll now documents;
    mret (Synced (length rows)).

Definition MAX_RETRIES : nat := 3.

(** The [while (attempt < MAX_RETRIES)] loop. [clock k] is the time the
    attempt numbered [k] (from 0) reads; [None] is the [undefined] the
    function would return if the loop ran out. *)
Fixpoint syncLoop (fuel : nat) (clock : nat -> Z) (attempt : nat)
    : M (option SyncResult) :=
  match fuel with
  | O => mret None
  | S fuel' =>
      if (attempt <? MAX_RETRIES)%nat
      then
        try_catch
          (r ← syncAttempt (clock attempt); mret (Some r))
          (fun err =>
             let attempt := S attempt in
             if (MAX_RETRIES <=? attempt)%nat
             then throw ("Final sync failure: " +:+ err)
             else
               _ ← sleep (Z.of_nat attempt * 2000);
               syncLoop fuel' clock attempt)
      else mret None
  end.

Definition syncToSheets (clock : nat -> Z) : M (option SyncResult) :=
  syncLoop MAX_RETRIES clock 0.

(** The change-stream listener of [setupRealtimeSync]. *)
Record Change := mkChange {
  operationType : string;
  fullDocument : option Doc
}.

Definition on_change (now : Z) (change : Change) : M unit :=
  try_catch
    (if negb (String.eqb (operationType change) "insert")
        && negb (String.eqb (operationType change) "update")
     then mret tt
     else
       match fullDocument change with
       | None => mret tt
       | Some doc =>
           _ ← initializeSheetsClient;
           let rows := convertToSheetRows [doc] in
           _ ← values_append rows;
           findByIdAndUpdate now (Some (_id doc)) (markSynced now)
       end)
    (fun _ => mret tt).

(** ** The strategy chain as a priority list

    The specification describes the matcher as six strategies tried in
    order, the first to yield a match deciding the outcome. These
    definitions follow that description; [matchStrategies] above follows
    the code. *)

Definition Strategy := M (option Locals).

Fixpoint first_match (chain : list Strategy) (unmatched : Locals) : M Locals :=
  match chain with
  | [] => mret unmatched
  | strategy :: lower =>
      r ← strategy;
      match r with
      | Some hit => mret hit
      | None => first_match lower unmatched
      end
  end.

Section Strategies.

Variable parseContext : string -> option Context.
Variable env : Env.
Variables (normalizedPhone : string)
          (contactId conversationId contactName : option string)
          (messageContent : string)
          (context : option string).

Definition directDefaults : Patch := utmData initial_locals.

(** 1. Context token match. *)
Definition contextTokenMatch : Strategy :=
  mret (Js.if_truthy context
          (fun token =>
             match parseContext token with
             | Some ctx =>
                 if Js.truthy (session_id ctx)
                 then Some (mkLocals (session_id ctx) (ctx_fields ctx) "context")
                 else None
             | None => None
             end)
          None).

(** 2. External-identifier match, with its enrichment of the record. *)
Definition externalIdentifierMatch : Strategy :=
  if Js.truthy contactId || Js.truthy conversationId
  then
    found ← findOneNewest (QRecentUnengaged (fiveMinutesAgo env));
    match found with
    | Some click =>
        _ ← findByIdAndUpdate (Date_now env) (Some (_id click))
              [ Set_contactId contactId;
                Set_conversationId conversationId;
                Set_contactName (Js.or contactName None) ];
        mret (Some (mkLocals (Some (_id click)) (toObject click)
                      "gallabox_id_match"))
    | None => mret None
    end
  else mret None.

(** 3. Phone match. *)
Definition phoneMatch : Strategy :=
  found ← findOneNewest (QPhoneUnengaged normalizedPhone);
  mret (match found with
        | Some click =>
            Some (mkLocals (Some (_id click)) (toObject click) "phone_match")
        | None => None
        end).

(** 4. Existing direct-conversation match, with its message update. *)
Definition existingDirectMatch : Strategy :=
  Js.if_truthy conversationId
    (fun conv =>
       found ← findOne (QDirectConversation conv);
       match found with
       | Some direct =>
           _ ← findByIdAndUpdate (Date_now env) (Some (_id direct))
                 [ Set_lastMessage (Some messageContent);
                   Set_engagedAt (Some (Date_now env)) ];
           mret (Some (mkLocals (Some (_id direct)) directDefaults
                         "existing_direct"))
       | None => mret None
       end)
    (mret None).

Definition captureEnabled : bool :=
  bool_decide (STORE_DIRECT_MESSAGES env = Some "true").

(** 5. New direct record. *)
Definition newDirectRecord : Strategy :=
  if Js.truthy conversationId && captureEnabled
  then
    _ ← create (Date_now env)
          ([ Set_id (Some (direct_id env)) ] ++ directDefaults ++
           [ Set_timestamp (Date_now env);
             Set_hasEngaged true;
             Set_phoneNumber (Some normalizedPhone);
             Set_lastMessage (Some messageContent);
             Set_engagedAt (Some (Date_now env));
             Set_syncedToSheets false;
             Set_contactId contactId;
             Set_conversationId conversationId;
             Set_contactName contactName ]);
    mret (Some (mkLocals (Some (direct_id env)) directDefaults "new_direct"))
  else mret None.

(** 6. Ignore: capture is disabled and nothing matched. The specification
    names no record id here; the code reports the session ['not_stored']. *)
Definition ignoreDirect : Strategy :=
  if negb captureEnabled
  then mret (Some (mkLocals (Some "not_stored") directDefaults
                     "ignored_direct"))
  else mret None.

Definition strategyChain : list Strategy :=
  [ contextTokenMatch; externalIdentifierMatch; phoneMatch;
    existingDirectMatch; newDirectRecord; ignoreDirect ].

End Strategies.

(** ** The system as a whole: requests served one after another *)

(** The event is for the configured WhatsApp number. *)
Definition addressed_here (env : Env) (event : Event) : Prop :=
  Js.digits_only (Js.or_lit (ev_channelNumber event) "")
  = Js.or_lit (WHATSAPP_NUMBER env) "919137279145".

Definition with_faults (fs : list bool) (w : World) : World :=
  mkWorld (store w) (sink w) fs (trace w).

Inductive Request :=
  | PostStoreClick (env : Env) (body : ClickBody)
  | PostGallaboxWebhook (env : Env) (event : Event)
  | PostScheduledSync (clock : nat -> Z) (fs : list bool)
  | ChangeStreamEvent (now : Z) (change : Change) (fs : list bool).

Section System.

Variable parseContext : string -> option Context.

Definition serve (r : Request) (w : World) : World :=
  match r with
  | PostStoreClick env body => snd (store_click env body w)
  | PostGallaboxWebhook env event =>
      snd (gallabox_webhook parseContext env event w)
  | PostScheduledSync clock fs => snd (syncToSheets clock (with_faults fs w))
  | ChangeStreamEvent now change fs =>
      snd (on_change now change (with_faults fs w))
  end.

(** The worlds the system gets to from an empty collection. *)
Inductive reachable : World -> Prop :=
  | reachable_start (s : Sink) : reachable (mkWorld [] s [] [])
  | reachable_serve (r : Request) (w : World) :
      reachable w -> reachable (serve r w).

End System.

(** The session ids of the examples: strings that cast to ObjectIds. *)
Definition session1 : string := "65a1b2c3d4e5f60718293a41".
Definition session2 : string := "65a1b2c3d4e5f60718293a42".
Definition session3 : string := "65a1b2c3d4e5f60718293a43".
Definition session7 : string := "65a1b2c3d4e5f60718293a47".

(** A token table standing in for the decoder in examples: the token is
    the base64 of the JSON object whose only entry is [session_id], with
    the value [session1]. *)
Definition example_parseContext (token : string) : option Context :=
  if String.eqb token "eyJzZXNzaW9uX2lkIjoiNjVhMWIyYzNkNGU1ZjYwNzE4MjkzYTQxIn0="
  then Some (mkContext (Some session1) [])
  else None.

(** The string of [n] zeros. *)
Fixpoint zeros (n : nat) : string :=
  match n with
  | O => ""
  | S n' => String "0"%char (zeros n')
  end.

(** ** Example inputs *)

Definition empty_world : World := mkWorld [] (mkSink false []) [] [].

Definition example_env : Env := mkEnv 1700000000000 "3f2a9c1e-7b4d" None None.

(** A text message for the configured number, from [from], with no
    contact, conversation or context. *)
Definition text_from (from : option string) : Event :=
  mkEvent (Some "919137279145") from (Some "hi") None None None None None None.

(** A message for a number other than the configured one, from a sender
    number that strips to nothing. *)
Definition message_for_another_number : Event :=
  mkEvent (Some "918888888888") (Some "000") (Some "hi") None
    None None None None None.

(** ** Auxiliary notions for the proofs *)

(** The answer of the webhook handler to the outcome of its [try] block. *)
Definition answer (rw : Outcome Locals * World) : Response * World :=
  match rw with
  | (Return l, w') =>
      (Processed (sessionId l) (patch_source (utmData l)) (attribution l), w')
  | (Throw details, w') => (Failed details, w')
  end.

(** The literal has no [_id] entry with a value. *)
Definition keeps_id (p : Patch) : bool :=
  forallb (fun s => match s with Set_id (Some _) => false | _ => true end) p.

(** The guard of the "Update existing records" block. *)
Definition update_applies (l : Locals) : bool :=
  negb (String.eqb (attribution l) "new_direct")
  && negb (bool_decide (sessionId l = Some "not_stored")).

(** A click [session1] from Instagram; two minutes later a message that
    names a contact; a minute after that a message that carries the
    context token of [session1] and no contact. *)
Definition click_s1 : ClickBody :=
  mkClickBody (Some session1) None (Some "instagram") None None None None.

Definition message_with_contact : Event :=
  mkEvent (Some "919137279145") (Some "09876543210") (Some "hello") None
    (Some "k1") None (Some "Asha") None None.

Definition message_with_context : Event :=
  mkEvent (Some "919137279145") (Some "09876543210") (Some "hi") None
    None None None None (Some "eyJzZXNzaW9uX2lkIjoiNjVhMWIyYzNkNGU1ZjYwNzE4MjkzYTQxIn0=").

Definition at_time (t : Z) : Env := mkEnv t "3f2a9c1e-7b4d" None None.

Definition world_clicked : World :=
  serve example_parseContext
    (PostStoreClick (at_time 1700000000000) click_s1) empty_world.

Definition world_engaged : World :=
  serve example_parseContext
    (PostGallaboxWebhook (at_time 1700000120000) message_with_contact)
    world_clicked.

Definition world_context_reply : World :=
  serve example_parseContext
    (PostGallaboxWebhook (at_time 1700000180000) message_with_context)
    world_engaged.

(** A later message for the same record that carries its context token
    and nothing else: no contact, no name and no text. *)
Definition bare_context_message : Event :=
  mkEvent (Some "919137279145") (Some "09876543210") None None
    None None None None
    (Some "eyJzZXNzaW9uX2lkIjoiNjVhMWIyYzNkNGU1ZjYwNzE4MjkzYTQxIn0=").

Definition world_bare_reply : World :=
  serve example_parseContext
    (PostGallaboxWebhook (at_time 1700000180000) bare_context_message)
    world_engaged.

Definition record_s1 (w : World) : Doc :=
  default (schema_defaults "" 0) (lookup_id (Some session1) (store w)).

(** The decoded context token of an event, when it decodes to an object
    with a truthy [session_id]. *)
Definition decoded_session (parseContext : string -> option Context)
    (context : option string) : option Context :=
  Js.if_truthy context
    (fun token =>
       match parseContext token with
       | Some ctx => if Js.truthy (session_id ctx) then Some ctx else None
       | None => None
       end)
    None.

Definition is_FindOne (e : Effect) : bool :=
  match e with FindOne _ => true | _ => false end.

(** Two clicks a minute apart, and a message two minutes after the first
    that carries the context token of the older click together with a
    contact and a conversation identifier. *)
Definition click_s2 : ClickBody :=
  mkClickBody (Some session2) None (Some "google") None None None None.

Definition world_two_clicks : World :=
  serve example_parseContext
    (PostStoreClick (at_time 1700000060000) click_s2) world_clicked.

Definition message_with_everything : Event :=
  mkEvent (Some "919137279145") (Some "09876543210") (Some "hi") None
    (Some "k1") None (Some "Asha") (Some "c9")
    (Some "eyJzZXNzaW9uX2lkIjoiNjVhMWIyYzNkNGU1ZjYwNzE4MjkzYTQxIn0=").

Definition logged (e : Effect) (w : World) : World :=
  mkWorld (store w) (sink w) (faults w) (trace w ++ [e]).

(** A program keeps a relation between the collection before and after. *)
Definition preserves (R : Store -> Store -> Prop) {A} (m : M A) : Prop :=
  forall w, R (store w) (store (snd (m w))).

(** A phone number is on a record only once the record is engaged. *)
Definition phone_implies_engaged (d : Doc) : Prop :=
  phoneNumber d <> None -> hasEngaged d = true.

(** Every record engaged before is still there, under its [_id], and still
    engaged. *)
Definition engagement_kept (st st' : Store) : Prop :=
  forall d, d ∈ st -> hasEngaged d = true ->
  exists d', d' ∈ st' /\ _id d' = _id d /\ hasEngaged d' = true.

(** Requests served in order. *)
Definition serve_all (parseContext : string -> option Context)
    (rs : list Request) (w : World) : World :=
  fold_left (fun w r => serve parseContext r w) rs w.

(** A message from a number nobody clicked with: it leaves a
    "direct_message" record that carries the phone. *)
Definition world_direct : World :=
  serve example_parseContext
    (PostGallaboxWebhook (at_time 1700000000000)
       (text_from (Some "09876543210")))
    empty_world.

Definition record_0 (w : World) : Doc :=
  default (schema_defaults "" 0) (lookup_id (Some (oid_string 0)) (store w)).

(** What the export is meant to pick up. *)
Definition export_eligible (d : Doc) : Prop :=
  hasEngaged d = true /\ syncedToSheets d = false
  /\ source d <> "direct_message".

(** ** Reading a trace of the export *)

Definition is_throw {A} (r : Outcome A) : bool :=
  match r with Throw _ => true | Return _ => false end.

Definition is_append (ok : bool) (e : Effect) : bool :=
  match e with
  | Sheets (ValuesAppend _) ok' => Bool.eqb ok ok'
  | _ => false
  end.

(** Every write to the collection comes after an append that succeeded,
    with no failed append in between. *)
Fixpoint marks_follow_append (appended : bool) (calls : list Effect) : bool :=
  match calls with
  | [] => true
  | Sheets (ValuesAppend _) ok :: rest => marks_follow_append ok rest
  | FindByIdAndUpdate _ _ :: rest =>
      appended && marks_follow_append appended rest
  | Create _ :: rest => false
  | _ :: rest => marks_follow_append appended rest
  end.

(** An attempt begins by building the Sheets client. *)
Definition is_attempt_start (e : Effect) : bool :=
  match e with Sheets InitClient _ => true | _ => false end.

Definition attempts_in (calls : list Effect) : nat :=
  length (List.filter is_attempt_start calls).

Definition sleeps_in (calls : list Effect) : list Z :=
  omap (fun e => match e with Sleep ms => Some ms | _ => None end) calls.

(** The calls of a run made of the given attempts, with the wait after the
    failed attempt number [k], [k + 1], ... between them. *)
Fixpoint with_backoff (k : nat) (attempts : list (list Effect))
    : list Effect :=
  match attempts with
  | [] => []
  | [a] => a
  | a :: later => a ++ Sleep (Z.of_nat k * 2000) :: with_backoff (S k) later
  end.

Definition mark_of (now : Z) (doc : Doc) : Effect :=
  FindByIdAndUpdate (Some (_id doc)) (markSynced now).

Definition mark_store (now : Z) (documents : list Doc) (st : Store) : Store :=
  fold_left
    (fun st doc => update_store now (Some (_id doc)) (markSynced now) st)
    documents st.

(** What one attempt (or one change-stream event) did, read off the calls
    it added to the trace. *)
Definition attempt_report {A} (w : World) (rw : Outcome A * World)
    (calls : list Effect) : Prop :=
  trace (snd rw) = trace w ++ calls
  /\ marks_follow_append false calls = true
  /\ (attempts_in calls <= 1)%nat
  /\ sleeps_in calls = []
  /\ (is_throw (fst rw) = true -> store (snd rw) = store w)
  /\ (existsb (is_append false) calls = true -> store (snd rw) = store w)
  /\ (existsb (is_append true) calls = false -> store (snd rw) = store w).

(** Before any record is marked, an append has succeeded. *)
Definition append_precedes_marks (calls : list Effect) : Prop :=
  forall pre id p post,
    calls = pre ++ FindByIdAndUpdate id p :: post ->
    exists rows, Sheets (ValuesAppend rows) true ∈ pre.

Definition single_attempt (calls : list Effect) : Prop :=
  attempts_in calls = 1%nat /\ sleeps_in calls = [].

(** Three clicks a minute apart, each followed ten seconds later by a
    message that names a contact; then one batch sync that meets no fault. *)
Definition click_s3 : ClickBody :=
  mkClickBody (Some session3) None (Some "facebook") None None None None.

Definition three_engaged : World :=
  serve_all example_parseContext
    [ PostStoreClick (at_time 1700000000000) click_s1;
      PostGallaboxWebhook (at_time 1700000010000) message_with_contact;
      PostStoreClick (at_time 1700000060000) click_s2;
      PostGallaboxWebhook (at_time 1700000070000) message_with_contact;
      PostStoreClick (at_time 1700000120000) click_s3;
      PostGallaboxWebhook (at_time 1700000130000) message_with_contact ]
    empty_world.

Definition appends_of (calls : list Effect) : list (list Row * bool) :=
  omap (fun e => match e with
                 | Sheets (ValuesAppend rows) ok => Some (rows, ok)
                 | _ => None
                 end) calls.

(** A message that names a conversation and nothing else. *)
Definition message_with_conversation : Event :=
  mkEvent (Some "919137279145") (Some "09876543210") (Some "hi") None
    None None None (Some "c9") None.

(** ** Secrets and the webhook guard (server.js, [getSecret],
       [verifyGallabox]) *)

(** [secretsManager.getSecretValue({ SecretId }).promise()] as the code sees
    it: it rejects with a message, or yields data whose [SecretString] may be
    undefined. *)
Definition SecretsManager := string -> Outcome (option string).

(** The [secretCache] Map, and the names asked of the Secrets Manager so
    far. *)
Record SecretState := mkSecretState {
  secretCache : list (string * option string);
  secretCalls : list string
}.

Fixpoint cache_get (name : string) (cache : list (string * option string))
    : option (option string) :=
  match cache with
  | [] => None
  | (k, v) :: rest => if String.eqb name k then Some v else cache_get name rest
  end.

Definition getSecret (manager : SecretsManager) (secretName : string)
    (s : SecretState) : Outcome (option string) * SecretState :=
  match cache_get secretName (secretCache s) with
  | Some cached => (Return cached, s)
  | None =>
      let asked := secretCalls s ++ [secretName] in
      match manager secretName with
      | Return secretValue =>
          (Return secretValue,
           mkSecretState (secretCache s ++ [(secretName, secretValue)]) asked)
      | Throw message => (Throw message, mkSecretState (secretCache s) asked)
      end
  end.

Inductive Guard :=
  | Next            (* next() *)
  | InvalidToken    (* 401 'Invalid token' *)
  | AuthFailed.     (* 500 'Authentication failed' *)

(** [verifyGallabox]: [header] is [req.headers['x-gallabox-token']],
    [GALLABOX_TOKEN] the environment variable. *)
Definition verifyGallabox (manager : SecretsManager)
    (GALLABOX_TOKEN : option string) (header : option string)
    (s : SecretState) : Guard * SecretState :=
  let '(resolved, s') :=
    if Js.truthy GALLABOX_TOKEN
    then (Return GALLABOX_TOKEN, s)
    else getSecret manager "utm-tracker/gallabox-token" s in
  match resolved with
  | Return gallaboxToken =>
      if bool_decide (header <> gallaboxToken)
      then (InvalidToken, s')
      else (Next, s')
  | Throw _ => (AuthFailed, s')
  end.

(** ** The scheduled sync (google-sheets-sync.js, [scheduledSync]) *)

(** [s.includes(sub)]. *)
Fixpoint includes (sub s : string) : bool :=
  String.prefix sub s
  || match s with
     | EmptyString => false
     | String _ rest => includes sub rest
     end.

Record SyncReport := mkSyncReport {
  success : bool;
  duration : Z;
  syncedCount : nat;              (* syncResult.count *)
  reportsSpreadsheet : bool;      (* spreadsheetId is defined *)
  error : option string;
  retryable : option bool;
  reportedAt : Z                  (* timestamp *)
}.

(** [startTime] and [endTime] are the two readings of [Date.now()],
    [finishedAt] the [new Date()] of the [finally] block. A [syncToSheets]
    that returned [undefined] makes [syncResult.count] throw after
    [success] was set. The errors that reach the [catch] carry no [code],
    so [err.code === 429] is false. *)
Definition scheduledSync (clock : nat -> Z) (startTime endTime finishedAt : Z)
    (w : World) : SyncReport * World :=
  match syncToSheets clock w with
  | (Return (Some NothingToSync), w') =>
      (mkSyncReport true (endTime - startTime) 0%nat false None None
         finishedAt, w')
  | (Return (Some (Synced count)), w') =>
      (mkSyncReport true (endTime - startTime) count true None None
         finishedAt, w')
  | (Return None, w') =>
      let message :=
        "Cannot read properties of undefined (reading 'count')" in
      (mkSyncReport true 0 0%nat false (Some message)
         (Some (includes "quota" message || false)) finishedAt, w')
  | (Throw message, w') =>
      (mkSyncReport false 0 0%nat false (Some message)
         (Some (includes "quota" message || false)) finishedAt, w')
  end.

(** [app.post('/scheduled-sync')]: the status and the body. *)
Definition post_scheduled_sync (clock : nat -> Z)
    (startTime endTime finishedAt : Z) (w : World)
    : Z * SyncReport * World :=
  let '(result, w') := scheduledSync clock startTime endTime finishedAt w in
  (200, result, w').

(** ** The live feed (google-sheets-sync.js, [setupRealtimeSync]) *)

(** The [$match] stage of the change stream. *)
Definition feed_matches (change : Change) : bool :=
  match fullDocument change with
  | Some doc =>
      hasEngaged doc && negb (syncedToSheets doc)
      && negb (String.eqb (source doc) "direct_message")
  | None => false
  end.

(** A change reaches the listener only through the [$match] stage. *)
Definition change_feed (now : Z) (change : Change) : M unit :=
  if feed_matches change then on_change now change else mret tt.

(** The verdict of the guard once the token to compare with is known. *)
Definition guard_decision (gallaboxToken header : option string) : Guard :=
  if bool_decide (header <> gallaboxToken) then InvalidToken else Next.

(** A Secrets Manager that holds one string under every name, one whose
    secrets have no [SecretString], and one that is out of reach. *)
Definition manager_with (value : string) : SecretsManager :=
  fun _ => Return (Some value).

Definition manager_binary : SecretsManager := fun _ => Return None.

Definition manager_down : SecretsManager :=
  fun _ => Throw "AccessDeniedException".

Definition no_secrets : SecretState := mkSecretState [] [].

(** ** The click page (front_end.js) *)

(** [new URLSearchParams(window.location.search)]: the decoded name/value
    pairs in order of appearance. *)
Definition URLSearchParams := list (string * string).

(** [params.get(name)]: the first value for the name. *)
Definition params_get (name : string) (params : URLSearchParams)
    : option string :=
  Js.get name params.

(** [Object.fromEntries(params)]: each pair is assigned in turn, so a
    repeated name keeps its place and gets the last value, and the names
    are listed in the property order of JavaScript. *)
Definition fromEntries (params : URLSearchParams) : JsObject :=
  fold_left (fun o kv => Js.define (fst kv) (snd kv) o) params [].

(** [s.replace(/a/g, 'b')] for single characters. *)
Fixpoint replace_char (a b : ascii) (s : string) : string :=
  match s with
  | EmptyString => EmptyString
  | String c rest =>
      String (if Ascii.eqb c a then b else c) (replace_char a b rest)
  end.

Definition variations (name : string) : list string :=
  [ name;
    toLowerCase name;
    replace_char " " "_" name;
    replace_char "_" " " name ].

Section ClickPage.

(** [decodeURIComponent]: [None] when it throws [URIError]. *)
Variable decodeURIComponent : string -> option string.

(** [btoa(JSON.stringify(contextData))] for the context object the page
    builds: [None] when [btoa] throws. *)
Variable encodeContext : Context -> option string.

(** The inner loop of [getParam]: the first variation with a truthy
    value. *)
Fixpoint first_variation (params : URLSearchParams) (vs : list string)
    : option string :=
  match vs with
  | [] => None
  | variant :: rest =>
      Js.if_truthy (params_get variant params)
        (fun value => Some value)
        (first_variation params rest)
  end.

(** The outer loop. *)
Fixpoint first_name (params : URLSearchParams) (names : list string)
    : option string :=
  match names with
  | [] => None
  | name :: rest =>
      match first_variation params (variations name) with
      | Some value => Some value
      | None => first_name params rest
      end
  end.

Definition getParam (params : URLSearchParams) (names : list string)
    : Outcome string :=
  match first_name params names with
  | Some value =>
      match decodeURIComponent value with
      | Some decoded => Return decoded
      | None => Throw "URIError: URI malformed"
      end
  | None => Return ""
  end.

(** What the page knows when the button is clicked. *)
Record Page := mkPage {
  search : URLSearchParams;     (* window.location.search *)
  href : string;                (* window.location.href *)
  page_now : Z;                 (* Date.now() *)
  page_uuid : string;           (* crypto.randomUUID() *)
  page_clicked : Z              (* new Date(), sent as its toISOString() *)
}.

Record TrackingData := mkTrackingData {
  td_source : string;
  td_medium : string;
  td_campaign : string;
  td_content : string;
  td_placement : string;
  td_gallabox_id : string;
  td_original_params : JsObject;
  td_session_id : string;
  td_full_url : string;
  td_click_time : Z
}.

(** [getParam(names) || 'literal']. *)
Definition param_or (page : Page) (names : list string) (lit : string)
    : Outcome string :=
  match getParam (search page) names with
  | Return v => Return (Js.or_lit (Some v) lit)
  | Throw e => Throw e
  end.

Definition buildTrackingData (page : Page) (sessionId : string)
    : Outcome TrackingData :=
  match param_or page ["Campaign Source"; "utm_source"; "site_source_name"]
          "facebook" with
  | Throw e => Throw e
  | Return source =>
  match param_or page ["Ad Set Name"; "utm_medium"; "adset.name"] "fb_ads" with
  | Throw e => Throw e
  | Return medium =>
  match param_or page ["Campaign Name"; "utm_campaign"; "campaign.name"]
          "unknown" with
  | Throw e => Throw e
  | Return campaign =>
  match param_or page ["Ad Name"; "utm_content"; "ad.name"] "unknown" with
  | Throw e => Throw e
  | Return content =>
  match param_or page ["Placement"; "utm_placement"] "unknown" with
  | Throw e => Throw e
  | Return placement =>
  match getParam (search page) ["gbx_id"; "gallabox_contact"] with
  | Throw e => Throw e
  | Return gallabox_id =>
      Return (mkTrackingData source medium campaign content placement
                gallabox_id (fromEntries (search page)) sessionId
                (href page) (page_clicked page))
  end end end end end end.

(** What the click handler asks of the browser. *)
Inductive BrowserCall :=
  | PreventDefault
  | StopPropagation
  | Fetch (body : TrackingData)     (* POST trackingEndpoint *)
  | WindowOpen (url : string).

(** How the POST ends: [response.ok], an HTTP error status, or a rejected
    promise. *)
Inductive FetchOutcome :=
  | FetchOk
  | FetchStatus (code : Z)
  | FetchRejected.

Definition whatsappNumber : string := "919137279145".

Definition plain_url : string :=
  "https://api.whatsapp.com/send/?phone=" +:+ whatsappNumber.

(** [encodeURIComponent('Hello!')] is ['Hello!']. *)
Definition context_url (encodedContext : string) : string :=
  "https://api.whatsapp.com/send/?phone=" +:+ whatsappNumber
  +:+ "&text=" +:+ "Hello!" +:+ "&context=" +:+ encodedContext.

Definition page_session_id (page : Page) : string :=
  "wa-" +:+ pretty (page_now page) +:+ "-" +:+ Js.slice0 8 (page_uuid page).

(** The object put into the context token, as the server reads it back:
    its [session_id], and the entries the schema knows. *)
Definition contextData (utmData : TrackingData) : Context :=
  mkContext (Some (td_session_id utmData))
    [ Set_source (td_source utmData);
      Set_medium (td_medium utmData);
      Set_campaign (td_campaign utmData);
      Set_placement (td_placement utmData);
      Set_click_time (td_click_time utmData) ].

(** [handleWhatsAppClick]: [buildTrackingData] runs before the [try]. *)
Definition handleWhatsAppClick (page : Page) (posted : FetchOutcome)
    : Outcome unit * list BrowserCall :=
  let sessionId := page_session_id page in
  match buildTrackingData page sessionId with
  | Throw e => (Throw e, [PreventDefault; StopPropagation])
  | Return utmData =>
      let before := [PreventDefault; StopPropagation; Fetch utmData] in
      match posted with
      | FetchOk =>
          match encodeContext (contextData utmData) with
          | Some encodedContext =>
              (Return tt, before ++ [WindowOpen (context_url encodedContext)])
          | None => (Return tt, before ++ [WindowOpen plain_url])
          end
      | FetchStatus _ | FetchRejected =>
          (Return tt, before ++ [WindowOpen plain_url])
      end
  end.

(** The body the server's [/store-click] reads from the POST. *)
Definition posted_body (utmData : TrackingData) : ClickBody :=
  mkClickBody (Some (td_session_id utmData))
    (Some (td_original_params utmData))
    (Some (td_source utmData)) (Some (td_medium utmData))
    (Some (td_campaign utmData)) (Some (td_content utmData))
    (Some (td_placement utmData)).

End ClickPage.

(** The poller: [observations] says, tick after tick, whether the button
    is in the page. The result is the number of ticks before the interval
    is cleared and whether the handler was attached; [None] when the
    observations end with the interval still running. *)
Definition FRONT_MAX_RETRIES : nat := 8.

Fixpoint poller (pollCount ticks : nat) (observations : list bool)
    : option (nat * bool) :=
  match observations with
  | [] => None
  | button :: later =>
      if button then Some (S ticks, true)
      else if (FRONT_MAX_RETRIES <=? pollCount)%nat
           then Some (S ticks, false)
           else poller (S pollCount) (S ticks) later
  end.

(** ** Notions used by the further properties *)

(** What a record is created with and keeps: its key, its attribution
    dimensions, the raw parameters and the creation times. *)
Definition click_facts (d : Doc) :=
  (_id d, source d, medium d, campaign d, content d, placement d,
   original_params d, timestamp d, click_time d, full_url d, createdAt d).

(** The sheet once the header step of a sync has run. *)
Definition header_ready (rows : list Row) : list Row :=
  match rows with
  | [] => [requiredHeaders]
  | [] :: below => requiredHeaders :: below
  | _ :: _ => rows
  end.

Definition eligible_docs (st : Store) : list Doc :=
  filter (fun d => matches QEngagedUnsynced d = true) st.



(** The engagement and sync fields of a record agree with one another. *)
Definition record_consistent (d : Doc) : Prop :=
  (hasEngaged d = true <-> phoneNumber d <> None)
  /\ (hasEngaged d = true -> engagedAt d <> None)
  /\ (syncedToSheets d = true -> lastSynced d <> None).

(** The ObjectId a stored [_id] stands for, as its lower-case string. *)
Definition key (d : Doc) : string := toLowerCase (_id d).

Definition well_keyed (st : Store) : Prop :=
  NoDup (map key st) /\ Forall record_consistent st.

(** The batch a sync run exports: what its [find] selects. *)
Definition pending (st : Store) : list Doc :=
  select_newest QEngagedUnsynced 250 st.

(** The rows of a sheet on which at most the header step has run. *)
Definition header_touched (before after : list Row) : Prop :=
  after = before \/ after = header_ready before.

(** What a run of the export that started in [w] and marked at one of the
    times [clock k], [lo <= k < hi], leaves behind. *)
Definition export_outcome (clock : nat -> Z) (lo hi : nat) (w : World)
    (r : Outcome (option SyncResult)) (w' : World) : Prop :=
  let docs := pending (store w) in
  match r with
  | Return (Some (Synced n)) =>
      n = length docs /\ (1 <= n <= 250)%nat
      /\ (exists k, (lo <= k < hi)%nat
                    /\ store w' = mark_store (clock k) docs (store w))
      /\ hasSheet1 (sink w') = true
      /\ sheetRows (sink w')
         = header_ready (sheetRows (sink w)) ++ convertToSheetRows docs
  | Return (Some NothingToSync) =>
      docs = [] /\ store w' = store w
      /\ hasSheet1 (sink w') = true
      /\ sheetRows (sink w') = header_ready (sheetRows (sink w))
  | Return None => False
  | Throw _ =>
      store w' = store w
      /\ header_touched (sheetRows (sink w)) (sheetRows (sink w'))
  end.

(** Whether the [_id] of a record is that of a record of the batch. *)
Definition in_batch (docs : list Doc) (d : Doc) : bool :=
  existsb (fun doc => has_id (_id doc) d) docs.

Definition sync_clock : nat -> Z := fun _ => 1700000200000.

(** The record carries the engagement the event brought. *)
Definition engaged_by (env : Env) (event : Event) (d : Doc) : Prop :=
  hasEngaged d = true
  /\ phoneNumber d = Some (normalizedPhone event)
  /\ engagedAt d = Some (Date_now env)
  /\ syncedToSheets d = false
  /\ contactId d = contactId_of event
  /\ conversationId d = conversationId_of event
  /\ lastMessage d = Some (messageContent_of event).

(** An environment in which direct messages are captured. *)
Definition capture_env (t : Z) : Env :=
  mkEnv t "3f2a9c1e-7b4d" None (Some "true").

(** The five attribution dimensions of a record, under the names they have
    in [original_params]. *)
Definition dimensions (d : Doc) : list (string * string) :=
  [ ("source", source d); ("medium", medium d); ("campaign", campaign d);
    ("content", content d); ("placement", placement d) ].

(** The literal [/store-click] hands to [create]. *)
Definition click_literal (env : Env) (body : ClickBody) : Patch :=
  [ Set_id (cb_session_id body) ] ++ click_utmData (Date_now env) body ++
  [ Set_timestamp (Date_now env); Set_hasEngaged false;
    Set_syncedToSheets false ].

Definition click_with_params : ClickBody :=
  mkClickBody (Some session7)
    (Some [("CampaignName", "monsoon"); ("source", "instagram")])
    (Some "ig") (Some "paid") None None None.

(** A record without its sync flags and [updatedAt]. *)
Definition beyond_sync_flags (d : Doc) :=
  (click_facts d, hasEngaged d, phoneNumber d, contactId d, conversationId d,
   contactName d, lastMessage d, attribution_source d, engagedAt d).

(** The parameter names the page looks for, one list for each field of the
    tracking data. *)
Definition tracked_names : list (list string) :=
  [ ["Campaign Source"; "utm_source"; "site_source_name"];
    ["Ad Set Name"; "utm_medium"; "adset.name"];
    ["Campaign Name"; "utm_campaign"; "campaign.name"];
    ["Ad Name"; "utm_content"; "ad.name"];
    ["Placement"; "utm_placement"];
    ["gbx_id"; "gallabox_contact"] ].

(** The value the page would pick for these names cannot be decoded. *)
Definition undecodable (decodeURIComponent : string -> option string)
    (params : URLSearchParams) (names : list string) : bool :=
  match first_name params names with
  | Some value =>
      match decodeURIComponent value with Some _ => false | None => true end
  | None => false
  end.

(** ** Example inputs for the further properties *)

(** The token [eyJzZXNzaW9uX2lkIjoibm90X3N0b3JlZCJ9] is the base64 of
    [{"session_id":"not_stored"}]. *)
Definition reserved_parseContext (token : string) : option Context :=
  if String.eqb token "eyJzZXNzaW9uX2lkIjoibm90X3N0b3JlZCJ9"
  then Some (mkContext (Some "not_stored") [])
  else None.

Definition message_with_reserved_context : Event :=
  mkEvent (Some "919137279145") (Some "09876543210") (Some "hi") None
    None None None None (Some "eyJzZXNzaW9uX2lkIjoibm90X3N0b3JlZCJ9").

(** A click sent under the reserved id. The id is no ObjectId, so the
    request is refused and leaves only its [findById] in the trace. *)
Definition click_reserved : ClickBody :=
  mkClickBody (Some "not_stored") None (Some "instagram") None None None None.

Definition world_reserved : World :=
  snd (store_click (at_time 1700000000000) click_reserved empty_world).

(** A landing page reached from a Google campaign; values without a percent
    sign decode to themselves. *)
Definition example_page : Page :=
  mkPage [("utm_source", "google"); ("utm_campaign", "monsoon")]
    "https://example.com/?utm_source=google&utm_campaign=monsoon"
    1700000000000 "3f2a9c1e-7b4d" 1700000000000.

Definition example_decode (value : string) : option string := Some value.

Definition example_tracking : TrackingData :=
  mkTrackingData "google" "fb_ads" "monsoon" "unknown" "unknown" ""
    [("utm_source", "google"); ("utm_campaign", "monsoon")]
    "wa-1700000000000-3f2a9c1e"
    "https://example.com/?utm_source=google&utm_campaign=monsoon"
    1700000000000.

Definition example_encode (c : Context) : option string := Some "dG9rZW4".

(** A page whose [utm_source] holds a lone percent sign, and a decoder
    that refuses it. *)
Definition broken_page : Page :=
  mkPage [("utm_source", "100%")] "https://example.com/?utm_source=100%25"
    1700000000000 "3f2a9c1e-7b4d" 1700000000000.

Definition strict_decode (value : string) : option string :=
  if includes "%" value then None else Some value.


(** * Properties *)

(** ** Object literals and the monad *)

Lemma apply_patch_app (p q : Patch) (d : Doc) :
  apply_patch (p ++ q) d = apply_patch q (apply_patch p d).
Proof. apply fold_left_app. Qed.

Lemma truthy_Some_nonempty (s : string) :
  Js.truthy (Some s) = true <-> s <> "".
Proof.
  unfold Js.truthy. destruct (String.eqb_spec s ""); simpl; split; intros;
    congruence.
Qed.

Lemma or_None_cases (a : option string) :
  Js.or a None = None \/ (Js.or a None = a /\ Js.truthy a = true).
Proof. unfold Js.or. destruct (Js.truthy a); auto. Qed.

(** Running a monadic program: unfold the combinators down to the world. *)
Ltac run_step :=
  unfold findById, findOne, findOneNewest, findNewest, findByIdAndUpdate,
    create, log, get_store, put_store, throw, sleep, try_catch,
    mbind, M_bind, mret, M_ret in *;
  cbn [fst snd store sink faults trace] in *.

Ltac run := run_step; repeat (progress run_step).

Lemma run_bind {A B} (m : M A) (f : A -> M B) (w : World) :
  (x ← m; f x) w
  = match m w with
    | (Return a, w') => f a w'
    | (Throw e, w') => (Throw e, w')
    end.
Proof. reflexivity. Qed.

Lemma run_ret {A} (a : A) (w : World) : (mret a : M A) w = (Return a, w).
Proof. reflexivity. Qed.


(** ** Phone normalisation *)

Lemma strip_leading_zeros_spec (s : string) :
  exists n, s = zeros n +:+ Js.strip_leading_zeros s
            /\ Js.startsWith (Js.strip_leading_zeros s) "0" = false.
Proof.
  induction s as [|c s [n [Hs Hz]]].
  - exists 0%nat. split; reflexivity.
  - destruct (ascii_dec c "0") as [->|Hc].
    + exists (S n). split; [|exact Hz].
      change (String "0" s
              = String "0" (zeros n +:+ Js.strip_leading_zeros s)).
      f_equal. exact Hs.
    + exists 0%nat.
      assert (Js.strip_leading_zeros (String c s) = String c s) as ->.
      { destruct c as [[] [] [] [] [] [] [] []]; try reflexivity.
        congruence. }
      split; [reflexivity|].
      unfold Js.startsWith.
      change (String.prefix "0" (String c s))
        with (if ascii_dec "0" c then String.prefix "" s else false).
      destruct (ascii_dec "0" c); [congruence | reflexivity].
Qed.

Lemma normalizePhone_empty (s : string) : normalizePhone s = "" <-> s = "".
Proof.
  unfold normalizePhone.
  destruct (String.eqb_spec s "") as [->|Hs]; [now split|].
  destruct (Js.startsWith s countryCode); simpl; split; intros H;
    try congruence; discriminate.
Qed.

Lemma normalizePhone_spec (s : string) :
  s <> "" ->
  normalizePhone s = (if Js.startsWith s "91" then s else "91" +:+ s)
  /\ Js.startsWith (normalizePhone s) "91" = true.
Proof.
  intros Hs. unfold normalizePhone, countryCode.
  destruct (String.eqb_spec s ""); [congruence|].
  destruct (Js.startsWith s "91") eqn:E; simpl; split;
    try reflexivity; try exact E.
  unfold Js.startsWith. destruct s; reflexivity.
Qed.

(** C9, as the code has it. Phone normalisation strips the leading zeros
    of the sender number and puts the country code 91 in front unless the
    stripped number begins with it already; a number that strips to nothing
    stays empty. An event addressed to the configured number whose
    normalised phone is empty is answered 400 before any matching strategy
    runs, the world (collection and trace of store calls) untouched; an
    event for another number is acknowledged as skipped (200) by the filter
    that comes before the phone check, whatever its phone number, the world
    untouched as well. *)
Theorem phone_normalization_and_rejection
    (parseContext : string -> option Context) (env : Env) (event : Event)
    (w : World) :
  let stripped := senderPhone event in
  (forall from, ev_whatsapp_from event = Some from ->
     exists n, from = zeros n +:+ stripped
               /\ Js.startsWith stripped "0" = false)
  /\ (ev_whatsapp_from event = None -> stripped = "")
  /\ (stripped <> "" ->
      normalizedPhone event
      = (if Js.startsWith stripped "91" then stripped else "91" +:+ stripped)
      /\ Js.startsWith (normalizedPhone event) "91" = true)
  /\ (normalizedPhone event = "" <-> stripped = "")
  /\ (addressed_here env event -> normalizedPhone event = "" ->
      gallabox_webhook parseContext env event w = (MissingPhone, w)
      /\ status MissingPhone = 400)
  /\ (~ addressed_here env event ->
      gallabox_webhook parseContext env event w = (Skipped, w)
      /\ status Skipped = 200).
Proof.
  intros stripped. subst stripped. unfold normalizedPhone, senderPhone.
  repeat split.
  - intros from ->. apply strip_leading_zeros_spec.
  - intros ->. reflexivity.
  - apply normalizePhone_spec. assumption.
  - apply normalizePhone_spec. assumption.
  - apply normalizePhone_empty.
  - apply normalizePhone_empty.
  - unfold gallabox_webhook, normalizedPhone, senderPhone.
    unfold addressed_here in H. rewrite H, String.eqb_refl. simpl.
    rewrite H0. reflexivity.
  - unfold gallabox_webhook. unfold addressed_here in H.
    apply String.eqb_neq in H. rewrite H. reflexivity.
Qed.

Lemma phone_normalization_and_rejection_witness :
  (exists n, "09876543210" = zeros n +:+ "9876543210")
  /\ normalizedPhone (text_from (Some "09876543210")) = "919876543210"
  /\ normalizedPhone (text_from (Some "0919876543210")) = "919876543210"
  /\ gallabox_webhook example_parseContext example_env
       (text_from (Some "000")) empty_world
     = (MissingPhone, empty_world).
Proof.
  split; [|split; [|split]].
  - destruct (proj1 (phone_normalization_and_rejection example_parseContext
                       example_env (text_from (Some "09876543210"))
                       empty_world) "09876543210" eq_refl) as (n & Hn & _).
    exists n. exact Hn.
  - apply (proj1 (proj2 (proj2
             (phone_normalization_and_rejection example_parseContext
                example_env (text_from (Some "09876543210")) empty_world)))).
    discriminate.
  - apply (proj1 (proj2 (proj2
             (phone_normalization_and_rejection example_parseContext
                example_env (text_from (Some "0919876543210")) empty_world)))).
    discriminate.
  - exact (proj1 (proj1 (proj2 (proj2 (proj2 (proj2
      (phone_normalization_and_rejection example_parseContext example_env
         (text_from (Some "000")) empty_world))))) eq_refl eq_refl)).
Defined.

(** C9 as stated fails on events for another number: the sender number of
    this one strips to nothing, and the handler answers 200, skipped, not
    a client error. *)
Lemma empty_phone_for_another_number_is_skipped :
  normalizedPhone message_for_another_number = ""
  /\ gallabox_webhook example_parseContext example_env
       message_for_another_number empty_world
     = (Skipped, empty_world)
  /\ status (fst (gallabox_webhook example_parseContext example_env
                    message_for_another_number empty_world)) = 200
  /\ status (fst (gallabox_webhook example_parseContext example_env
                    message_for_another_number empty_world)) <> 400.
Proof. vm_compute. repeat split; try reflexivity. discriminate. Qed.

(** ** Store operations *)

Lemma keeps_id_apply (p : Patch) (d : Doc) :
  keeps_id p = true -> _id (apply_patch p d) = _id d.
Proof.
  revert d. induction p as [|s p IH]; intros d H; [reflexivity|].
  cbn in H. apply andb_prop in H as [Hs Hp].
  unfold apply_patch in *. cbn [fold_left]. rewrite IH by assumption.
  destruct s as [[?|]| | | | | | | | | | | | | | | | | | |];
    solve [reflexivity | discriminate].
Qed.

Lemma keeps_id_updateData env a phone cid conv name msg :
  keeps_id (updateData env a phone cid conv name msg) = true.
Proof.
  unfold updateData.
  destruct (Js.truthy name), (negb (String.eqb msg "")); reflexivity.
Qed.

Lemma has_id_update_doc now p i d :
  keeps_id p = true -> has_id i (update_doc now p d) = has_id i d.
Proof.
  intros H. unfold has_id, update_doc.
  change (_id (with_updatedAt now (apply_patch p d)))
    with (_id (apply_patch p d)).
  now rewrite keeps_id_apply.
Qed.

Lemma lookup_update_store now i p st :
  keeps_id p = true ->
  lookup_id (Some i) (update_store now (Some i) p st)
  = update_doc now p <$> lookup_id (Some i) st.
Proof.
  intros H. unfold lookup_id, update_store.
  induction st as [|d st IH]; [reflexivity|].
  cbn [map find]. destruct (has_id i d) eqn:E.
  - rewrite has_id_update_doc, E by assumption. reflexivity.
  - rewrite E. exact IH.
Qed.

Lemma findById_run id w :
  castable id = true ->
  findById id w = (Return (lookup_id id (store w)), logged (FindById id) w).
Proof.
  intros Hc. unfold findById. run. destruct id as [i|]; [|reflexivity].
  cbn [castable] in Hc. rewrite Hc. reflexivity.
Qed.

Lemma findById_cast_error i w :
  is_hex24 i = false ->
  findById (Some i) w = (Throw (cast_error i), logged (FindById (Some i)) w).
Proof. intros Hc. unfold findById. run. rewrite Hc. reflexivity. Qed.

Lemma updateRecord_existing env phone cid conv name msg l w d :
  update_applies l = true ->
  castable (sessionId l) = true ->
  lookup_id (sessionId l) (store w) = Some d ->
  let upd := updateData env (attribution l) phone cid conv name msg in
  updateRecord env phone cid conv name msg l w
  = (Return tt,
     mkWorld (update_store (Date_now env) (sessionId l) upd (store w))
       (sink w) (faults w)
       (trace w ++ [FindById (sessionId l);
                    FindByIdAndUpdate (sessionId l) upd])).
Proof.
  intros Hg Hc Hd upd. unfold updateRecord.
  unfold update_applies in Hg. rewrite Hg.
  rewrite run_bind, (findById_run _ _ Hc). unfold logged.
  cbn [store sink faults trace]. rewrite Hd. run.
  rewrite <- app_assoc. reflexivity.
Qed.

Lemma updateRecord_cast_error env phone cid conv name msg l w i :
  update_applies l = true ->
  sessionId l = Some i ->
  is_hex24 i = false ->
  updateRecord env phone cid conv name msg l w
  = (Throw (cast_error i), logged (FindById (Some i)) w).
Proof.
  intros Hg Hs Hc. unfold updateRecord.
  unfold update_applies in Hg. rewrite Hg, Hs.
  rewrite run_bind, (findById_cast_error _ _ Hc). reflexivity.
Qed.

Lemma updateData_fields env a phone cid conv name msg now d :
  let d' := update_doc now (updateData env a phone cid conv name msg) d in
  hasEngaged d' = true
  /\ phoneNumber d' = Some phone
  /\ syncedToSheets d' = false
  /\ attribution_source d' = a
  /\ contactId d' = cid
  /\ conversationId d' = conv
  /\ contactName d' = (if Js.truthy name then name else contactName d)
  /\ lastMessage d'
     = (if String.eqb msg "" then lastMessage d else Some msg).
Proof.
  unfold updateData.
  destruct (Js.truthy name), (String.eqb msg ""); cbn; tauto.
Qed.

(** C4, as the code has it. When the update block is applied to an existing
    record, [contactName] is overwritten only by a non-empty name of the
    event and otherwise keeps what the record had, while [contactId] and
    [conversationId] always take the event's value, which is null when the
    event carries none. *)
Theorem updater_overwrite_policy
    (env : Env) (event : Event) (l : Locals) (w : World) (d : Doc) :
  update_applies l = true ->
  castable (sessionId l) = true ->
  lookup_id (sessionId l) (store w) = Some d ->
  let updated :=
    updateRecord env (normalizedPhone event) (contactId_of event)
      (conversationId_of event) (contactName_of event)
      (messageContent_of event) l w in
  exists d',
    fst updated = Return tt
    /\ lookup_id (sessionId l) (store (snd updated)) = Some d'
    /\ contactName d'
       = (if Js.truthy (ev_contact_name event) then ev_contact_name event
          else contactName d)
    /\ contactId d' = contactId_of event
    /\ conversationId d' = conversationId_of event
    /\ (Js.truthy (ev_contactId event) = false ->
        Js.truthy (ev_contact_id event) = false -> contactId d' = None)
    /\ (Js.truthy (ev_conversationId event) = false ->
        conversationId d' = None).
Proof.
  intros Hg Hc Hd. cbv zeta.
  rewrite (updateRecord_existing _ _ _ _ _ _ _ _ _ Hg Hc Hd).
  cbn [fst snd store].
  destruct (sessionId l) as [i|] eqn:Hi; [|discriminate].
  rewrite lookup_update_store by apply keeps_id_updateData.
  rewrite Hd. eexists. split; [reflexivity|]. split; [reflexivity|].
  pose proof (updateData_fields env (attribution l) (normalizedPhone event)
                (contactId_of event) (conversationId_of event)
                (contactName_of event) (messageContent_of event)
                (Date_now env) d) as H.
  cbv zeta in H. destruct H as (_ & _ & _ & _ & Hcid & Hconv & Hname & _).
  split; [|split; [exact Hcid | split; [exact Hconv | split]]].
  - rewrite Hname. unfold contactName_of, Js.or.
    destruct (Js.truthy (ev_contact_name event)) eqn:E; [now rewrite E|].
    reflexivity.
  - intros H1 H2. rewrite Hcid. unfold contactId_of, Js.or.
    now rewrite H1, H2.
  - intros H1. rewrite Hconv. unfold conversationId_of, Js.or.
    now rewrite H1.
Qed.

Lemma updater_overwrite_policy_witness :
  exists d',
    lookup_id (Some session1) (store world_context_reply) = Some d'
    /\ contactName d' = Some "Asha"
    /\ contactId d' = None
    /\ conversationId d' = None.
Proof.
  destruct (updater_overwrite_policy (at_time 1700000180000)
              message_with_context (mkLocals (Some session1) [] "context")
              world_engaged (record_s1 world_engaged))
    as (d' & _ & Hd & Hname & Hcid & Hconv & _).
  - reflexivity.
  - reflexivity.
  - vm_compute. reflexivity.
  - exists d'. split; [|split; [exact Hname | split; [|exact Hconv]]].
    + rewrite <- Hd. vm_compute. reflexivity.
    + exact Hcid.
Defined.

(** C4 as stated fails on the identifiers and on the message: the record
    of [session1] has a known contact and a known message; a later event
    for the same record that carries neither a contact nor a text leaves it
    without contact, and with the placeholder for its message. *)
Lemma updater_blanks_known_contactId :
  contactId_of bare_context_message = None
  /\ ev_text_body bare_context_message = None
  /\ contactId (record_s1 world_engaged) = Some "k1"
  /\ lastMessage (record_s1 world_engaged) = Some "hello"
  /\ contactName (record_s1 world_engaged) = Some "Asha"
  /\ contactId (record_s1 world_bare_reply) = None
  /\ lastMessage (record_s1 world_bare_reply) = Some "No text content"
  /\ contactName (record_s1 world_bare_reply) = Some "Asha".
Proof. vm_compute. repeat split; reflexivity. Qed.

(** ** Re-applying the update block *)

Lemma updateRecord_skipped env phone cid conv name msg l w :
  update_applies l = false ->
  updateRecord env phone cid conv name msg l w = (Return tt, w).
Proof.
  intros Hg. unfold updateRecord. unfold update_applies in Hg.
  rewrite Hg. reflexivity.
Qed.

Lemma create_run now p w :
  castable (patch_id p) = true ->
  create now p w
  = let d := new_doc (store w) now p in
    if existsb (has_id (_id d)) (store w)
    then (Throw "E11000 duplicate key error", logged (Create p) w)
    else (Return tt,
          mkWorld (store w ++ [d]) (sink w) (faults w)
            (trace w ++ [Create p])).
Proof.
  intros Hc. unfold create. run. rewrite Hc. run. cbv zeta.
  destruct (existsb _ (store w)); reflexivity.
Qed.

Lemma create_invalid now p w :
  castable (patch_id p) = false ->
  create now p w
  = (Throw (validation_error (default "" (patch_id p))), logged (Create p) w).
Proof. intros Hc. unfold create. run. rewrite Hc. reflexivity. Qed.

Lemma patch_id_keeps (p : Patch) (id : option string) :
  keeps_id p = true ->
  fold_left (fun id s => match s with Set_id (Some v) => Some v | _ => id end)
    p id = id.
Proof.
  revert id. induction p as [|s p IH]; intros id H; [reflexivity|].
  cbn in H. apply andb_prop in H as [Hs Hp]. cbn [fold_left].
  rewrite IH by assumption.
  destruct s as [[?|]| | | | | | | | | | | | | | | | | | |];
    solve [reflexivity | discriminate].
Qed.

(** The [_id] of a literal that sets it first and nowhere else. *)
Lemma patch_id_first (x : option string) (p : Patch) :
  keeps_id p = true -> patch_id ([Set_id x] ++ p) = x.
Proof.
  intros H. unfold patch_id. cbn [app fold_left].
  rewrite patch_id_keeps by assumption. now destruct x.
Qed.

Lemma updateRecord_missing env phone cid conv name msg l w :
  update_applies l = true ->
  castable (sessionId l) = true ->
  lookup_id (sessionId l) (store w) = None ->
  let upd := updateData env (attribution l) phone cid conv name msg in
  let p := [Set_id (sessionId l)] ++ utmData l ++ upd
           ++ [Set_timestamp (Date_now env)] in
  let d := new_doc (store w) (Date_now env) p in
  let tr := trace w ++ [FindById (sessionId l); Create p] in
  updateRecord env phone cid conv name msg l w
  = if castable (patch_id p)
    then if existsb (has_id (_id d)) (store w)
         then (Throw "E11000 duplicate key error",
               mkWorld (store w) (sink w) (faults w) tr)
         else (Return tt, mkWorld (store w ++ [d]) (sink w) (faults w) tr)
    else (Throw (validation_error (default "" (patch_id p))),
          mkWorld (store w) (sink w) (faults w) tr).
Proof.
  intros Hg Hc Hd upd p d tr. unfold updateRecord.
  unfold update_applies in Hg. rewrite Hg.
  rewrite run_bind, (findById_run _ _ Hc). unfold logged.
  cbn [store sink faults trace]. rewrite Hd.
  fold upd. fold p. subst tr.
  destruct (castable (patch_id p)) eqn:Hp.
  - rewrite (create_run _ _ _ Hp). cbv zeta.
    cbn [store sink faults trace]. fold d. unfold logged.
    cbn [store sink faults trace].
    destruct (existsb _ (store w)); rewrite <- app_assoc; reflexivity.
  - rewrite (create_invalid _ _ _ Hp). unfold logged.
    cbn [store sink faults trace]. rewrite <- app_assoc. reflexivity.
Qed.

Lemma same_id_refl (a : string) : same_id a a = true.
Proof. apply String.eqb_refl. Qed.

Lemma has_id_own (d : Doc) : has_id (_id d) d = true.
Proof. apply same_id_refl. Qed.

Lemma update_doc_updateData_idem env a phone cid conv name msg d :
  let f := update_doc (Date_now env)
             (updateData env a phone cid conv name msg) in
  f (f d) = f d.
Proof.
  cbv zeta. unfold updateData. destruct d.
  destruct (Js.truthy name), (negb (String.eqb msg ""));
    vm_compute; reflexivity.
Qed.

Lemma updatedAt_apply_patch (p : Patch) (d : Doc) :
  updatedAt (apply_patch p d) = updatedAt d.
Proof.
  revert d. unfold apply_patch.
  induction p as [|s p IH]; intros d; [reflexivity|].
  cbn [fold_left]. rewrite IH.
  destruct s as [[?|]| | | | | | | | | | | | | | | | | | |]; reflexivity.
Qed.

Lemma id_apply_patch_agree (p : Patch) (d1 d2 : Doc) :
  _id d1 = _id d2 -> _id (apply_patch p d1) = _id (apply_patch p d2).
Proof.
  revert d1 d2. unfold apply_patch.
  induction p as [|s p IH]; intros d1 d2 H; [exact H|].
  cbn [fold_left]. apply IH.
  destruct s as [[?|]| | | | | | | | | | | | | | | | | | |];
    solve [reflexivity | exact H].
Qed.

Lemma created_doc_fixed env a phone cid conv name msg (x : Doc) :
  updatedAt x = Date_now env ->
  let upd := updateData env a phone cid conv name msg in
  let d := apply_patch (upd ++ [Set_timestamp (Date_now env)]) x in
  update_doc (Date_now env) upd d = d.
Proof.
  intros Hx upd d. subst upd d. unfold updateData.
  destruct x. cbn in Hx. subst.
  destruct (Js.truthy name), (negb (String.eqb msg ""));
    vm_compute; reflexivity.
Qed.

Lemma find_none_map_id (i : string) (f : Doc -> Doc) (st : Store) :
  find (has_id i) st = None ->
  map (fun d => if has_id i d then f d else d) st = st.
Proof.
  induction st as [|d st IH]; [reflexivity|].
  cbn [find map]. destruct (has_id i d); [discriminate|].
  intros H. now rewrite IH.
Qed.

Lemma find_app_none (i : string) (st : Store) (d : Doc) :
  find (has_id i) st = None ->
  find (has_id i) (st ++ [d]) = if has_id i d then Some d else None.
Proof.
  induction st as [|x st IH]; [reflexivity|].
  cbn [find app]. destruct (has_id i x); [discriminate | exact IH].
Qed.

(** With a matched record id the update block is idempotent on the
    collection: applying it again to its own result changes no record. *)
Lemma updateRecord_idempotent_with_id
    env phone cid conv name msg (l : Locals) (w : World) (s : string) :
  sessionId l = Some s ->
  let step := updateRecord env phone cid conv name msg l in
  store (snd (step (snd (step w)))) = store (snd (step w)).
Proof.
  intros Hs step. subst step.
  destruct (update_applies l) eqn:Hg.
  2:{ rewrite !updateRecord_skipped by assumption. reflexivity. }
  destruct (is_hex24 s) eqn:Hhex.
  2:{ rewrite !(updateRecord_cast_error _ _ _ _ _ _ _ _ s Hg Hs Hhex).
      reflexivity. }
  assert (Hc : castable (sessionId l) = true) by (rewrite Hs; exact Hhex).
  set (upd := updateData env (attribution l) phone cid conv name msg).
  assert (Hk : keeps_id upd = true) by apply keeps_id_updateData.
  destruct (lookup_id (sessionId l) (store w)) as [d|] eqn:Hd.
  - rewrite (updateRecord_existing _ _ _ _ _ _ _ w d Hg Hc Hd).
    cbn [snd]. fold upd.
    erewrite updateRecord_existing; [|assumption|assumption|].
    2:{ cbn [store]. rewrite Hs in *. rewrite lookup_update_store, Hd by
          assumption. reflexivity. }
    cbn [snd store]. fold upd. rewrite Hs. unfold update_store.
    rewrite map_map. apply map_ext. intros x.
    destruct (has_id s x) eqn:Hx.
    + rewrite has_id_update_doc, Hx by assumption.
      apply update_doc_updateData_idem.
    + rewrite Hx. reflexivity.
  - rewrite (updateRecord_missing _ _ _ _ _ _ _ w Hg Hc Hd). fold upd.
    set (p := [Set_id (sessionId l)] ++ utmData l ++ upd
              ++ [Set_timestamp (Date_now env)]).
    destruct (castable (patch_id p)) eqn:Hp; cbn [snd].
    2:{ rewrite updateRecord_missing by assumption. fold upd. fold p.
        rewrite Hp. reflexivity. }
    set (d := new_doc (store w) (Date_now env) p).
    destruct (existsb (has_id (_id d)) (store w)) eqn:Hdup; cbn [snd].
    + rewrite updateRecord_missing by assumption. fold upd. fold p.
      cbn [store]. fold d. rewrite Hp, Hdup. reflexivity.
    + rewrite Hs in Hd. cbn [lookup_id] in Hd.
      destruct (has_id s d) eqn:Hsd.
      * erewrite updateRecord_existing; [|assumption|assumption|].
        2:{ cbn [store]. rewrite Hs. cbn [lookup_id].
            rewrite find_app_none, Hsd by assumption. reflexivity. }
        cbn [snd store]. rewrite Hs. unfold update_store.
        rewrite map_app. rewrite find_none_map_id by assumption.
        cbn [map]. rewrite Hsd. f_equal. f_equal. fold upd.
        subst d p. unfold new_doc.
        rewrite app_assoc, apply_patch_app.
        apply created_doc_fixed. rewrite updatedAt_apply_patch.
        reflexivity.
      * rewrite updateRecord_missing; [|assumption|assumption|].
        2:{ cbn [store]. rewrite Hs. cbn [lookup_id].
            rewrite find_app_none, Hsd by assumption. reflexivity. }
        fold upd. fold p. cbn [store]. rewrite Hp.
        assert (Hid : _id (new_doc (store w ++ [d]) (Date_now env) p)
                      = _id d).
        { subst d p. unfold new_doc. rewrite Hs. cbn [app].
          unfold apply_patch at 1 3. cbn [fold_left].
          apply id_apply_patch_agree. reflexivity. }
        rewrite Hid, existsb_app, Hdup. cbn [existsb].
        rewrite has_id_own. reflexivity.
Qed.

(** ** The strategy chain *)

Lemma select_one_newest_elem (q : Query) (st : Store) (d : Doc) :
  select_one_newest q st = Some d -> d ∈ st /\ matches q d = true.
Proof.
  unfold select_one_newest, sort_newest_first. intros H.
  apply head_Some_elem_of in H.
  rewrite merge_sort_Permutation in H.
  apply list_elem_of_filter in H. tauto.
Qed.

Lemma select_first_elem (q : Query) (st : Store) (d : Doc) :
  select_first q st = Some d -> d ∈ st /\ matches q d = true.
Proof.
  unfold select_first. intros H. apply head_Some_elem_of in H.
  apply list_elem_of_filter in H. tauto.
Qed.

Lemma stored_id_truthy (st : Store) (d : Doc) :
  Forall (fun d => _id d <> "") st -> d ∈ st ->
  Js.truthy (Some (_id d)) = true.
Proof.
  rewrite Forall_forall. intros H Hd. apply truthy_Some_nonempty. auto.
Qed.

Lemma priority1_spec pc context l w :
  priority1 pc context l w
  = (Return (match decoded_session pc context with
             | Some ctx => mkLocals (session_id ctx) (ctx_fields ctx) "context"
             | None => l
             end), w).
Proof.
  unfold priority1, decoded_session, Js.if_truthy.
  destruct context as [token|]; [|reflexivity].
  destruct (String.eqb token ""); [reflexivity|].
  destruct (pc token) as [ctx|]; [|reflexivity].
  destruct (Js.truthy (session_id ctx)); reflexivity.
Qed.

Lemma decoded_session_truthy pc context ctx :
  decoded_session pc context = Some ctx -> Js.truthy (session_id ctx) = true.
Proof.
  unfold decoded_session, Js.if_truthy.
  destruct context as [token|]; [|discriminate].
  destruct (String.eqb token ""); [discriminate|].
  destruct (pc token) as [c|]; [|discriminate].
  destruct (Js.truthy (session_id c)) eqn:E; [|discriminate].
  intros [= <-]. exact E.
Qed.


Lemma priority2_skip env cid conv name l w :
  Js.truthy (sessionId l) = true ->
  priority2 env cid conv name l w = (Return l, w).
Proof. intros H. unfold priority2. rewrite H. reflexivity. Qed.

Lemma priority3_skip phone l w :
  Js.truthy (sessionId l) = true -> priority3 phone l w = (Return l, w).
Proof. intros H. unfold priority3. rewrite H. reflexivity. Qed.

Lemma directHandling_skip env phone cid conv name msg l w :
  Js.truthy (sessionId l) = true ->
  directHandling env phone cid conv name msg l w = (Return l, w).
Proof. intros H. unfold directHandling. rewrite H. reflexivity. Qed.

Lemma matched_skips_lower env phone cid conv name msg l w :
  Js.truthy (sessionId l) = true ->
  (l ← priority2 env cid conv name l;
   l ← priority3 phone l;
   directHandling env phone cid conv name msg l) w = (Return l, w).
Proof.
  intros H.
  rewrite run_bind, priority2_skip, run_bind, priority3_skip by assumption.
  now apply directHandling_skip.
Qed.

Lemma context_match_wins pc env phone cid conv name msg context w ctx :
  decoded_session pc context = Some ctx ->
  matchStrategies pc env phone cid conv name msg context w
  = (Return (mkLocals (session_id ctx) (ctx_fields ctx) "context"), w).
Proof.
  intros H. unfold matchStrategies.
  rewrite run_bind, priority1_spec, H.
  apply matched_skips_lower. cbn [sessionId].
  eapply decoded_session_truthy, H.
Qed.

Lemma first_match_cons (s : Strategy) lower u w :
  first_match (s :: lower) u w
  = match s w with
    | (Return (Some hit), w') => (Return hit, w')
    | (Return None, w') => first_match lower u w'
    | (Throw e, w') => (Throw e, w')
    end.
Proof.
  cbn [first_match]. rewrite run_bind.
  destruct (s w) as [[[hit|]|e] w']; reflexivity.
Qed.

Lemma contextTokenMatch_spec pc context w :
  contextTokenMatch pc context w
  = (Return ((fun ctx => mkLocals (session_id ctx) (ctx_fields ctx) "context")
             <$> decoded_session pc context), w).
Proof.
  unfold contextTokenMatch, decoded_session, Js.if_truthy.
  destruct context as [token|]; [|reflexivity].
  destruct (String.eqb token ""); [reflexivity|].
  destruct (pc token) as [ctx|]; [|reflexivity].
  destruct (Js.truthy (session_id ctx)); reflexivity.
Qed.

Lemma priority2_as_strategy env cid conv name l w :
  Js.truthy (sessionId l) = false ->
  priority2 env cid conv name l w
  = match externalIdentifierMatch env cid conv name w with
    | (Return (Some hit), w') => (Return hit, w')
    | (Return None, w') => (Return l, w')
    | (Throw e, w') => (Throw e, w')
    end.
Proof.
  intros H. unfold priority2, externalIdentifierMatch. rewrite H.
  cbn [negb andb].
  destruct (Js.truthy cid || Js.truthy conv); [|reflexivity].
  run. destruct (select_one_newest _ (store w)); reflexivity.
Qed.

Lemma priority3_as_strategy phone l w :
  Js.truthy (sessionId l) = false ->
  priority3 phone l w
  = match phoneMatch phone w with
    | (Return (Some hit), w') => (Return hit, w')
    | (Return None, w') => (Return l, w')
    | (Throw e, w') => (Throw e, w')
    end.
Proof.
  intros H. unfold priority3, phoneMatch. rewrite H. cbn [negb].
  run. destruct (select_one_newest _ (store w)); reflexivity.
Qed.

Lemma directHandling_as_strategies env phone cid conv name msg l w :
  Js.truthy (sessionId l) = false ->
  utmData l = directDefaults ->
  Js.truthy conv = true \/ captureEnabled env = true ->
  directHandling env phone cid conv name msg l w
  = first_match [ existingDirectMatch env conv msg;
                  newDirectRecord env phone cid conv name msg;
                  ignoreDirect env ] l w.
Proof.
  intros H Hu Hside. rewrite !first_match_cons. cbn [first_match].
  unfold directHandling, existingDirectMatch, newDirectRecord, ignoreDirect,
    Js.if_truthy.
  rewrite H, Hu. cbn [negb].
  assert (Hcap : conv = None \/ conv = Some "" -> captureEnabled env = true).
  { intros [-> | ->]; destruct Hside as [Ht|Ht]; try exact Ht;
      now vm_compute in Ht. }
  destruct conv as [c|].
  2:{ rewrite Hcap by now left. reflexivity. }
  cbn [Js.truthy]. destruct (String.eqb c "") eqn:Ec.
  { apply String.eqb_eq in Ec. subst c. rewrite Hcap by now right.
    reflexivity. }
  cbn [negb andb]. run.
  destruct (select_first _ (store w)); [reflexivity|].
  unfold captureEnabled.
  destruct (bool_decide (STORE_DIRECT_MESSAGES env = Some "true"));
    [|reflexivity].
  cbn [negb]. unfold create. run.
  match goal with |- context [if ?b then _ else _] => destruct b end;
    [|reflexivity].
  run.
  match goal with |- context [if ?b then _ else _] => destruct b end;
    reflexivity.
Qed.

Lemma externalIdentifierMatch_hit env cid conv name w hit w' :
  externalIdentifierMatch env cid conv name w = (Return (Some hit), w') ->
  exists click, click ∈ store w /\ sessionId hit = Some (_id click)
                /\ attribution hit = "gallabox_id_match".
Proof.
  unfold externalIdentifierMatch.
  destruct (Js.truthy cid || Js.truthy conv); [|discriminate].
  run. destruct (select_one_newest _ (store w)) as [click|] eqn:E;
    [|discriminate].
  intros [= <- <-]. apply select_one_newest_elem in E as [E _]. eauto.
Qed.

Lemma externalIdentifierMatch_miss env cid conv name w w' :
  externalIdentifierMatch env cid conv name w = (Return None, w') ->
  store w' = store w.
Proof.
  unfold externalIdentifierMatch.
  destruct (Js.truthy cid || Js.truthy conv); [|now intros [= <-]].
  run. destruct (select_one_newest _ (store w)); [discriminate|].
  now intros [= <-].
Qed.

Lemma phoneMatch_hit phone w hit w' :
  phoneMatch phone w = (Return (Some hit), w') ->
  exists click, click ∈ store w /\ sessionId hit = Some (_id click)
                /\ attribution hit = "phone_match".
Proof.
  unfold phoneMatch. run.
  destruct (select_one_newest _ (store w)) as [click|] eqn:E;
    [|discriminate].
  intros [= <- <-]. apply select_one_newest_elem in E as [E _]. eauto.
Qed.

Lemma chain_refines_first_match pc env phone cid conv name msg context w :
  Forall (fun d => _id d <> "") (store w) ->
  Js.truthy conv = true \/ captureEnabled env = true ->
  matchStrategies pc env phone cid conv name msg context w
  = first_match (strategyChain pc env phone cid conv name msg context)
      initial_locals w.
Proof.
  intros Hids Hside. unfold strategyChain.
  rewrite first_match_cons, contextTokenMatch_spec.
  destruct (decoded_session pc context) as [ctx|] eqn:Hctx.
  { rewrite (context_match_wins _ _ _ _ _ _ _ _ _ _ Hctx). reflexivity. }
  cbn [fmap option_fmap option_map].
  unfold matchStrategies.
  rewrite run_bind, priority1_spec, Hctx.
  rewrite run_bind, priority2_as_strategy by reflexivity.
  rewrite first_match_cons.
  destruct (externalIdentifierMatch env cid conv name w)
    as [[[hit|]|e] w2] eqn:E2; [| |reflexivity].
  { apply externalIdentifierMatch_hit in E2 as (click & Hin & Hs & _).
    assert (Js.truthy (sessionId hit) = true)
      by (rewrite Hs; eauto using stored_id_truthy).
    rewrite run_bind, priority3_skip by assumption.
    now apply directHandling_skip. }
  apply externalIdentifierMatch_miss in E2.
  rewrite run_bind, priority3_as_strategy by reflexivity.
  rewrite first_match_cons.
  destruct (phoneMatch phone w2) as [[[hit|]|e] w3] eqn:E3; [| |reflexivity].
  { apply phoneMatch_hit in E3 as (click & Hin & Hs & _).
    rewrite E2 in Hin.
    apply directHandling_skip. rewrite Hs. eauto using stored_id_truthy. }
  now apply directHandling_as_strategies.
Qed.

(** ** The handler as a whole *)

Lemma gallabox_webhook_accepted pc env event w :
  addressed_here env event ->
  normalizedPhone event <> "" ->
  gallabox_webhook pc env event w
  = match matchStrategies pc env (normalizedPhone event) (contactId_of event)
            (conversationId_of event) (contactName_of event)
            (messageContent_of event) (ev_context event) w with
    | (Return l, w1) =>
        match updateRecord env (normalizedPhone event) (contactId_of event)
                (conversationId_of event) (contactName_of event)
                (messageContent_of event) l w1 with
        | (Return _, w2) =>
            (Processed (sessionId l) (patch_source (utmData l))
               (attribution l), w2)
        | (Throw e, w2) => (Failed e, w2)
        end
    | (Throw e, w1) => (Failed e, w1)
    end.
Proof.
  intros Ha Hp. unfold gallabox_webhook.
  unfold addressed_here in Ha. rewrite Ha, String.eqb_refl. cbn [negb].
  apply String.eqb_neq in Hp. rewrite Hp.
  rewrite run_bind.
  destruct (matchStrategies _ _ _ _ _ _ _ _ w) as [[l|e] w1]; [|reflexivity].
  rewrite run_bind.
  destruct (updateRecord _ _ _ _ _ _ l w1) as [[[]|e] w2]; reflexivity.
Qed.

Lemma keeps_id_app (p q : Patch) :
  keeps_id (p ++ q) = keeps_id p && keeps_id q.
Proof. apply forallb_app. Qed.

Lemma find_none_existsb (i : string) (st : Store) :
  find (has_id i) st = None -> existsb (has_id i) st = false.
Proof.
  induction st as [|d st IH]; [reflexivity|].
  cbn [find existsb]. destruct (has_id i d); [discriminate | exact IH].
Qed.

(** The ObjectIds the model makes up are lower-case hex strings that read
    back as their number. *)
Lemma hex_digit_facts (d : N) :
  (d < 16)%N ->
  hex_value (hex_digit d) = d
  /\ lower_ascii (hex_digit d) = hex_digit d
  /\ is_hex (hex_digit d) = true.
Proof.
  intros H.
  assert (exists k, (k < 16)%nat /\ d = N.of_nat k) as (k & Hk & ->)
    by (exists (N.to_nat d); lia).
  do 16 (destruct k as [|k]; [vm_compute; auto|]). lia.
Qed.

Lemma oid_number_hex_digits (width : nat) (n : N) :
  (n < 16 ^ N.of_nat width)%N -> oid_number (hex_digits width n) = n.
Proof.
  revert n. induction width as [|width IH]; intros n H.
  - cbn in H. cbn. lia.
  - cbn [hex_digits oid_number].
    assert (Hm : (n mod 16 < 16)%N) by (apply N.mod_lt; lia).
    rewrite (proj1 (hex_digit_facts _ Hm)).
    rewrite Nat2N.inj_succ, N.pow_succ_r' in H.
    rewrite IH by (apply N.Div0.div_lt_upper_bound; exact H).
    pose proof (N.div_mod n 16). lia.
Qed.

Lemma toLowerCase_hex_digits (width : nat) (n : N) :
  toLowerCase (hex_digits width n) = hex_digits width n.
Proof.
  revert n. induction width as [|width IH]; intros n; [reflexivity|].
  cbn [hex_digits toLowerCase]. rewrite IH.
  assert (Hm : (n mod 16 < 16)%N) by (apply N.mod_lt; lia).
  now rewrite (proj1 (proj2 (hex_digit_facts _ Hm))).
Qed.

Lemma oid_width_bound (n : N) : (n < 16 ^ N.of_nat (oid_width n))%N.
Proof.
  unfold oid_width.
  set (q := ((N.size n + 3) / 4)%N).
  assert (Hq : (N.size n <= 4 * q)%N).
  { subst q. pose proof (N.div_mod (N.size n + 3) 4).
    pose proof (N.mod_lt (N.size n + 3) 4). lia. }
  assert (Hw : (q <= N.of_nat (Nat.max 24 (N.to_nat q)))%N) by lia.
  change 16%N with (2 ^ 4)%N. rewrite <- N.pow_mul_r.
  eapply N.lt_le_trans; [apply N.size_gt|].
  apply N.pow_le_mono_r; lia.
Qed.

Lemma oid_number_oid_string (n : N) : oid_number (oid_string n) = n.
Proof. apply oid_number_hex_digits, oid_width_bound. Qed.

Lemma toLowerCase_oid_string (n : N) :
  toLowerCase (oid_string n) = oid_string n.
Proof. apply toLowerCase_hex_digits. Qed.

Lemma objectId_fresh (st : Store) :
  existsb (has_id (objectId st)) st = false.
Proof.
  destruct (existsb (has_id (objectId st)) st) eqn:E; [|reflexivity].
  apply existsb_exists in E as (d & Hin & Hid).
  unfold has_id, same_id in Hid. apply String.eqb_eq in Hid.
  exfalso.
  apply (infinite_is_fresh (map (fun d => oid_number (toLowerCase (_id d))) st)).
  unfold objectId in Hid. rewrite toLowerCase_oid_string in Hid.
  apply (f_equal oid_number) in Hid. rewrite oid_number_oid_string in Hid.
  rewrite <- Hid.
  apply list_elem_of_In.
  apply (in_map (fun d => oid_number (toLowerCase (_id d)))), Hin.
Qed.

Lemma gallabox_webhook_answer pc env event w :
  addressed_here env event ->
  normalizedPhone event <> "" ->
  gallabox_webhook pc env event w
  = answer
      ((l ← matchStrategies pc env (normalizedPhone event)
              (contactId_of event) (conversationId_of event)
              (contactName_of event) (messageContent_of event)
              (ev_context event);
        _ ← updateRecord env (normalizedPhone event) (contactId_of event)
              (conversationId_of event) (contactName_of event)
              (messageContent_of event) l;
        mret l) w).
Proof.
  intros Ha Hp. unfold gallabox_webhook, answer.
  unfold addressed_here in Ha. rewrite Ha, String.eqb_refl. cbn [negb].
  apply String.eqb_neq in Hp. rewrite Hp. reflexivity.
Qed.

(** C1. The handler against the priority list of the six strategies, the
    first match deciding. For an event for the configured number with a
    phone: (1) when the event names a conversation or direct-message capture
    is on, the handler's answer is the one the first matching strategy of
    the list decides, followed by the update block (an event that no
    strategy matches goes on with the handler's initial values); (2) when
    the context token decodes to an object with a session id, the list and
    the code both resolve to that id with attribution "context" without a
    single store call, whatever other identifiers the event carries, and
    the handler goes straight to the update block with that match; (3) for a
    message without a conversation id while capture is off the code leaves
    the list: strategy 6 says "ignored_direct" and writes nothing, the
    handler answers "direct" with no record id and inserts a record. *)
Theorem strategy_chain_first_match_wins pc env event (w : World) :
  addressed_here env event ->
  normalizedPhone event <> "" ->
  let phone := normalizedPhone event in
  let cid := contactId_of event in
  let conv := conversationId_of event in
  let name := contactName_of event in
  let msg := messageContent_of event in
  let chain := strategyChain pc env phone cid conv name msg (ev_context event)
  in
  (Forall (fun d => _id d <> "") (store w) ->
   Js.truthy conv = true \/ captureEnabled env = true ->
   gallabox_webhook pc env event w
   = answer ((l ← first_match chain initial_locals;
              _ ← updateRecord env phone cid conv name msg l;
              mret l) w))
  /\ (forall ctx, decoded_session pc (ev_context event) = Some ctx ->
      let hit := mkLocals (session_id ctx) (ctx_fields ctx) "context" in
      first_match chain initial_locals w = (Return hit, w)
      /\ matchStrategies pc env phone cid conv name msg (ev_context event) w
         = (Return hit, w)
      /\ gallabox_webhook pc env event w
         = answer ((_ ← updateRecord env phone cid conv name msg hit;
                    mret hit) w))
  /\ (let failing := text_from (Some "09876543210") in
      let ignored :=
        mkLocals (Some "not_stored") directDefaults "ignored_direct" in
      let by_list :=
        first_match
          (strategyChain pc example_env (normalizedPhone failing)
             (contactId_of failing) (conversationId_of failing)
             (contactName_of failing) (messageContent_of failing)
             (ev_context failing)) initial_locals empty_world in
      let by_code := gallabox_webhook pc example_env failing empty_world in
      fst by_list = Return ignored
      /\ store (snd by_list) = []
      /\ fst by_code = Processed None (Some "direct_message") "direct"
      /\ map attribution_source (store (snd by_code)) = ["direct"]).
Proof.
  intros Ha Hp phone cid conv name msg chain. split; [|split].
  - intros Hids Hside. rewrite gallabox_webhook_answer by assumption.
    f_equal. rewrite !run_bind.
    subst chain phone cid conv name msg.
    rewrite chain_refines_first_match by assumption. reflexivity.
  - intros ctx Hctx hit.
    assert (Hcode : matchStrategies pc env phone cid conv name msg
                      (ev_context event) w = (Return hit, w))
      by (apply context_match_wins, Hctx).
    split; [|split].
    + subst chain. unfold strategyChain.
      rewrite first_match_cons, contextTokenMatch_spec, Hctx. reflexivity.
    + exact Hcode.
    + rewrite gallabox_webhook_answer by assumption.
      f_equal. rewrite run_bind.
      subst phone cid conv name msg. rewrite Hcode. reflexivity.
  - vm_compute. repeat split; reflexivity.
Qed.

Lemma strategy_chain_first_match_wins_witness :
  let env := at_time 1700000120000 in
  let event := message_with_everything in
  let hit := mkLocals (Some session1) [] "context" in
  gallabox_webhook example_parseContext env event world_two_clicks
  = answer ((l ← first_match
                   (strategyChain example_parseContext env "919876543210"
                      (Some "k1") (Some "c9") (Some "Asha") "hi"
                      (ev_context event)) initial_locals;
             _ ← updateRecord env "919876543210" (Some "k1") (Some "c9")
                   (Some "Asha") "hi" l;
             mret l) world_two_clicks)
  /\ matchStrategies example_parseContext env "919876543210" (Some "k1")
       (Some "c9") (Some "Asha") "hi" (ev_context event) world_two_clicks
     = (Return hit, world_two_clicks)
  /\ fst (gallabox_webhook example_parseContext env event world_two_clicks)
     = Processed (Some session1) None "context".
Proof.
  intros env event hit.
  assert (Ha : addressed_here env event) by reflexivity.
  assert (Hp : normalizedPhone event <> "") by (vm_compute; discriminate).
  destruct (strategy_chain_first_match_wins example_parseContext env event
              world_two_clicks Ha Hp) as (H1 & H2 & _).
  split; [|split].
  - apply H1; [|left; reflexivity].
    vm_compute. repeat constructor; discriminate.
  - apply (H2 (mkContext (Some session1) []) eq_refl).
  - destruct (H2 (mkContext (Some session1) []) eq_refl) as (_ & _ & ->).
    vm_compute. reflexivity.
Defined.

(** ** Messages that nothing matches *)

Lemma priority2_miss env cid conv name l w :
  Js.truthy (sessionId l) = false ->
  Js.truthy cid || Js.truthy conv = false
  \/ select_one_newest (QRecentUnengaged (fiveMinutesAgo env)) (store w)
     = None ->
  exists finds,
    priority2 env cid conv name l w
    = (Return l, mkWorld (store w) (sink w) (faults w) (trace w ++ finds))
    /\ forallb is_FindOne finds = true.
Proof.
  intros Hs H. unfold priority2. rewrite Hs. cbn [negb andb].
  destruct (Js.truthy cid || Js.truthy conv).
  - destruct H as [H|H]; [discriminate|]. run. rewrite H.
    eexists [_]. split; reflexivity.
  - exists []. rewrite app_nil_r. destruct w. split; reflexivity.
Qed.

Lemma priority3_miss phone l w :
  Js.truthy (sessionId l) = false ->
  select_one_newest (QPhoneUnengaged phone) (store w) = None ->
  priority3 phone l w = (Return l, logged (FindOne (QPhoneUnengaged phone)) w).
Proof.
  intros Hs H. unfold priority3. rewrite Hs. cbn [negb]. run.
  rewrite H. reflexivity.
Qed.

Lemma directHandling_no_conversation env phone cid conv name msg l w :
  Js.truthy conv = false ->
  directHandling env phone cid conv name msg l w = (Return l, w).
Proof.
  intros H. unfold directHandling, Js.if_truthy.
  destruct (negb (Js.truthy (sessionId l))); [|reflexivity].
  destruct conv as [c|]; [|reflexivity].
  cbn in H. destruct (String.eqb c ""); [reflexivity | discriminate].
Qed.

Lemma unmatched_chain pc env event w :
  decoded_session pc (ev_context event) = None ->
  conversationId_of event = None ->
  contactId_of event = None
  \/ select_one_newest (QRecentUnengaged (fiveMinutesAgo env)) (store w)
     = None ->
  select_one_newest (QPhoneUnengaged (normalizedPhone event)) (store w)
  = None ->
  exists finds,
    matchStrategies pc env (normalizedPhone event) (contactId_of event)
      (conversationId_of event) (contactName_of event)
      (messageContent_of event) (ev_context event) w
    = (Return initial_locals,
       mkWorld (store w) (sink w) (faults w) (trace w ++ finds))
    /\ forallb is_FindOne finds = true.
Proof.
  intros Hctx Hconv Hrecent Hphone. unfold matchStrategies.
  rewrite run_bind, priority1_spec, Hctx, Hconv.
  destruct (priority2_miss env (contactId_of event) None
              (contactName_of event) initial_locals w eq_refl)
    as (finds & H2 & Hfinds).
  { destruct Hrecent as [->|H]; [left; reflexivity | right; exact H]. }
  rewrite run_bind, H2, run_bind, priority3_miss by (reflexivity || exact Hphone).
  rewrite directHandling_no_conversation by reflexivity.
  exists (finds ++ [FindOne (QPhoneUnengaged (normalizedPhone event))]).
  unfold logged. cbn [store sink faults trace]. rewrite <- app_assoc.
  split; [reflexivity|].
  rewrite forallb_app, Hfinds. reflexivity.
Qed.

(** C10. A validated event (for the configured number, with a phone) that
    no strategy matches and that carries no conversation identifier still
    goes through the update block with an undefined record id: a record is
    inserted under a generated [_id] with attribution "direct", and the
    answer is 200 "processed", not "ignored_direct". *)
Theorem unmatched_event_without_conversation_is_upserted
    pc env event (w : World) :
  addressed_here env event ->
  normalizedPhone event <> "" ->
  decoded_session pc (ev_context event) = None ->
  conversationId_of event = None ->
  contactId_of event = None
  \/ select_one_newest (QRecentUnengaged (fiveMinutesAgo env)) (store w)
     = None ->
  select_one_newest (QPhoneUnengaged (normalizedPhone event)) (store w)
  = None ->
  let response := Processed None (Some "direct_message") "direct" in
  let p := [Set_id None] ++ directDefaults
           ++ updateData env "direct" (normalizedPhone event)
                (contactId_of event) None (contactName_of event)
                (messageContent_of event)
           ++ [Set_timestamp (Date_now env)] in
  let d := new_doc (store w) (Date_now env) p in
  exists finds,
    gallabox_webhook pc env event w
    = (response,
       mkWorld (store w ++ [d]) (sink w) (faults w)
         (trace w ++ finds ++ [FindById None; Create p]))
    /\ forallb is_FindOne finds = true
    /\ status response = 200
    /\ _id d = objectId (store w)
    /\ hasEngaged d = true
    /\ attribution_source d = "direct"
    /\ source d = "direct_message".
Proof.
  intros Ha Hp Hctx Hconv Hrecent Hphone response p d.
  rewrite gallabox_webhook_accepted by assumption.
  destruct (unmatched_chain pc env event w Hctx Hconv Hrecent Hphone)
    as (finds & -> & Hfinds).
  rewrite updateRecord_missing by reflexivity.
  cbn [store sink faults trace].
  change (sessionId initial_locals) with (@None string).
  change (utmData initial_locals) with directDefaults.
  change (attribution initial_locals) with "direct".
  rewrite Hconv. fold p. fold d.
  assert (Hk : keeps_id (directDefaults
                 ++ updateData env "direct" (normalizedPhone event)
                      (contactId_of event) None (contactName_of event)
                      (messageContent_of event)
                 ++ [Set_timestamp (Date_now env)]) = true)
    by (rewrite !keeps_id_app, keeps_id_updateData; reflexivity).
  assert (Hpid : patch_id p = None) by (subst p; now apply patch_id_first).
  assert (Hid : _id d = objectId (store w)).
  { subst d p. unfold new_doc. rewrite keeps_id_apply; [reflexivity|].
    cbn [app keeps_id forallb]. exact Hk. }
  rewrite Hpid. cbn [castable]. rewrite Hid, objectId_fresh.
  exists finds. rewrite <- app_assoc.
  split; [reflexivity|]. split; [exact Hfinds|].
  split; [reflexivity|]. split; [reflexivity|].
  subst d p. unfold new_doc.
  rewrite !apply_patch_app. unfold updateData. rewrite !apply_patch_app.
  destruct (Js.truthy (contactName_of event)),
    (negb (String.eqb (messageContent_of event) ""));
    repeat split; reflexivity.
Qed.

Lemma unmatched_event_without_conversation_is_upserted_witness :
  exists finds w',
    gallabox_webhook example_parseContext (at_time 1700000000000)
      (text_from (Some "09876543210")) empty_world
    = (Processed None (Some "direct_message") "direct", w')
    /\ forallb is_FindOne finds = true
    /\ map _id (store w') = ["000000000000000000000000"]
    /\ map attribution_source (store w') = ["direct"].
Proof.
  destruct (unmatched_event_without_conversation_is_upserted
              example_parseContext (at_time 1700000000000)
              (text_from (Some "09876543210")) empty_world)
    as (finds & H & Hf & _);
    try (vm_compute; solve [reflexivity | discriminate | auto]).
  exists finds. eexists. split; [exact H|]. split; [exact Hf|].
  split; vm_compute; reflexivity.
Defined.

(** ** Relations every request keeps *)

Create HintDb preserve.

Section Preservation.

Variable R : Store -> Store -> Prop.
Hypothesis R_refl : forall st, R st st.
Hypothesis R_trans : forall a b c, R a b -> R b c -> R a c.

Variables ok_update ok_create : Patch -> Prop.
Hypothesis R_update : forall now id p st,
  ok_update p -> R st (update_store now id p st).
Hypothesis R_create : forall now p st,
  ok_create p -> R st (st ++ [new_doc st now p]).

Lemma preserves_ret {A} (a : A) : preserves R (mret a).
Proof. intros w. apply R_refl. Qed.

Lemma preserves_throw {A} (e : string) : preserves R (@throw A e).
Proof. intros w. apply R_refl. Qed.

Lemma preserves_bind {A B} (m : M A) (f : A -> M B) :
  preserves R m -> (forall a, preserves R (f a)) -> preserves R (m ≫= f).
Proof.
  intros Hm Hf w. unfold mbind, M_bind. specialize (Hm w).
  destruct (m w) as [[a|e] w1]; cbn [snd] in *; [|exact Hm].
  eapply R_trans; [exact Hm | apply Hf].
Qed.

Lemma preserves_try_catch {A} (m : M A) (h : string -> M A) :
  preserves R m -> (forall e, preserves R (h e)) ->
  preserves R (try_catch m h).
Proof.
  intros Hm Hh w. unfold try_catch. specialize (Hm w).
  destruct (m w) as [[a|e] w1]; cbn [snd] in *; [exact Hm|].
  eapply R_trans; [exact Hm | apply Hh].
Qed.

Lemma preserves_log (e : Effect) : preserves R (log e).
Proof. intros w. apply R_refl. Qed.

Lemma preserves_findById id : preserves R (findById id).
Proof.
  intros w. unfold findById. run.
  destruct id as [i|]; [destruct (is_hex24 i)|]; apply R_refl.
Qed.

Lemma preserves_findOne q : preserves R (findOne q).
Proof. intros w. apply R_refl. Qed.

Lemma preserves_findOneNewest q : preserves R (findOneNewest q).
Proof. intros w. apply R_refl. Qed.

Lemma preserves_findNewest q n : preserves R (findNewest q n).
Proof. intros w. apply R_refl. Qed.

Lemma preserves_findByIdAndUpdate now id p :
  ok_update p -> preserves R (findByIdAndUpdate now id p).
Proof. intros Hp w. run. now apply R_update. Qed.

Lemma preserves_create now p : ok_create p -> preserves R (create now p).
Proof.
  intros Hp w. unfold create. run.
  destruct (castable (patch_id p)); [|apply R_refl]. run.
  destruct (existsb _ (store w)); run; [apply R_refl | now apply R_create].
Qed.

Lemma preserves_sheets_api {A} c effect (reply : Sink -> A) :
  preserves R (sheets_api c effect reply).
Proof.
  intros w. unfold sheets_api.
  destruct (faults w) as [|[] ?]; apply R_refl.
Qed.

#[local] Hint Resolve preserves_ret preserves_throw preserves_log
  preserves_findById preserves_findOne preserves_findOneNewest
  preserves_findNewest preserves_sheets_api preserves_findByIdAndUpdate
  preserves_create : preserve.

Ltac preserve :=
  repeat first
    [ solve [auto with preserve]
    | match goal with
      | |- preserves _ (mbind _ _) => apply preserves_bind; [|intros ?]
      | |- preserves _ (try_catch _ _) =>
          apply preserves_try_catch; [|intros ?]
      | |- preserves _ (match ?x with _ => _ end) => destruct x
      | |- preserves _ (if ?b then _ else _) => destruct b
      end ].

(** The object literals of the code are all of the accepted kinds. *)
Hypothesis ok_enrich : forall cid conv name,
  ok_update [Set_contactId cid; Set_conversationId conv; Set_contactName name].
Hypothesis ok_direct_message : forall msg t,
  ok_update [Set_lastMessage msg; Set_engagedAt t].
Hypothesis ok_updateData : forall env a phone cid conv name msg,
  ok_update (updateData env a phone cid conv name msg).
Hypothesis ok_markSynced : forall now, ok_update (markSynced now).
Hypothesis ok_new_direct : forall sid utm t phone msg cid conv name,
  ok_create ([Set_id sid] ++ utm ++
             [ Set_timestamp t; Set_hasEngaged true; Set_phoneNumber phone;
               Set_lastMessage msg; Set_engagedAt (Some t);
               Set_syncedToSheets false; Set_contactId cid;
               Set_conversationId conv; Set_contactName name ]).
Hypothesis ok_upsert : forall sid utm env a phone cid conv name msg t,
  ok_create ([Set_id sid] ++ utm ++
             updateData env a phone cid conv name msg ++ [Set_timestamp t]).
Hypothesis ok_click : forall sid now body,
  ok_create ([Set_id sid] ++ click_utmData now body ++
             [Set_timestamp now; Set_hasEngaged false;
              Set_syncedToSheets false]).

#[local] Hint Resolve ok_enrich ok_direct_message ok_updateData ok_markSynced
  ok_new_direct ok_upsert ok_click : preserve.

Lemma preserves_matchStrategies pc env phone cid conv name msg context :
  preserves R (matchStrategies pc env phone cid conv name msg context).
Proof.
  unfold matchStrategies, priority1, priority2, priority3, directHandling,
    Js.if_truthy.
  preserve.
Qed.

Lemma preserves_updateRecord env phone cid conv name msg l :
  preserves R (updateRecord env phone cid conv name msg l).
Proof. unfold updateRecord. preserve. Qed.

Lemma gallabox_webhook_keeps pc env event w :
  R (store w) (store (snd (gallabox_webhook pc env event w))).
Proof.
  unfold gallabox_webhook.
  destruct (negb _); [apply R_refl|].
  destruct (String.eqb _ ""); [apply R_refl|].
  match goal with
  | |- context [match ?m w with _ => _ end] =>
      assert (H : preserves R m)
  end.
  { preserve.
    - apply preserves_matchStrategies.
    - apply preserves_updateRecord. }
  specialize (H w).
  match goal with
  | |- context [match ?m w with _ => _ end] =>
      destruct (m w) as [[l|e] w1]
  end; exact H.
Qed.

Lemma store_click_keeps env body w :
  R (store w) (store (snd (store_click env body w))).
Proof.
  unfold store_click.
  match goal with
  | |- context [match ?m w with _ => _ end] =>
      assert (H : preserves R m)
  end.
  { preserve. }
  specialize (H w).
  match goal with
  | |- context [match ?m w with _ => _ end] =>
      destruct (m w) as [[l|e] w1]
  end; exact H.
Qed.

Lemma preserves_markAll now documents : preserves R (markAll now documents).
Proof. induction documents; cbn [markAll]; preserve. Qed.

Lemma preserves_syncAttempt now : preserves R (syncAttempt now).
Proof.
  unfold syncAttempt, initializeSheetsClient, spreadsheets_get,
    batchUpdate_addSheet, values_get_header, values_update_header,
    values_append.
  preserve. apply preserves_markAll.
Qed.

Lemma preserves_syncLoop fuel clock attempt :
  preserves R (syncLoop fuel clock attempt).
Proof.
  revert attempt. induction fuel as [|fuel IH]; intros attempt;
    cbn [syncLoop]; unfold sleep; preserve;
    auto using preserves_syncAttempt.
Qed.

Lemma preserves_on_change now change : preserves R (on_change now change).
Proof.
  unfold on_change, initializeSheetsClient, values_append. preserve.
Qed.

Lemma serve_keeps pc (r : Request) (w : World) :
  R (store w) (store (serve pc r w)).
Proof.
  destruct r as [env body|env event|clock fs|now change fs]; cbn [serve].
  - apply store_click_keeps.
  - apply gallabox_webhook_keeps.
  - apply (preserves_syncLoop MAX_RETRIES clock 0%nat (with_faults fs w)).
  - apply (preserves_on_change now change (with_faults fs w)).
Qed.

End Preservation.

(** ** Phone numbers and engagement *)

Lemma upsert_engaged st now sid utm env a phone cid conv name msg t :
  let d := new_doc st now ([Set_id sid] ++ utm ++
             updateData env a phone cid conv name msg ++ [Set_timestamp t]) in
  hasEngaged d = true.
Proof.
  unfold new_doc, updateData. rewrite !apply_patch_app.
  destruct (apply_patch utm _).
  destruct (Js.truthy name), (negb (String.eqb msg "")); reflexivity.
Qed.

Lemma new_direct_engaged st now sid utm t phone msg cid conv name :
  let d := new_doc st now ([Set_id sid] ++ utm ++
             [ Set_timestamp t; Set_hasEngaged true; Set_phoneNumber phone;
               Set_lastMessage msg; Set_engagedAt (Some t);
               Set_syncedToSheets false; Set_contactId cid;
               Set_conversationId conv; Set_contactName name ]) in
  hasEngaged d = true.
Proof.
  unfold new_doc. rewrite !apply_patch_app.
  destruct (apply_patch utm _). reflexivity.
Qed.

Lemma click_has_no_phone st now t sid body :
  let d := new_doc st now ([Set_id sid] ++ click_utmData t body ++
             [Set_timestamp t; Set_hasEngaged false;
              Set_syncedToSheets false]) in
  phoneNumber d = None /\ hasEngaged d = false.
Proof.
  unfold new_doc, click_utmData. destruct sid; split; reflexivity.
Qed.

Lemma updateData_engages env a phone cid conv name msg d :
  hasEngaged (apply_patch (updateData env a phone cid conv name msg) d) = true.
Proof.
  unfold updateData. destruct d.
  destruct (Js.truthy name), (negb (String.eqb msg "")); reflexivity.
Qed.

Lemma serve_phone_implies_engaged pc r w :
  Forall phone_implies_engaged (store w) ->
  Forall phone_implies_engaged (store (serve pc r w)).
Proof.
  apply (serve_keeps
           (fun st st' => Forall phone_implies_engaged st ->
                          Forall phone_implies_engaged st')
           (fun _ H => H) (fun _ _ _ H1 H2 H => H2 (H1 H))
           (fun p => forall now d, phone_implies_engaged d ->
                                   phone_implies_engaged (update_doc now p d))
           (fun p => forall st now, phone_implies_engaged (new_doc st now p))).
  - intros now [i|] p st Hp H; [|exact H]. cbn [update_store].
    apply Forall_fmap. eapply Forall_impl; [exact H|].
    intros d Hd. cbn. destruct (has_id i d); auto.
  - intros now p st Hp H. apply Forall_app. split; [exact H|].
    constructor; [apply Hp | constructor].
  - intros cid conv name now d H. destruct d. exact H.
  - intros msg t now d H. destruct d. exact H.
  - intros env a phone cid conv name msg now d _ _.
    apply (updateData_engages env a phone cid conv name msg d).
  - intros t now d H. destruct d. exact H.
  - intros sid utm t phone msg cid conv name st now _.
    apply new_direct_engaged.
  - intros sid utm env a phone cid conv name msg t st now _.
    apply upsert_engaged.
  - intros sid t body st now H.
    destruct (click_has_no_phone st now t sid body) as [Hp _].
    congruence.
Qed.

Lemma reachable_phone_implies_engaged pc w :
  reachable pc w -> Forall phone_implies_engaged (store w).
Proof.
  induction 1 as [s|r w _ IH]; [constructor|].
  now apply serve_phone_implies_engaged.
Qed.

Lemma phone_query_needs_unengaged_phone phone d :
  matches (QPhoneUnengaged phone) d = true ->
  phoneNumber d = Some phone /\ hasEngaged d = false.
Proof.
  cbn [matches]. intros H. apply andb_prop in H as [Hp He].
  apply bool_decide_eq_true in Hp. apply negb_true_iff in He. auto.
Qed.

(** On a reachable collection the Priority-3 query finds nothing at all:
    the code puts a phone number on a record only together with
    [hasEngaged = true]. *)
Lemma phone_query_finds_nothing pc w phone :
  reachable pc w ->
  select_one_newest (QPhoneUnengaged phone) (store w) = None.
Proof.
  intros Hw. apply reachable_phone_implies_engaged in Hw.
  destruct (select_one_newest _ _) as [d|] eqn:E; [|reflexivity].
  apply select_one_newest_elem in E as [Hin Hm].
  apply phone_query_needs_unengaged_phone in Hm as [Hp He].
  rewrite Forall_forall in Hw. specialize (Hw d Hin).
  unfold phone_implies_engaged in Hw. rewrite Hp, He in Hw.
  discriminate Hw. discriminate.
Qed.

(** C2. In every world the system reaches, no record with source
    "direct_message" passes the filter of the Priority-3 phone query, so the
    record the query returns is never such a record; in fact the query
    returns no record at all there. *)
Theorem phone_match_never_direct_message pc (w : World) :
  reachable pc w ->
  forall phone,
    (forall d, d ∈ store w -> source d = "direct_message" ->
               matches (QPhoneUnengaged phone) d = false)
    /\ (forall d w',
          findOneNewest (QPhoneUnengaged phone) w = (Return (Some d), w') ->
          source d <> "direct_message")
    /\ findOneNewest (QPhoneUnengaged phone) w
       = (Return None, logged (FindOne (QPhoneUnengaged phone)) w).
Proof.
  intros Hw phone. split; [|split].
  - intros d Hin _.
    destruct (matches (QPhoneUnengaged phone) d) eqn:Hm; [|reflexivity].
    apply phone_query_needs_unengaged_phone in Hm as [Hp He].
    apply reachable_phone_implies_engaged in Hw.
    rewrite Forall_forall in Hw. specialize (Hw d Hin).
    unfold phone_implies_engaged in Hw. rewrite Hp, He in Hw.
    discriminate Hw. discriminate.
  - intros d w' H. run.
    rewrite (phone_query_finds_nothing pc w phone Hw) in H. discriminate.
  - run. rewrite (phone_query_finds_nothing pc w phone Hw). reflexivity.
Qed.

Lemma phone_match_never_direct_message_witness :
  record_0 world_direct ∈ store world_direct
  /\ source (record_0 world_direct) = "direct_message"
  /\ phoneNumber (record_0 world_direct) = Some "919876543210"
  /\ matches (QPhoneUnengaged "919876543210") (record_0 world_direct) = false.
Proof.
  assert (Hr : reachable example_parseContext world_direct)
    by (apply reachable_serve, (reachable_start _ (mkSink false []))).
  assert (Hin : record_0 world_direct ∈ store world_direct)
    by (vm_compute; left).
  assert (Hs : source (record_0 world_direct) = "direct_message")
    by reflexivity.
  split; [exact Hin|]. split; [exact Hs|]. split; [reflexivity|].
  exact (proj1 (phone_match_never_direct_message example_parseContext
                  world_direct Hr "919876543210")
           (record_0 world_direct) Hin Hs).
Defined.


(** ** Engagement never regresses *)

Lemma serve_engagement_kept pc r w :
  engagement_kept (store w) (store (serve pc r w)).
Proof.
  apply (serve_keeps engagement_kept)
    with (ok_update := fun p =>
            keeps_id p = true
            /\ forall d, hasEngaged d = true ->
                         hasEngaged (apply_patch p d) = true)
         (ok_create := fun _ => True).
  - intros st d Hin He. eauto.
  - intros a b c Hab Hbc d Hin He.
    destruct (Hab d Hin He) as (d1 & Hin1 & Hid1 & He1).
    destruct (Hbc d1 Hin1 He1) as (d2 & Hin2 & Hid2 & He2).
    exists d2. repeat split; congruence.
  - intros now [i|] p st [Hk Hp] d Hin He; [|eauto].
    exists (if has_id i d then update_doc now p d else d).
    split.
    { apply (list_elem_of_fmap_2
               (fun d => if has_id i d then update_doc now p d else d)
               _ _ Hin). }
    destruct (has_id i d); [|auto].
    unfold update_doc. destruct (apply_patch p d) eqn:E.
    pose proof (keeps_id_apply p d Hk) as Hid. specialize (Hp d He).
    rewrite E in Hid, Hp. cbn in *. auto.
  - intros now p st _ d Hin He. exists d.
    split; [apply elem_of_app; auto | auto].
  - intros cid conv name. split; [reflexivity|]. intros []; auto.
  - intros msg t. split; [reflexivity|]. intros []; auto.
  - intros env a phone cid conv name msg.
    split; [apply keeps_id_updateData|].
    intros d _. apply updateData_engages.
  - intros now. split; [reflexivity|]. intros []; auto.
  - intros; exact I.
  - intros; exact I.
  - intros; exact I.
Qed.

(** C5. Whatever requests are served (clicks, webhook events, batch syncs,
    change-stream events, in any order and with any faults of the sink),
    a record that was engaged is still in the collection under its [_id]
    and still has [hasEngaged = true]. *)
Theorem hasEngaged_never_regresses pc (rs : list Request) (w : World) :
  engagement_kept (store w) (store (serve_all pc rs w)).
Proof.
  revert w. induction rs as [|r rs IH]; intros w; cbn [serve_all fold_left].
  - intros d Hin He. eauto.
  - intros d Hin He.
    destruct (serve_engagement_kept pc r w d Hin He) as (d1 & Hin1 & Hid1 & He1).
    destruct (IH (serve pc r w) d1 Hin1 He1) as (d2 & Hin2 & Hid2 & He2).
    exists d2. split; [exact Hin2|]. split; congruence.
Qed.

Lemma hasEngaged_never_regresses_witness :
  exists d',
    d' ∈ store (serve_all example_parseContext
                  [ PostGallaboxWebhook (at_time 1700000180000)
                      message_with_context;
                    PostStoreClick (at_time 1700000200000) click_s1;
                    PostScheduledSync (fun _ => 1700000300000) [false; true];
                    ChangeStreamEvent 1700000400000
                      (mkChange "update" (Some (record_s1 world_engaged))) [] ]
                  world_engaged)
    /\ _id d' = session1 /\ hasEngaged d' = true.
Proof.
  apply (hasEngaged_never_regresses example_parseContext _ world_engaged
           (record_s1 world_engaged)).
  - vm_compute. left.
  - reflexivity.
Defined.

(** ** Re-applying the update block without a record id *)

(** C3 fails where the chain matched nothing and the event has no
    conversation: the update block runs with an undefined id, finds no
    record, and inserts one under a generated [_id] each time it is
    applied, so the second application leaves two records where the first
    left one. *)
Theorem update_block_without_id_inserts_again :
  let event := text_from (Some "09876543210") in
  let env := at_time 1700000000000 in
  let step := updateRecord env (normalizedPhone event) (contactId_of event)
                (conversationId_of event) (contactName_of event)
                (messageContent_of event) initial_locals in
  let once := snd (step empty_world) in
  let twice := snd (step once) in
  let served := gallabox_webhook example_parseContext env event empty_world in
  fst served = Processed None (Some "direct_message") "direct"
  /\ store (snd served) = store once
  /\ map _id (store once) = ["000000000000000000000000"]
  /\ map _id (store twice)
     = ["000000000000000000000000"; "100000000000000000000000"]
  /\ store twice <> store once.
Proof.
  vm_compute. repeat split; try reflexivity. intros H. discriminate H.
Qed.

(** ** One export attempt *)

Lemma sheets_api_cases {A} c effect (reply : Sink -> A) w :
  sheets_api c effect reply w
  = (Throw "Sheets API error",
     mkWorld (store w) (sink w) (tail (faults w))
       (trace w ++ [Sheets c false]))
  \/ sheets_api c effect reply w
     = (Return (reply (sink w)),
        mkWorld (store w) (effect (sink w)) (tail (faults w))
          (trace w ++ [Sheets c true])).
Proof.
  unfold sheets_api. destruct (faults w) as [|[] rest]; auto.
Qed.

Lemma markAll_spec now documents w :
  markAll now documents w
  = (Return tt,
     mkWorld (mark_store now documents (store w)) (sink w) (faults w)
       (trace w ++ map (mark_of now) documents)).
Proof.
  revert w. induction documents as [|doc rest IH]; intros w.
  - cbn. rewrite app_nil_r. destruct w; reflexivity.
  - cbn [markAll]. rewrite run_bind. run. rewrite IH.
    cbn [store sink faults trace map mark_store fold_left].
    rewrite <- app_assoc. reflexivity.
Qed.

Lemma marks_follow_append_marks now documents :
  marks_follow_append true (map (mark_of now) documents) = true.
Proof. induction documents; [reflexivity | exact IHdocuments]. Qed.

Lemma attempts_in_app a b :
  attempts_in (a ++ b) = (attempts_in a + attempts_in b)%nat.
Proof. unfold attempts_in. now rewrite List.filter_app, length_app. Qed.

Lemma sleeps_in_app a b : sleeps_in (a ++ b) = sleeps_in a ++ sleeps_in b.
Proof. apply omap_app. Qed.

Lemma attempts_in_marks now documents :
  attempts_in (map (mark_of now) documents) = 0%nat.
Proof. induction documents; [reflexivity | exact IHdocuments]. Qed.

Lemma sleeps_in_marks now documents :
  sleeps_in (map (mark_of now) documents) = [].
Proof. induction documents; [reflexivity | exact IHdocuments]. Qed.

Lemma existsb_append_marks ok now documents :
  existsb (is_append ok) (map (mark_of now) documents) = false.
Proof. induction documents; [reflexivity | exact IHdocuments]. Qed.

Ltac sheets_step :=
  rewrite run_bind;
  match goal with
  | |- context [sheets_api ?c ?e ?r ?w] =>
      let H := fresh in
      destruct (sheets_api_cases c e r w) as [H|H]; rewrite H; clear H;
      cbn [store sink faults trace]
  end.

Ltac trace_eq :=
  first [ rewrite <- ?app_assoc; reflexivity | symmetry; apply app_nil_r ].

Ltac report_leaf0 :=
  eexists; unfold attempt_report, mret, M_ret;
  cbn [fst snd store sink faults trace];
  split; [trace_eq|];
  cbn [app]; repeat split; try reflexivity; try discriminate;
  try (cbv [attempts_in List.filter is_attempt_start length]; lia).

Ltac report_leaf :=
  eexists; unfold attempt_report; cbn [fst snd store sink faults trace];
  split; [split; [rewrite <- ?app_assoc; reflexivity|]|];
  cbn [app]; repeat split; try reflexivity; try discriminate.

Lemma attempts_in_cons e l :
  attempts_in (e :: l)
  = ((if is_attempt_start e then 1 else 0) + attempts_in l)%nat.
Proof. unfold attempts_in. cbn. destruct (is_attempt_start e); reflexivity. Qed.

Lemma sleeps_in_cons e l :
  sleeps_in (e :: l)
  = match e with Sleep ms => ms :: sleeps_in l | _ => sleeps_in l end.
Proof. destruct e; reflexivity. Qed.


Lemma findNewest_run q n w :
  findNewest q n w = (Return (select_newest q n (store w)), logged (Find q n) w).
Proof. reflexivity. Qed.

Lemma syncAttempt_report now w :
  exists calls,
    attempt_report w (syncAttempt now w) calls
    /\ attempts_in calls = 1%nat
    /\ (existsb (is_append false) calls = true ->
        is_throw (fst (syncAttempt now w)) = true).
Proof.
  unfold syncAttempt, initializeSheetsClient, spreadsheets_get,
    batchUpdate_addSheet, values_get_header, values_update_header,
    values_append.
  sheets_step; [report_leaf|].
  sheets_step; [report_leaf|].
  destruct (hasSheet1 (id (sink w))); cbn [negb];
    [rewrite run_bind, run_ret | sheets_step; [report_leaf|]].
  all: sheets_step; [report_leaf|].
  all: match goal with
       | |- context [match ?x with Some _ => _ | None => _ end] =>
           destruct x
       end;
       [rewrite run_bind, run_ret | sheets_step; [report_leaf|]].
  all: rewrite run_bind, findNewest_run; unfold logged;
       cbn [store sink faults trace];
       set (documents := select_newest QEngagedUnsynced 250 (store w));
       destruct (length documents =? 0)%nat;
       [rewrite run_ret; report_leaf|];
       sheets_step; [report_leaf|];
       rewrite run_bind, markAll_spec, run_ret.
  all: eexists; unfold attempt_report; cbn [fst snd store sink faults trace];
       (split; [split; [rewrite <- ?app_assoc; reflexivity|]|]); cbn [app].
  all: cbn [marks_follow_append existsb is_append Bool.eqb orb is_throw];
       rewrite ?attempts_in_cons, ?attempts_in_marks,
         ?marks_follow_append_marks, ?sleeps_in_cons, ?sleeps_in_marks,
         ?existsb_append_marks;
       cbn [is_attempt_start Nat.add];
       repeat split; try reflexivity; try discriminate; try lia.
Qed.

Lemma on_change_report now change w :
  exists calls, attempt_report w (on_change now change w) calls.
Proof.
  unfold on_change, try_catch, initializeSheetsClient, values_append.
  destruct (negb _ && negb _); [report_leaf0|].
  destruct (fullDocument change) as [doc|]; [|report_leaf0].
  sheets_step; [report_leaf0|].
  sheets_step; [report_leaf0|].
  unfold findByIdAndUpdate. run. report_leaf0.
Qed.

(** ** Reading the trace *)

Lemma marks_follow_append_sound b calls :
  marks_follow_append b calls = true ->
  forall pre id p post,
    calls = pre ++ FindByIdAndUpdate id p :: post ->
    b = true \/ exists rows, Sheets (ValuesAppend rows) true ∈ pre.
Proof.
  revert b. induction calls as [|e calls IH]; intros b H pre id p post E.
  - destruct pre; discriminate.
  - destruct pre as [|e' pre]; cbn [app] in E; injection E as -> ->.
    + cbn in H. apply andb_prop in H as [-> _]. now left.
    + assert (Hr : forall b', marks_follow_append b' (pre ++ FindByIdAndUpdate id p :: post) = true ->
                b' = true \/ exists rows, Sheets (ValuesAppend rows) true ∈ e' :: pre).
      { intros b' Hb'. destruct (IH b' Hb' pre id p post eq_refl) as [->|[rows Hin]];
          [now left|]. right. exists rows. now apply list_elem_of_further. }
      destruct e' as [q|q n|i|i u|u|c ok|ms]; cbn [marks_follow_append] in H.
      * destruct (Hr b H) as [->|?]; auto.
      * destruct (Hr b H) as [->|?]; auto.
      * destruct (Hr b H) as [->|?]; auto.
      * apply andb_prop in H as [-> _]. now left.
      * discriminate.
      * destruct c; try (destruct (Hr b H) as [->|?]; auto).
        destruct (Hr ok H) as [->|?]; [|auto].
        right. exists rows. apply list_elem_of_here.
      * destruct (Hr b H) as [->|?]; auto.
Qed.

Lemma marks_follow_append_precedes calls :
  marks_follow_append false calls = true -> append_precedes_marks calls.
Proof.
  intros H pre id p post E.
  destruct (marks_follow_append_sound false calls H pre id p post E)
    as [?|?]; [discriminate | assumption].
Qed.

Lemma marks_follow_append_weaken b calls :
  marks_follow_append false calls = true ->
  marks_follow_append b calls = true.
Proof.
  revert b. induction calls as [|e calls IH]; intros b H; [reflexivity|].
  destruct e as [q|q n|i|i u|u|c ok|ms]; cbn [marks_follow_append] in *;
    auto; try discriminate.
  destruct c; auto.
Qed.

Lemma marks_follow_append_app b calls more :
  marks_follow_append b calls = true ->
  marks_follow_append false more = true ->
  marks_follow_append b (calls ++ more) = true.
Proof.
  revert b. induction calls as [|e calls IH]; intros b H Hm.
  - now apply marks_follow_append_weaken.
  - destruct e as [q|q n|i|i u|u|c ok|ms];
      cbn [app marks_follow_append] in *; auto; try discriminate.
    + apply andb_prop in H as [-> H]. cbn. auto.
    + destruct c; auto.
Qed.

Lemma existsb_is_append ok calls :
  existsb (is_append ok) calls = true
  <-> exists rows, Sheets (ValuesAppend rows) ok ∈ calls.
Proof.
  rewrite existsb_exists. split.
  - intros (e & Hin & He). destruct e as [| | | | |[| | | | |rows] ok'|];
      try discriminate.
    cbn in He. apply Bool.eqb_prop in He as ->.
    exists rows. now apply list_elem_of_In.
  - intros (rows & Hin). eexists. split; [apply list_elem_of_In, Hin|].
    cbn. destruct ok; reflexivity.
Qed.

Lemma not_existsb_is_append ok calls :
  (forall rows, Sheets (ValuesAppend rows) ok ∉ calls) ->
  existsb (is_append ok) calls = false.
Proof.
  intros H. destruct (existsb (is_append ok) calls) eqn:E; [|reflexivity].
  apply existsb_is_append in E as [rows Hin]. destruct (H rows Hin).
Qed.

(** ** The retry loop *)

Lemma syncLoop_report fuel clock attempt w :
  exists calls,
    let rw := syncLoop fuel clock attempt w in
    trace (snd rw) = trace w ++ calls
    /\ marks_follow_append false calls = true
    /\ (is_throw (fst rw) = true -> store (snd rw) = store w)
    /\ (existsb (is_append true) calls = false -> store (snd rw) = store w).
Proof.
  revert attempt w. induction fuel as [|fuel IH]; intros attempt w.
  { exists []. cbn. rewrite app_nil_r. auto. }
  cbn [syncLoop]. destruct (attempt <? MAX_RETRIES)%nat.
  2:{ exists []. cbn. rewrite app_nil_r. auto. }
  unfold try_catch. rewrite run_bind.
  destruct (syncAttempt_report (clock attempt) w)
    as (calls & (Htr & Hord & _ & _ & Hthrow & _ & Hnone) & _ & _).
  destruct (syncAttempt (clock attempt) w) as [[r|e] w1];
    cbn [fst snd is_throw] in *.
  { rewrite run_ret. exists calls. cbn [fst snd is_throw]. auto. }
  specialize (Hthrow eq_refl).
  destruct (MAX_RETRIES <=? S attempt)%nat.
  { exists calls. cbn [throw fst snd is_throw]. auto. }
  rewrite run_bind. unfold sleep, log.
  destruct (IH (S attempt)
              (mkWorld (store w1) (sink w1) (faults w1)
                 (trace w1 ++ [Sleep (Z.of_nat (S attempt) * 2000)])))
    as (more & Hm).
  cbv zeta in Hm. cbn [store trace] in Hm.
  destruct Hm as (Htr2 & Hord2 & Hthrow2 & Hnone2).
  exists (calls ++ Sleep (Z.of_nat (S attempt) * 2000) :: more).
  cbv zeta. split; [|split; [|split]].
  - rewrite Htr2, Htr, <- !app_assoc. reflexivity.
  - apply marks_follow_append_app; assumption.
  - intros H. rewrite Hthrow2 by assumption. exact Hthrow.
  - intros H. rewrite existsb_app in H. apply orb_false_elim in H as [H1 H2].
    rewrite Hnone2 by exact H2. exact Hthrow.
Qed.

(** ** What a run of the export leaves behind *)

Lemma header_ready_idem rows : header_ready (header_ready rows) = header_ready rows.
Proof. destruct rows as [|[|c r] below]; reflexivity. Qed.

Lemma header_ready_touched before after :
  header_touched before after -> header_ready after = header_ready before.
Proof. intros [->| ->]; [reflexivity | apply header_ready_idem]. Qed.

Lemma pending_bounds st :
  pending st <> [] -> (1 <= length (pending st) <= 250)%nat.
Proof.
  intros Hne. split.
  - destruct (pending st); [congruence | cbn; lia].
  - unfold pending, select_newest. rewrite length_take. lia.
Qed.

Lemma syncAttempt_outcome now w :
  let rw := syncAttempt now w in
  match fst rw with
  | Return NothingToSync =>
      pending (store w) = [] /\ store (snd rw) = store w
      /\ hasSheet1 (sink (snd rw)) = true
      /\ sheetRows (sink (snd rw)) = header_ready (sheetRows (sink w))
  | Return (Synced n) =>
      pending (store w) <> [] /\ n = length (pending (store w))
      /\ store (snd rw) = mark_store now (pending (store w)) (store w)
      /\ hasSheet1 (sink (snd rw)) = true
      /\ sheetRows (sink (snd rw))
         = header_ready (sheetRows (sink w))
           ++ convertToSheetRows (pending (store w))
  | Throw _ =>
      store (snd rw) = store w
      /\ header_touched (sheetRows (sink w)) (sheetRows (sink (snd rw)))
  end.
Proof.
  cbv zeta.
  unfold syncAttempt, initializeSheetsClient, spreadsheets_get,
    batchUpdate_addSheet, values_get_header, values_update_header,
    values_append.
  destruct w as [st [sheet rows] fs tr].
  sheets_step; [cbn; unfold header_touched; auto|].
  sheets_step; [cbn; unfold header_touched; auto|].
  unfold id. cbn [hasSheet1 sheetRows].
  destruct sheet; cbn [negb];
    [rewrite run_bind, run_ret | sheets_step; [cbn; unfold header_touched; auto|]].
  all: sheets_step; [cbn; unfold header_touched; auto|].
  all: cbn [hasSheet1 sheetRows].
  all: destruct rows as [|[|c r] below];
       [sheets_step; [cbn; unfold header_touched; auto|]
       |sheets_step; [cbn; unfold header_touched; auto|]
       |rewrite run_bind, run_ret].
  all: rewrite run_bind, findNewest_run; unfold logged;
       cbn [store sink faults trace hasSheet1 sheetRows tail];
       fold (pending st);
       destruct (pending st) as [|d docs] eqn:Hp; cbn [length Nat.eqb];
       [rewrite run_ret; cbn; auto|];
       sheets_step; [cbn; unfold header_touched; auto|];
       rewrite run_bind, markAll_spec, run_ret;
       cbn [fst snd store sink hasSheet1 sheetRows header_ready];
       unfold convertToSheetRows; rewrite length_map;
       repeat split; try reflexivity; discriminate.
Qed.

Lemma syncLoop_outcome fuel clock attempt w :
  (attempt < MAX_RETRIES)%nat ->
  (MAX_RETRIES - attempt <= fuel)%nat ->
  let rw := syncLoop fuel clock attempt w in
  export_outcome clock attempt MAX_RETRIES w (fst rw) (snd rw).
Proof.
  revert attempt w. induction fuel as [|fuel IH]; intros attempt w Ha Hf;
    [lia|].
  cbv zeta. cbn [syncLoop]. apply Nat.ltb_lt in Ha as Ha'. rewrite Ha'.
  unfold try_catch. rewrite run_bind.
  pose proof (syncAttempt_outcome (clock attempt) w) as Hone.
  cbv zeta in Hone.
  destruct (syncAttempt (clock attempt) w) as [[r|e] w1]; cbn [fst snd] in *.
  { rewrite run_ret. cbn [fst snd]. unfold export_outcome.
    destruct r as [|n].
    - exact Hone.
    - destruct Hone as (Hne & Hn & Hst & Hsh & Hrows).
      split; [exact Hn|]. split; [subst n; now apply pending_bounds|].
      split; [exists attempt; split; [lia | exact Hst]|]. now split. }
  destruct Hone as [Hst Hrows].
  destruct (MAX_RETRIES <=? S attempt)%nat eqn:Hlast.
  { cbn [throw fst snd]. unfold export_outcome. now split. }
  apply Nat.leb_gt in Hlast.
  rewrite run_bind. unfold sleep, log.
  match goal with
  | |- context [syncLoop fuel clock (S attempt) ?w2] =>
      specialize (IH (S attempt) w2 ltac:(lia) ltac:(lia)); cbv zeta in IH;
      destruct (syncLoop fuel clock (S attempt) w2) as [r2 w2'] eqn:Hrun
  end.
  cbn [fst snd store sink] in IH. cbn [fst snd].
  unfold export_outcome in *. cbn [store sink] in IH.
  rewrite Hst, (header_ready_touched _ _ Hrows) in IH.
  destruct r2 as [[[|n]|]|e2].
  - exact IH.
  - destruct IH as (Hn & Hb & (k & Hk & Hmark) & Hsh & Hr).
    split; [exact Hn|]. split; [exact Hb|].
    split; [exists k; split; [lia | exact Hmark]|]. now split.
  - exact IH.
  - destruct IH as [Hst2 Ht2]. split; [congruence|].
    destruct Hrows as [Hr|Hr], Ht2 as [Ht|Ht]; unfold header_touched;
      rewrite Ht, Hr, ?header_ready_idem; auto.
Qed.


(** ** The selection of the batch export *)

#[export] Instance newer_or_same_total : Total newer_or_same.
Proof. intros a b. unfold newer_or_same. lia. Qed.

#[export] Instance newer_or_same_trans : Transitive newer_or_same.
Proof. intros a b c. unfold newer_or_same. lia. Qed.

Lemma matches_export_eligible (d : Doc) :
  matches QEngagedUnsynced d = true <-> export_eligible d.
Proof.
  unfold export_eligible. cbn [matches].
  rewrite !andb_true_iff, !negb_true_iff, String.eqb_neq. tauto.
Qed.

Lemma sheets_api_no_fault {A} c effect (reply : Sink -> A) w :
  faults w = [] ->
  sheets_api c effect reply w
  = (Return (reply (sink w)),
     mkWorld (store w) (effect (sink w)) [] (trace w ++ [Sheets c true])).
Proof. intros H. unfold sheets_api. rewrite H. reflexivity. Qed.

Lemma syncAttempt_no_fault now w :
  faults w = [] -> exists r, fst (syncAttempt now w) = Return r.
Proof.
  intros Hf.
  unfold syncAttempt, initializeSheetsClient, spreadsheets_get,
    batchUpdate_addSheet, values_get_header, values_update_header,
    values_append.
  rewrite run_bind, sheets_api_no_fault by exact Hf.
  rewrite run_bind, sheets_api_no_fault by reflexivity.
  cbn [store sink faults trace].
  destruct (negb _);
    [rewrite run_bind, sheets_api_no_fault by reflexivity
    |rewrite run_bind, run_ret].
  all: rewrite run_bind, sheets_api_no_fault by reflexivity.
  all: match goal with
       | |- context [match ?x with Some _ => _ | None => _ end] =>
           destruct x
       end;
       [rewrite run_bind, run_ret
       |rewrite run_bind, sheets_api_no_fault by reflexivity].
  all: rewrite run_bind, findNewest_run; unfold logged;
       cbn [store sink faults trace];
       match goal with
       | |- context [if ?b then _ else _] => destruct b
       end;
       [rewrite run_ret; eauto|];
       rewrite run_bind, sheets_api_no_fault by reflexivity;
       rewrite run_bind, markAll_spec, run_ret; eauto.
Qed.

(** C6. What a batch export exports. Put the eligible records of the
    collection (engaged, not yet synced, source other than
    "direct_message") newest first; a run of [syncToSheets] that reports a
    count has appended the rows of the first 250 of them (all of them when
    there are fewer), in that order, below what the sheet held, has marked
    exactly those records, and reports their number; every record it left
    out is at most as new as every record it took. A run that reports
    nothing to sync found no eligible record. A run that meets no fault of
    the Sheets API ends in one of these two ways. *)
Theorem batch_export_selection (clock : nat -> Z) (w : World) :
  let eligible :=
    filter (fun d => matches QEngagedUnsynced d = true) (store w) in
  let rw := syncToSheets clock w in
  (forall d, d ∈ eligible <-> d ∈ store w /\ export_eligible d)
  /\ (faults w = [] -> exists r, fst rw = Return (Some r))
  /\ (fst rw = Return (Some NothingToSync) ->
      eligible = [] /\ store (snd rw) = store w)
  /\ (forall n, fst rw = Return (Some (Synced n)) ->
      exists documents left_out k,
        documents ++ left_out ≡ₚ eligible
        /\ StronglySorted newer_or_same (documents ++ left_out)
        /\ length documents = Nat.min 250 (length eligible)
        /\ (forall d d', d ∈ documents -> d' ∈ left_out ->
                         timestamp d' <= timestamp d)
        /\ n = length documents
        /\ sheetRows (sink (snd rw))
           = header_ready (sheetRows (sink w))
             ++ convertToSheetRows documents
        /\ (k < 3)%nat
        /\ store (snd rw) = mark_store (clock k) documents (store w)).
Proof.
  intros eligible rw.
  set (sorted := sort_newest_first eligible).
  assert (Hperm : sorted ≡ₚ eligible) by apply merge_sort_Permutation.
  assert (Hsorted : StronglySorted newer_or_same sorted)
    by apply (StronglySorted_merge_sort newer_or_same).
  assert (Hpending : pending (store w) = take 250 sorted) by reflexivity.
  pose proof (syncLoop_outcome MAX_RETRIES clock 0 w
                ltac:(unfold MAX_RETRIES; lia) ltac:(lia)) as Hout.
  cbv zeta in Hout. fold (syncToSheets clock w) in Hout. fold rw in Hout.
  unfold export_outcome in Hout. rewrite Hpending in Hout.
  split; [|split; [|split]].
  - intros d. subst eligible. rewrite list_elem_of_filter.
    rewrite matches_export_eligible. tauto.
  - intros Hf. subst rw. unfold syncToSheets.
    change MAX_RETRIES with 3%nat at 1. cbn [syncLoop].
    change (0 <? MAX_RETRIES)%nat with true. cbv iota.
    unfold try_catch. rewrite run_bind.
    destruct (syncAttempt_no_fault (clock 0%nat) w Hf) as [r Hr].
    destruct (syncAttempt (clock 0%nat) w) as [[r'|e] w1];
      cbn [fst] in Hr; [|discriminate].
    rewrite run_ret. eauto.
  - intros Hr. rewrite Hr in Hout. destruct Hout as (Hnil & Hst & _).
    split; [|exact Hst].
    apply Permutation_nil_r. rewrite <- Hperm.
    destruct sorted; [reflexivity | discriminate Hnil].
  - intros n Hr. rewrite Hr in Hout.
    destruct Hout as (Hn & _ & (k & Hk & Hst) & _ & Hrows).
    exists (take 250 sorted), (drop 250 sorted), k.
    split; [rewrite take_drop; exact Hperm|].
    split; [rewrite take_drop; exact Hsorted|].
    split; [rewrite length_take, Hperm; reflexivity|].
    split.
    { intros d d' Hd Hd'.
      rewrite <- (take_drop 250 sorted) in Hsorted.
      apply (StronglySorted_app_1_elem_of _ _ _ _ _ Hsorted Hd Hd'). }
    split; [exact Hn|]. split; [exact Hrows|].
    split; [unfold MAX_RETRIES in Hk; lia | exact Hst].
Qed.

Lemma batch_export_selection_witness :
  let w := three_engaged in
  let rw := syncToSheets sync_clock w in
  let eligible :=
    filter (fun d => matches QEngagedUnsynced d = true) (store w) in
  (exists r, fst rw = Return (Some r))
  /\ exists documents left_out k,
       documents ++ left_out ≡ₚ eligible
       /\ StronglySorted newer_or_same (documents ++ left_out)
       /\ length documents = Nat.min 250 (length eligible)
       /\ (forall d d', d ∈ documents -> d' ∈ left_out ->
                        timestamp d' <= timestamp d)
       /\ 3%nat = length documents
       /\ sheetRows (sink (snd rw))
          = header_ready (sheetRows (sink w))
            ++ convertToSheetRows documents
       /\ (k < 3)%nat
       /\ store (snd rw) = mark_store (sync_clock k) documents (store w).
Proof.
  intros w rw eligible.
  destruct (batch_export_selection sync_clock three_engaged)
    as (_ & Hrun & _ & Hsel).
  split.
  - apply Hrun. reflexivity.
  - apply (Hsel 3%nat). vm_compute. reflexivity.
Defined.

Lemma syncAttempt_single now w :
  exists calls,
    trace (snd (syncAttempt now w)) = trace w ++ calls /\ single_attempt calls.
Proof.
  destruct (syncAttempt_report now w)
    as (calls & (Htr & _ & _ & Hs & _) & Hone & _).
  exists calls. split; [exact Htr | split; assumption].
Qed.

Lemma syncLoop_backoff fuel clock attempt w :
  (attempt < MAX_RETRIES)%nat ->
  (MAX_RETRIES - attempt <= fuel)%nat ->
  exists attempts,
    let rw := syncLoop fuel clock attempt w in
    trace (snd rw) = trace w ++ with_backoff (S attempt) attempts
    /\ (1 <= length attempts <= MAX_RETRIES - attempt)%nat
    /\ Forall single_attempt attempts
    /\ match fst rw with
       | Throw e =>
           length attempts = (MAX_RETRIES - attempt)%nat
           /\ exists err, e = "Final sync failure: " +:+ err
       | Return (Some _) => True
       | Return None => False
       end.
Proof.
  revert attempt w. induction fuel as [|fuel IH]; intros attempt w Ha Hf;
    [lia|].
  cbn [syncLoop]. apply Nat.ltb_lt in Ha as Ha'. rewrite Ha'.
  unfold try_catch. rewrite run_bind.
  destruct (syncAttempt_single (clock attempt) w) as (calls & Htr & Hs).
  destruct (syncAttempt (clock attempt) w) as [[r|e] w1]; cbn [fst snd] in *.
  { rewrite run_ret. exists [calls]. cbn [fst snd with_backoff length].
    repeat split; try assumption; try lia. constructor; [exact Hs|constructor]. }
  destruct (MAX_RETRIES <=? S attempt)%nat eqn:Hlast.
  { apply Nat.leb_le in Hlast.
    exists [calls]. cbn [throw fst snd with_backoff length].
    repeat split; try assumption; try lia.
    - constructor; [exact Hs|constructor].
    - eauto. }
  apply Nat.leb_gt in Hlast.
  rewrite run_bind. unfold sleep, log.
  destruct (IH (S attempt)
              (mkWorld (store w1) (sink w1) (faults w1)
                 (trace w1 ++ [Sleep (Z.of_nat (S attempt) * 2000)])))
    as (later & Hl); [lia | lia |].
  cbv zeta in Hl. cbn [trace] in Hl.
  destruct Hl as (Htr2 & Hlen & Hall & Hres).
  exists (calls :: later). cbv zeta.
  split; [|split; [|split]].
  - rewrite Htr2, Htr, <- !app_assoc. cbn [with_backoff].
    destruct later as [|a later]; [cbn in Hlen; lia | reflexivity].
  - cbn [length]. lia.
  - constructor; assumption.
  - destruct (fst (syncLoop fuel clock (S attempt) _)) as [[r|]|e'];
      [exact I | exact Hres |].
    destruct Hres as [Hn Herr]. split; [cbn [length]; lia | exact Herr].
Qed.

Lemma sleeps_in_single calls more :
  single_attempt calls -> sleeps_in (calls ++ more) = sleeps_in more.
Proof. intros [_ H]. now rewrite sleeps_in_app, H. Qed.

(** The loop of [syncToSheets] written out: the first attempt; after its
    failure a wait of 2000 ms and the second; after its failure a wait of
    4000 ms and the third; the third failure is thrown on. *)
Lemma syncToSheets_unrolled (clock : nat -> Z) (w : World) :
  syncToSheets clock w
  = match syncAttempt (clock 0%nat) w with
    | (Return r, w1) => (Return (Some r), w1)
    | (Throw _, w1) =>
        match syncAttempt (clock 1%nat) (logged (Sleep 2000) w1) with
        | (Return r, w2) => (Return (Some r), w2)
        | (Throw _, w2) =>
            match syncAttempt (clock 2%nat) (logged (Sleep 4000) w2) with
            | (Return r, w3) => (Return (Some r), w3)
            | (Throw e, w3) => (Throw ("Final sync failure: " +:+ e), w3)
            end
        end
    end.
Proof.
  unfold syncToSheets. change MAX_RETRIES with 3%nat at 1.
  cbn [syncLoop]. change (0 <? MAX_RETRIES)%nat with true.
  change (1 <? MAX_RETRIES)%nat with true.
  change (2 <? MAX_RETRIES)%nat with true.
  change (MAX_RETRIES <=? 1)%nat with false.
  change (MAX_RETRIES <=? 2)%nat with false.
  change (MAX_RETRIES <=? 3)%nat with true. cbv iota.
  unfold try_catch. rewrite run_bind.
  destruct (syncAttempt (clock 0%nat) w) as [[r|e] w1]; [reflexivity|].
  rewrite run_bind. unfold sleep, log. cbv beta iota.
  rewrite run_bind.
  change (mkWorld (store w1) (sink w1) (faults w1)
            (trace w1 ++ [Sleep (Z.of_nat 1 * 2000)]))
    with (logged (Sleep 2000) w1).
  destruct (syncAttempt (clock 1%nat) _) as [[r|e2] w2]; [reflexivity|].
  rewrite run_bind. cbv beta iota. rewrite run_bind.
  change (mkWorld (store w2) (sink w2) (faults w2)
            (trace w2 ++ [Sleep (Z.of_nat 2 * 2000)]))
    with (logged (Sleep 4000) w2).
  destruct (syncAttempt (clock 2%nat) _) as [[r|e3] w3]; reflexivity.
Qed.

(** C8. A batch sync makes its first attempt; when an attempt fails and it
    was the first or the second, the sync waits 2 seconds times the number
    of that attempt and then makes the next attempt; the first attempt to
    succeed ends the sync with its result; when the third attempt fails
    the sync raises "Final sync failure: ..." with the error of that
    attempt, without a wait and without a fourth attempt. Read off the
    trace: the run is one, two or three attempts, each of which builds the
    Sheets client once and never waits, with exactly the waits of 2000 and
    4000 ms between them. *)
Theorem sync_retry_policy (clock : nat -> Z) (w : World) :
  let run := syncToSheets clock w in
  let first := syncAttempt (clock 0%nat) w in
  let second := syncAttempt (clock 1%nat) (logged (Sleep 2000) (snd first)) in
  let third := syncAttempt (clock 2%nat) (logged (Sleep 4000) (snd second)) in
  match fst first, fst second, fst third with
  | Return r, _, _ => run = (Return (Some r), snd first)
  | Throw _, Return r, _ => run = (Return (Some r), snd second)
  | Throw _, Throw _, Return r => run = (Return (Some r), snd third)
  | Throw _, Throw _, Throw e =>
      run = (Throw ("Final sync failure: " +:+ e), snd third)
  end
  /\ exists attempts,
       trace (snd run) = trace w ++ with_backoff 1 attempts
       /\ (1 <= length attempts <= 3)%nat
       /\ Forall single_attempt attempts
       /\ attempts_in (with_backoff 1 attempts) = length attempts
       /\ sleeps_in (with_backoff 1 attempts)
          = take (length attempts - 1) [2000; 4000]
       /\ match fst run with
          | Throw e =>
              length attempts = 3%nat
              /\ exists err, e = "Final sync failure: " +:+ err
          | Return (Some _) => True
          | Return None => False
          end.
Proof.
  intros run first second third. split.
  { subst run first second third. rewrite syncToSheets_unrolled.
    destruct (syncAttempt (clock 0%nat) w) as [[r|e] w1]; cbn [fst snd];
      [reflexivity|].
    destruct (syncAttempt (clock 1%nat) _) as [[r|e2] w2]; cbn [fst snd];
      [reflexivity|].
    destruct (syncAttempt (clock 2%nat) _) as [[r|e3] w3]; reflexivity. }
  subst run.
  destruct (syncLoop_backoff MAX_RETRIES clock 0 w) as (attempts & H);
    [unfold MAX_RETRIES; lia | unfold MAX_RETRIES; lia |].
  cbv zeta in H. destruct H as (Htr & Hlen & Hall & Hres).
  exists attempts. unfold syncToSheets.
  change (MAX_RETRIES - 0)%nat with 3%nat in *.
  split; [exact Htr|]. split; [exact Hlen|]. split; [exact Hall|].
  split; [|split; [|exact Hres]].
  - destruct attempts as [|a [|b [|c [|]]]]; cbn [length] in Hlen; try lia;
      repeat match goal with
             | H : Forall _ (_ :: _) |- _ => inversion H; subst; clear H
             end;
      repeat match goal with H : single_attempt _ |- _ => destruct H end;
      cbn [with_backoff length];
      repeat (rewrite attempts_in_app || rewrite attempts_in_cons);
      cbn [is_attempt_start]; lia.
  - destruct attempts as [|a [|b [|c [|]]]]; cbn [length] in Hlen; try lia;
      repeat match goal with
             | H : Forall _ (_ :: _) |- _ => inversion H; subst; clear H
             end;
      repeat match goal with H : single_attempt _ |- _ => destruct H end;
      cbn [with_backoff length];
      repeat (rewrite sleeps_in_app || rewrite sleeps_in_cons);
      repeat match goal with H : sleeps_in _ = [] |- _ => rewrite H end;
      reflexivity.
Qed.

(** C7. In one attempt of the batch export, in the handling of one
    change-stream event and in a whole batch run, every write that marks a
    record synced comes after an append that succeeded; when the append of
    an attempt (or of a change event) fails nothing in the collection
    changes, and the attempt throws; and a run or attempt in which no append
    succeeded, or which ends by throwing, leaves the collection as it was. *)
Theorem sink_append_precedes_marking :
  (forall now w, exists calls,
     let rw := syncAttempt now w in
     trace (snd rw) = trace w ++ calls
     /\ append_precedes_marks calls
     /\ (forall rows, Sheets (ValuesAppend rows) false ∈ calls ->
         is_throw (fst rw) = true /\ store (snd rw) = store w)
     /\ (is_throw (fst rw) = true -> store (snd rw) = store w)
     /\ ((forall rows, Sheets (ValuesAppend rows) true ∉ calls) ->
         store (snd rw) = store w))
  /\ (forall now change w, exists calls,
      let rw := on_change now change w in
      trace (snd rw) = trace w ++ calls
      /\ append_precedes_marks calls
      /\ (forall rows, Sheets (ValuesAppend rows) false ∈ calls ->
          store (snd rw) = store w)
      /\ ((forall rows, Sheets (ValuesAppend rows) true ∉ calls) ->
          store (snd rw) = store w))
  /\ (forall clock w, exists calls,
      let rw := syncToSheets clock w in
      trace (snd rw) = trace w ++ calls
      /\ append_precedes_marks calls
      /\ (is_throw (fst rw) = true -> store (snd rw) = store w)
      /\ ((forall rows, Sheets (ValuesAppend rows) true ∉ calls) ->
          store (snd rw) = store w)).
Proof.
  split; [|split].
  - intros now w.
    destruct (syncAttempt_report now w)
      as (calls & (Htr & Hord & _ & _ & Hthrow & Hfail & Hnone) & _ & Hft).
    exists calls. cbv zeta.
    split; [exact Htr|]. split; [now apply marks_follow_append_precedes|].
    split; [|split; [exact Hthrow|]].
    + intros rows Hin.
      assert (existsb (is_append false) calls = true)
        by (apply existsb_is_append; eauto).
      auto.
    + intros H. apply Hnone. now apply not_existsb_is_append.
  - intros now change w.
    destruct (on_change_report now change w)
      as (calls & Htr & Hord & _ & _ & _ & Hfail & Hnone).
    exists calls. cbv zeta.
    split; [exact Htr|]. split; [now apply marks_follow_append_precedes|].
    split.
    + intros rows Hin. apply Hfail, existsb_is_append. eauto.
    + intros H. apply Hnone. now apply not_existsb_is_append.
  - intros clock w.
    destruct (syncLoop_report MAX_RETRIES clock 0 w) as (calls & H).
    cbv zeta in H. destruct H as (Htr & Hord & Hthrow & Hnone).
    exists calls. cbv zeta. unfold syncToSheets.
    split; [exact Htr|]. split; [now apply marks_follow_append_precedes|].
    split; [exact Hthrow|].
    intros H. apply Hnone. now apply not_existsb_is_append.
Qed.

(** ** Scenarios *)

(** A click, then within five minutes a message with a contact id and no
    context token: the click becomes engaged by "gallabox_id_match". *)
Example scenario_gallabox_id_match :
  fst (gallabox_webhook example_parseContext (at_time 1700000120000)
         message_with_contact world_clicked)
  = Processed (Some session1) (Some "instagram") "gallabox_id_match"
  /\ hasEngaged (record_s1 world_engaged) = true
  /\ attribution_source (record_s1 world_engaged) = "gallabox_id_match"
  /\ phoneNumber (record_s1 world_engaged) = Some "919876543210".
Proof. vm_compute. repeat split; reflexivity. Qed.

(** The same click under the session id ["s1"], which is no ObjectId: the
    cast of the id fails, the endpoint answers 500 and nothing is stored. *)
Example scenario_session_id_is_cast :
  let body :=
    mkClickBody (Some "s1") None (Some "instagram") None None None None in
  store_click (at_time 1700000000000) body empty_world
  = (ClickFailed,
     mkWorld [] (mkSink false []) [] [FindById (Some "s1")]).
Proof. vm_compute. reflexivity. Qed.

(** A message with a conversation id, no click before it and direct
    capture off: nothing is stored and the answer says "ignored_direct". *)
Example scenario_ignored_direct :
  gallabox_webhook example_parseContext (at_time 1700000000000)
    message_with_conversation empty_world
  = (Processed (Some "not_stored") (Some "direct_message") "ignored_direct",
     mkWorld [] (mkSink false []) []
       [ FindOne (QRecentUnengaged 1699999700000);
         FindOne (QPhoneUnengaged "919876543210");
         FindOne (QDirectConversation "c9") ]).
Proof. vm_compute. reflexivity. Qed.

(** Three eligible records and a sink that works: one append of three rows,
    newest first, and all three records marked with the time of the sync. *)
Example scenario_export_three :
  let rw := syncToSheets (fun _ => 1700000200000) three_engaged in
  let calls := drop (length (trace three_engaged)) (trace (snd rw)) in
  fst rw = Return (Some (Synced 3))
  /\ map _id (select_newest QEngagedUnsynced 250 (store three_engaged))
     = [session3; session2; session1]
  /\ appends_of calls
     = [(convertToSheetRows
           (select_newest QEngagedUnsynced 250 (store three_engaged)), true)]
  /\ map (fun d => (_id d, syncedToSheets d, lastSynced d)) (store (snd rw))
     = [ (session1, true, Some 1700000200000);
         (session2, true, Some 1700000200000);
         (session3, true, Some 1700000200000) ].
Proof. vm_compute. repeat split; reflexivity. Qed.

(** The append fails three times: two waits, the final failure, and no
    record marked. *)
Example scenario_append_keeps_failing :
  let fs := [ false; false; false; false; false; true;
              false; false; false; true;
              false; false; false; true ] in
  let rw := syncToSheets (fun _ => 1700000200000)
              (with_faults fs three_engaged) in
  let calls := drop (length (trace three_engaged)) (trace (snd rw)) in
  fst rw = Throw "Final sync failure: Sheets API error"
  /\ store (snd rw) = store three_engaged
  /\ sleeps_in calls = [2000; 4000]
  /\ attempts_in calls = 3%nat
  /\ map snd (appends_of calls) = [false; false; false].
Proof. vm_compute. repeat split; reflexivity. Qed.

(** * Further properties of the code *)

(** ** What every request leaves in place *)

Lemma serve_all_keeps (R : Store -> Store -> Prop) pc :
  (forall st, R st st) ->
  (forall a b c, R a b -> R b c -> R a c) ->
  (forall r w, R (store w) (store (serve pc r w))) ->
  forall rs w, R (store w) (store (serve_all pc rs w)).
Proof.
  intros Hrefl Htrans Hstep rs. induction rs as [|r rs IH]; intros w.
  - apply Hrefl.
  - cbn [serve_all fold_left]. eapply Htrans; [apply Hstep | apply IH].
Qed.

Lemma reachable_serve_all pc rs w :
  reachable pc w -> reachable pc (serve_all pc rs w).
Proof.
  revert w. induction rs as [|r rs IH]; intros w Hw; [exact Hw|].
  cbn [serve_all fold_left]. apply IH. now apply reachable_serve.
Qed.

Lemma click_facts_update_doc now p d :
  click_facts (update_doc now p d) = click_facts (apply_patch p d).
Proof. unfold update_doc. destruct (apply_patch p d). reflexivity. Qed.

Lemma click_facts_updateData env a phone cid conv name msg d :
  click_facts (apply_patch (updateData env a phone cid conv name msg) d)
  = click_facts d.
Proof.
  unfold updateData. destruct d.
  destruct (Js.truthy name), (negb (String.eqb msg "")); reflexivity.
Qed.

Lemma serve_click_facts pc r w :
  exists added,
    map click_facts (store (serve pc r w))
    = map click_facts (store w) ++ added.
Proof.
  apply (serve_keeps
           (fun st st' => exists added,
              map click_facts st' = map click_facts st ++ added))
    with (ok_update := fun p =>
            forall d, click_facts (apply_patch p d) = click_facts d)
         (ok_create := fun _ => True).
  - intros st. exists []. now rewrite app_nil_r.
  - intros a b c [x Hx] [y Hy]. exists (x ++ y).
    now rewrite Hy, Hx, app_assoc.
  - intros now [i|] p st Hp; exists []; rewrite app_nil_r; [|reflexivity].
    cbn [update_store]. rewrite map_map. apply map_ext. intros d.
    destruct (has_id i d); [|reflexivity].
    now rewrite click_facts_update_doc, Hp.
  - intros now p st _. exists [click_facts (new_doc st now p)].
    now rewrite map_app.
  - intros cid conv name []; reflexivity.
  - intros msg t []; reflexivity.
  - intros. apply click_facts_updateData.
  - intros now []; reflexivity.
  - intros; exact I.
  - intros; exact I.
  - intros; exact I.
Qed.

(** X1. No request deletes or re-keys a record or rewrites what it was
    created with: after any sequence of requests the keys, attribution
    dimensions, raw parameters and creation times of the records that were
    there are unchanged and in the same order, new records coming after
    them. *)
Theorem records_keep_their_click_facts pc (rs : list Request) (w : World) :
  exists added,
    map click_facts (store (serve_all pc rs w))
    = map click_facts (store w) ++ added.
Proof.
  apply (serve_all_keeps
           (fun st st' => exists added,
              map click_facts st' = map click_facts st ++ added)).
  - intros st. exists []. now rewrite app_nil_r.
  - intros a b c [x Hx] [y Hy]. exists (x ++ y).
    now rewrite Hy, Hx, app_assoc.
  - apply serve_click_facts.
Qed.

(** *** Relations kept when inserts are known to be under a free key *)

Create HintDb keyed.

Section KeyedPreservation.

Variable R : Store -> Store -> Prop.
Hypothesis R_refl : forall st, R st st.
Hypothesis R_trans : forall a b c, R a b -> R b c -> R a c.

Variables ok_update ok_create : Patch -> Prop.
Hypothesis R_update : forall now id p st,
  ok_update p -> R st (update_store now id p st).
Hypothesis R_insert : forall now p st,
  ok_create p ->
  existsb (has_id (_id (new_doc st now p))) st = false ->
  R st (st ++ [new_doc st now p]).

Lemma keyed_create now p : ok_create p -> preserves R (create now p).
Proof.
  intros Hp w. unfold create. run.
  destruct (castable (patch_id p)); [|apply R_refl]. run.
  destruct (existsb _ (store w)) eqn:E; run;
    [apply R_refl | now apply R_insert].
Qed.

Hypothesis ok_enrich : forall cid conv name,
  ok_update [Set_contactId cid; Set_conversationId conv; Set_contactName name].
Hypothesis ok_direct_message : forall msg t,
  ok_update [Set_lastMessage (Some msg); Set_engagedAt (Some t)].
Hypothesis ok_updateData : forall env a phone cid conv name msg,
  ok_update (updateData env a phone cid conv name msg).
Hypothesis ok_markSynced : forall now, ok_update (markSynced now).
Hypothesis ok_new_direct : forall sid utm t phone msg cid conv name,
  ok_create ([Set_id sid] ++ utm ++
             [ Set_timestamp t; Set_hasEngaged true;
               Set_phoneNumber (Some phone);
               Set_lastMessage (Some msg); Set_engagedAt (Some t);
               Set_syncedToSheets false; Set_contactId cid;
               Set_conversationId conv; Set_contactName name ]).
Hypothesis ok_upsert : forall sid utm env a phone cid conv name msg,
  ok_create ([Set_id sid] ++ utm ++
             updateData env a phone cid conv name msg ++
             [Set_timestamp (Date_now env)]).
Hypothesis ok_click : forall sid now body,
  ok_create ([Set_id sid] ++ click_utmData now body ++
             [Set_timestamp now; Set_hasEngaged false;
              Set_syncedToSheets false]).

#[local] Hint Resolve ok_enrich ok_direct_message ok_updateData ok_markSynced
  ok_new_direct ok_upsert ok_click : keyed.

Ltac keyed :=
  repeat first
    [ assumption
    | match goal with
      | |- preserves _ (mret _) => apply (preserves_ret R R_refl)
      | |- preserves _ (throw _) => apply (preserves_throw R R_refl)
      | |- preserves _ (log _) => apply (preserves_log R R_refl)
      | |- preserves _ (findById _) => apply (preserves_findById R R_refl)
      | |- preserves _ (findOne _) => apply (preserves_findOne R R_refl)
      | |- preserves _ (findOneNewest _) =>
          apply (preserves_findOneNewest R R_refl)
      | |- preserves _ (findNewest _ _) =>
          apply (preserves_findNewest R R_refl)
      | |- preserves _ (sheets_api _ _ _) =>
          apply (preserves_sheets_api R R_refl)
      | |- preserves _ (findByIdAndUpdate _ _ _) =>
          apply (preserves_findByIdAndUpdate R ok_update R_update);
          solve [auto with keyed]
      | |- preserves _ (create _ _) =>
          apply keyed_create; solve [auto with keyed]
      | |- preserves _ (mbind _ _) =>
          apply (preserves_bind R R_trans); [|intros ?]
      | |- preserves _ (try_catch _ _) =>
          apply (preserves_try_catch R R_trans); [|intros ?]
      | |- preserves _ (match ?x with _ => _ end) => destruct x
      | |- preserves _ (if ?b then _ else _) => destruct b
      end ].

Lemma keyed_matchStrategies pc env phone cid conv name msg context :
  preserves R (matchStrategies pc env phone cid conv name msg context).
Proof.
  unfold matchStrategies, priority1, priority2, priority3, directHandling,
    Js.if_truthy.
  keyed.
Qed.

Lemma keyed_updateRecord env phone cid conv name msg l :
  preserves R (updateRecord env phone cid conv name msg l).
Proof. unfold updateRecord. keyed. Qed.

Lemma keyed_gallabox_webhook pc env event w :
  R (store w) (store (snd (gallabox_webhook pc env event w))).
Proof.
  unfold gallabox_webhook.
  destruct (negb _); [apply R_refl|].
  destruct (String.eqb _ ""); [apply R_refl|].
  match goal with
  | |- context [match ?m w with _ => _ end] =>
      assert (H : preserves R m)
  end.
  { keyed.
    - apply keyed_matchStrategies.
    - apply keyed_updateRecord. }
  specialize (H w).
  match goal with
  | |- context [match ?m w with _ => _ end] =>
      destruct (m w) as [[l|e] w1]
  end; exact H.
Qed.

Lemma keyed_store_click env body w :
  R (store w) (store (snd (store_click env body w))).
Proof.
  unfold store_click.
  match goal with
  | |- context [match ?m w with _ => _ end] =>
      assert (H : preserves R m)
  end.
  { keyed. }
  specialize (H w).
  match goal with
  | |- context [match ?m w with _ => _ end] =>
      destruct (m w) as [[l|e] w1]
  end; exact H.
Qed.

Lemma keyed_markAll now documents : preserves R (markAll now documents).
Proof. induction documents; cbn [markAll]; keyed. Qed.

Lemma keyed_syncAttempt now : preserves R (syncAttempt now).
Proof.
  unfold syncAttempt, initializeSheetsClient, spreadsheets_get,
    batchUpdate_addSheet, values_get_header, values_update_header,
    values_append.
  keyed. apply keyed_markAll.
Qed.

Lemma keyed_syncLoop fuel clock attempt :
  preserves R (syncLoop fuel clock attempt).
Proof.
  revert attempt. induction fuel as [|fuel IH]; intros attempt;
    cbn [syncLoop]; unfold sleep; keyed; auto using keyed_syncAttempt.
Qed.

Lemma keyed_on_change now change : preserves R (on_change now change).
Proof. unfold on_change, initializeSheetsClient, values_append. keyed. Qed.

Lemma keyed_serve pc (r : Request) (w : World) :
  R (store w) (store (serve pc r w)).
Proof.
  destruct r as [env body|env event|clock fs|now change fs]; cbn [serve].
  - apply keyed_store_click.
  - apply keyed_gallabox_webhook.
  - apply (keyed_syncLoop MAX_RETRIES clock 0%nat (with_faults fs w)).
  - apply (keyed_on_change now change (with_faults fs w)).
Qed.

End KeyedPreservation.

(** ** Keys and consistency of the records *)

Lemma map_id_update_store now id p st :
  keeps_id p = true -> map _id (update_store now id p st) = map _id st.
Proof.
  intros Hk. destruct id as [i|]; [|reflexivity]. cbn [update_store].
  rewrite map_map. apply map_ext. intros d.
  destruct (has_id i d); [|reflexivity].
  unfold update_doc.
  change (_id (with_updatedAt now (apply_patch p d)))
    with (_id (apply_patch p d)).
  now apply keeps_id_apply.
Qed.

Lemma map_key_update_store now id p st :
  keeps_id p = true -> map key (update_store now id p st) = map key st.
Proof.
  intros Hk. unfold key.
  rewrite <- !(map_map _id toLowerCase), map_id_update_store by assumption.
  reflexivity.
Qed.

Lemma existsb_has_id_false i st :
  existsb (has_id i) st = false -> ~ In (toLowerCase i) (map key st).
Proof.
  intros H Hin. apply in_map_iff in Hin as (d & Hd & Hin).
  assert (existsb (has_id i) st = true); [|congruence].
  apply existsb_exists. exists d. split; [exact Hin|].
  unfold has_id, same_id. unfold key in Hd. rewrite Hd.
  apply String.eqb_refl.
Qed.

Lemma NoDup_keys_ids (st : Store) : NoDup (map key st) -> NoDup (map _id st).
Proof.
  unfold key. rewrite <- (map_map _id toLowerCase).
  apply (NoDup_fmap_1 toLowerCase).
Qed.

Lemma record_consistent_updateData env a phone cid conv name msg now d :
  record_consistent
    (update_doc now (updateData env a phone cid conv name msg) d).
Proof.
  unfold record_consistent, updateData. destruct d.
  destruct (Js.truthy name), (negb (String.eqb msg ""));
    cbn; repeat split; intros; congruence.
Qed.

Lemma record_consistent_upsert st now sid utm env a phone cid conv name msg t :
  record_consistent
    (new_doc st now ([Set_id sid] ++ utm ++
       updateData env a phone cid conv name msg ++ [Set_timestamp t])).
Proof.
  unfold record_consistent, new_doc, updateData. rewrite !apply_patch_app.
  destruct (apply_patch utm _).
  destruct (Js.truthy name), (negb (String.eqb msg ""));
    cbn; repeat split; intros; congruence.
Qed.

Lemma record_consistent_new_direct st now sid utm t phone msg cid conv name :
  record_consistent
    (new_doc st now ([Set_id sid] ++ utm ++
       [ Set_timestamp t; Set_hasEngaged true; Set_phoneNumber (Some phone);
         Set_lastMessage (Some msg); Set_engagedAt (Some t);
         Set_syncedToSheets false; Set_contactId cid;
         Set_conversationId conv; Set_contactName name ])).
Proof.
  unfold record_consistent, new_doc. rewrite !apply_patch_app.
  destruct (apply_patch utm _). cbn. repeat split; intros; congruence.
Qed.

Lemma record_consistent_click st now t sid body :
  record_consistent
    (new_doc st now ([Set_id sid] ++ click_utmData t body ++
       [Set_timestamp t; Set_hasEngaged false; Set_syncedToSheets false])).
Proof.
  unfold record_consistent, new_doc, click_utmData.
  destruct sid; cbn; repeat split; intros; congruence.
Qed.

Lemma serve_well_keyed pc r w :
  well_keyed (store w) -> well_keyed (store (serve pc r w)).
Proof.
  apply (keyed_serve (fun st st' => well_keyed st -> well_keyed st')
           (fun _ H => H) (fun _ _ _ H1 H2 H => H2 (H1 H))
           (fun p => keeps_id p = true
                     /\ forall now d, record_consistent d ->
                                      record_consistent (update_doc now p d))
           (fun p => forall st now, record_consistent (new_doc st now p))).
  - intros now id p st [Hk Hp] [Hnd Hall]. split.
    + now rewrite map_key_update_store.
    + destruct id as [i|]; [|exact Hall]. cbn [update_store].
      apply Forall_fmap. eapply Forall_impl; [exact Hall|].
      intros d Hd. cbn. destruct (has_id i d); auto.
  - intros now p st Hp Hfree [Hnd Hall]. split.
    + rewrite map_app. cbn [map]. apply NoDup_app. split; [exact Hnd|].
      split; [|apply NoDup_singleton].
      intros i Hi Hin. apply list_elem_of_singleton in Hin as ->.
      apply (existsb_has_id_false _ _ Hfree). now apply list_elem_of_In.
    + apply Forall_app. split; [exact Hall|].
      constructor; [apply Hp | constructor].
  - intros cid conv name. split; [reflexivity|]. intros now [] H; exact H.
  - intros msg t. split; [reflexivity|].
    intros now [] (H1 & H2 & H3). cbn in *.
    split; [exact H1 | split; [intros _; discriminate | exact H3]].
  - intros env a phone cid conv name msg.
    split; [apply keeps_id_updateData|].
    intros now d _. apply record_consistent_updateData.
  - intros t. split; [reflexivity|].
    intros now [] (H1 & H2 & H3). cbn in *.
    split; [exact H1 | split; [exact H2 | intros _; discriminate]].
  - intros. apply record_consistent_new_direct.
  - intros. apply record_consistent_upsert.
  - intros. apply record_consistent_click.
Qed.

Lemma reachable_well_keyed pc w : reachable pc w -> well_keyed (store w).
Proof.
  induction 1 as [s|r w _ IH].
  - split; constructor.
  - now apply serve_well_keyed.
Qed.

Lemma lookup_own_id (st : Store) (d : Doc) :
  NoDup (map key st) -> d ∈ st -> lookup_id (Some (_id d)) st = Some d.
Proof.
  cbn [lookup_id]. induction st as [|x st IH]; intros Hnd Hin.
  - inversion Hin.
  - cbn [map] in Hnd. apply NoDup_cons in Hnd as [Hx Hnd].
    cbn [find]. unfold has_id at 1, same_id.
    apply elem_of_cons in Hin as [->|Hin].
    + now rewrite String.eqb_refl.
    + destruct (String.eqb_spec (toLowerCase (_id x)) (toLowerCase (_id d)))
        as [E|_]; [|auto].
      exfalso. apply Hx. unfold key at 1. rewrite E.
      now apply (list_elem_of_fmap_2 key).
Qed.

(** X2. The [_id] is a key: in every world the system reaches no two
    records share an [_id], so [findById] with the id of a stored record
    returns that very record. *)
Theorem ids_are_unique pc (w : World) :
  reachable pc w ->
  NoDup (map _id (store w))
  /\ forall d, d ∈ store w -> lookup_id (Some (_id d)) (store w) = Some d.
Proof.
  intros Hw. destruct (reachable_well_keyed pc w Hw) as [Hnd _].
  split; [now apply NoDup_keys_ids|]. intros d. now apply lookup_own_id.
Qed.

Lemma three_engaged_reachable : reachable example_parseContext three_engaged.
Proof.
  apply reachable_serve_all, (reachable_start _ (mkSink false [])).
Qed.

Lemma ids_are_unique_witness :
  NoDup (map _id (store three_engaged))
  /\ lookup_id (Some session2) (store three_engaged)
     = Some (default (schema_defaults "" 0)
               (lookup_id (Some session2) (store three_engaged))).
Proof.
  destruct (ids_are_unique example_parseContext three_engaged
              three_engaged_reachable) as [Hnd Hl].
  split; [exact Hnd|].
  apply (Hl (default (schema_defaults "" 0)
               (lookup_id (Some session2) (store three_engaged)))).
  vm_compute. right. left.
Defined.

(** X3. In every world the system reaches the engagement and sync fields
    of each record agree: it is engaged exactly when it carries a phone
    number, an engaged record has its [engagedAt], and a record flagged
    [syncedToSheets] has its [lastSynced]. *)
Theorem records_are_consistent pc (w : World) :
  reachable pc w -> Forall record_consistent (store w).
Proof. intros Hw. now destruct (reachable_well_keyed pc w Hw). Qed.

Lemma records_are_consistent_witness :
  Forall record_consistent (store three_engaged).
Proof.
  exact (records_are_consistent example_parseContext three_engaged
           three_engaged_reachable).
Defined.

(** ** What a sync run leaves behind *)

(** X4. What [syncToSheets] reports is what it did, when only calls to the
    Sheets API fail. A reported count [n] is the size of the batch its
    query selected, between 1 and 250; exactly those records were marked,
    at the time of one attempt, and their rows were appended below the
    rows the sheet had (a missing header filled in first). [{ count: 0 }]
    means nothing was selected and no record changed. A final failure
    changed no record and wrote no row but possibly the header, and the
    function never returns [undefined]. *)
Theorem sync_result_is_truthful (clock : nat -> Z) (w : World) :
  export_outcome clock 0 MAX_RETRIES w
    (fst (syncToSheets clock w)) (snd (syncToSheets clock w)).
Proof.
  unfold syncToSheets.
  apply (syncLoop_outcome MAX_RETRIES clock 0 w); unfold MAX_RETRIES; lia.
Qed.

Lemma mark_store_map now docs st :
  mark_store now docs st
  = map (fun d => if in_batch docs d
                  then update_doc now (markSynced now) d else d) st.
Proof.
  unfold mark_store. revert st. induction docs as [|doc docs IH]; intros st.
  - cbn. symmetry. apply map_id.
  - cbn [fold_left]. rewrite IH. cbn [update_store]. rewrite map_map.
    apply map_ext. intros d. unfold in_batch. cbn [existsb].
    destruct (has_id (_id doc) d) eqn:E; cbn [orb]; [|reflexivity].
    assert (Hsame : forall docs', existsb (fun doc0 => has_id (_id doc0)
                (update_doc now (markSynced now) d)) docs'
              = existsb (fun doc0 => has_id (_id doc0) d) docs').
    { intros docs'. induction docs' as [|x docs' IH']; [reflexivity|].
      cbn [existsb]. rewrite IH'. destruct d. reflexivity. }
    rewrite Hsame. destruct (existsb _ docs); [|reflexivity].
    destruct d. reflexivity.
Qed.

Lemma pending_elem st d :
  d ∈ pending st -> d ∈ eligible_docs st.
Proof.
  unfold pending, select_newest, sort_newest_first, eligible_docs.
  intros H. apply subseteq_take in H.
  now rewrite merge_sort_Permutation in H.
Qed.

Lemma pending_all st d :
  (length (eligible_docs st) <= 250)%nat ->
  d ∈ eligible_docs st -> d ∈ pending st.
Proof.
  unfold pending, select_newest, sort_newest_first, eligible_docs.
  intros Hlen H. rewrite take_ge.
  - now rewrite merge_sort_Permutation.
  - now rewrite merge_sort_Permutation.
Qed.

Lemma in_batch_self docs d : d ∈ docs -> in_batch docs d = true.
Proof.
  intros H. apply existsb_exists. exists d.
  split; [now apply list_elem_of_In|]. apply String.eqb_refl.
Qed.

Lemma marked_leave_the_queue now docs st d :
  d ∈ eligible_docs (mark_store now docs st) ->
  d ∈ eligible_docs st /\ in_batch docs d = false.
Proof.
  unfold eligible_docs. rewrite mark_store_map.
  intros H. apply list_elem_of_filter in H as [Hm H].
  apply list_elem_of_fmap in H as (d0 & -> & Hin).
  destruct (in_batch docs d0) eqn:E.
  - exfalso. destruct d0. cbn in Hm.
    rewrite andb_false_r in Hm. discriminate.
  - split; [|exact E]. apply list_elem_of_filter. now split.
Qed.

(** X5. After a batch sync that reports a count, no record of the batch
    is still waiting for export, the records outside the batch are as they
    were, and if at most 250 records were waiting none is left. *)
Theorem exported_records_leave_the_queue (clock : nat -> Z) (w : World)
    (n : nat) :
  fst (syncToSheets clock w) = Return (Some (Synced n)) ->
  let w' := snd (syncToSheets clock w) in
  (forall d, d ∈ eligible_docs (store w') ->
     d ∈ eligible_docs (store w) /\ in_batch (pending (store w)) d = false)
  /\ (forall d, d ∈ store w -> in_batch (pending (store w)) d = false ->
        d ∈ store w')
  /\ ((length (eligible_docs (store w)) <= 250)%nat ->
      eligible_docs (store w') = []).
Proof.
  intros Hrun. cbv zeta.
  pose proof (syncLoop_outcome MAX_RETRIES clock 0 w
                ltac:(unfold MAX_RETRIES; lia) ltac:(lia)) as H.
  cbv zeta in H. fold (syncToSheets clock w) in H. rewrite Hrun in H.
  destruct H as (_ & _ & (k & _ & Hst) & _). rewrite Hst.
  split; [|split].
  - intros d. apply marked_leave_the_queue.
  - intros d Hin Hout. rewrite mark_store_map.
    apply list_elem_of_fmap. exists d. now rewrite Hout.
  - intros Hlen. apply elem_of_nil_inv. intros d Hd.
    apply marked_leave_the_queue in Hd as [Hel Hout].
    apply (pending_all _ _ Hlen), in_batch_self in Hel. congruence.
Qed.

Lemma exported_records_leave_the_queue_witness :
  eligible_docs (store (snd (syncToSheets sync_clock three_engaged))) = [].
Proof.
  apply (exported_records_leave_the_queue sync_clock three_engaged 3).
  - vm_compute. reflexivity.
  - vm_compute. lia.
Defined.

(** ** What a processed message leaves in the collection *)

Lemma messageContent_nonempty (ev : Event) : messageContent_of ev <> "".
Proof.
  unfold messageContent_of, Js.or, Js.or_lit, Js.truthy.
  destruct (ev_text_body ev) as [b|].
  - destruct (String.eqb_spec b ""); cbn [negb].
    + destruct (ev_list_reply_title ev) as [t|]; [|discriminate].
      destruct (String.eqb_spec t ""); [discriminate | assumption].
    + assumption.
  - destruct (ev_list_reply_title ev) as [t|]; [|discriminate].
    destruct (String.eqb_spec t ""); [discriminate | assumption].
Qed.

Lemma updateData_brings env a event now d :
  engaged_by env event
    (update_doc now
       (updateData env a (normalizedPhone event) (contactId_of event)
          (conversationId_of event) (contactName_of event)
          (messageContent_of event)) d).
Proof.
  pose proof (messageContent_nonempty event) as Hm.
  apply String.eqb_neq in Hm.
  unfold engaged_by, updateData. rewrite Hm. cbn [negb]. destruct d.
  destruct (Js.truthy (contactName_of event)); cbn; repeat split.
Qed.

Lemma upsert_brings st now sid utm env a event :
  engaged_by env event
    (new_doc st now
       ([Set_id sid] ++ utm ++
        updateData env a (normalizedPhone event) (contactId_of event)
          (conversationId_of event) (contactName_of event)
          (messageContent_of event) ++ [Set_timestamp (Date_now env)])).
Proof.
  pose proof (messageContent_nonempty event) as Hm.
  apply String.eqb_neq in Hm.
  unfold engaged_by, new_doc, updateData. rewrite Hm. cbn [negb].
  rewrite !apply_patch_app. destruct (apply_patch utm _).
  destruct (Js.truthy (contactName_of event)); cbn; repeat split.
Qed.

Lemma new_direct_brings st now sid utm env event :
  engaged_by env event
    (new_doc st now
       ([Set_id sid] ++ utm ++
        [ Set_timestamp (Date_now env); Set_hasEngaged true;
          Set_phoneNumber (Some (normalizedPhone event));
          Set_lastMessage (Some (messageContent_of event));
          Set_engagedAt (Some (Date_now env)); Set_syncedToSheets false;
          Set_contactId (contactId_of event);
          Set_conversationId (conversationId_of event);
          Set_contactName (contactName_of event) ])).
Proof.
  unfold engaged_by, new_doc. rewrite !apply_patch_app.
  destruct (apply_patch utm _). cbn. repeat split.
Qed.

Lemma updateRecord_brings env event l w w' :
  update_applies l = true ->
  updateRecord env (normalizedPhone event) (contactId_of event)
    (conversationId_of event) (contactName_of event)
    (messageContent_of event) l w = (Return tt, w') ->
  exists d, d ∈ store w' /\ engaged_by env event d.
Proof.
  intros Hg Hrun.
  destruct (castable (sessionId l)) eqn:Hc.
  2:{ destruct (sessionId l) as [i|] eqn:Hs; [|discriminate].
      cbn [castable] in Hc.
      rewrite (updateRecord_cast_error _ _ _ _ _ _ _ _ i Hg Hs Hc) in Hrun.
      discriminate. }
  destruct (lookup_id (sessionId l) (store w)) as [d|] eqn:Hd.
  - rewrite (updateRecord_existing _ _ _ _ _ _ _ w d Hg Hc Hd) in Hrun.
    injection Hrun as <-. cbn [store].
    destruct (sessionId l) as [i|]; [|discriminate].
    eexists. split; [|apply updateData_brings with (d := d)].
    cbn [update_store]. apply list_elem_of_fmap.
    exists d. cbn [lookup_id] in Hd. apply find_some in Hd as [Hin Hid].
    rewrite Hid. split; [reflexivity | now apply list_elem_of_In].
  - rewrite (updateRecord_missing _ _ _ _ _ _ _ w Hg Hc Hd) in Hrun.
    cbv zeta in Hrun.
    destruct (castable (patch_id _)); [|discriminate].
    destruct (existsb _ (store w)); [discriminate|].
    injection Hrun as <-. cbn [store].
    eexists. split; [apply elem_of_app; right; apply list_elem_of_singleton;
                     reflexivity|].
    apply upsert_brings.
Qed.

Lemma priority2_attribution env cid conv name l w l' w' :
  priority2 env cid conv name l w = (Return l', w') ->
  attribution l' = attribution l \/ attribution l' = "gallabox_id_match".
Proof.
  unfold priority2.
  destruct (negb (Js.truthy (sessionId l)) && _);
    [|rewrite run_ret; intros [= <- _]; auto].
  run. destruct (select_one_newest _ _);
    intros [= <- _]; cbn [attribution]; auto.
Qed.

Lemma priority3_attribution phone l w l' w' :
  priority3 phone l w = (Return l', w') ->
  attribution l' = attribution l \/ attribution l' = "phone_match".
Proof.
  unfold priority3.
  destruct (negb (Js.truthy (sessionId l)));
    [|rewrite run_ret; intros [= <- _]; auto].
  run. destruct (select_one_newest _ _);
    intros [= <- _]; cbn [attribution]; auto.
Qed.

Lemma directHandling_new_direct env event l w l' w' :
  directHandling env (normalizedPhone event) (contactId_of event)
    (conversationId_of event) (contactName_of event)
    (messageContent_of event) l w = (Return l', w') ->
  attribution l' = "new_direct" ->
  attribution l = "new_direct"
  \/ exists d, d ∈ store w' /\ engaged_by env event d.
Proof.
  unfold directHandling, Js.if_truthy.
  destruct (negb (Js.truthy (sessionId l)));
    [|rewrite run_ret; intros [= <- _]; auto].
  destruct (conversationId_of event) as [conv|] eqn:Hc;
    [|rewrite run_ret; intros [= <- _]; auto].
  destruct (String.eqb conv ""); [rewrite run_ret; intros [= <- _]; auto|].
  run. destruct (select_first _ _).
  { intros [= <- _]. cbn [attribution]. discriminate. }
  destruct (bool_decide _).
  2:{ intros [= <- _]. cbn [attribution]. discriminate. }
  unfold create. run.
  match goal with
  | |- context [if ?b then _ else _] => destruct b; [|discriminate]
  end.
  run.
  match goal with
  | |- context [if ?b then _ else _] => destruct b; [discriminate|]
  end.
  intros [= <- <-] _. right. cbn [store].
  eexists. split; [apply elem_of_app; right; apply list_elem_of_singleton;
                   reflexivity|].
  rewrite <- Hc. apply new_direct_brings.
Qed.

Lemma matchStrategies_new_direct pc env event w l w' :
  matchStrategies pc env (normalizedPhone event) (contactId_of event)
    (conversationId_of event) (contactName_of event)
    (messageContent_of event) (ev_context event) w = (Return l, w') ->
  attribution l = "new_direct" ->
  exists d, d ∈ store w' /\ engaged_by env event d.
Proof.
  unfold matchStrategies. rewrite run_bind, priority1_spec.
  set (l1 := match decoded_session pc (ev_context event) with
             | Some ctx => _ | None => _ end).
  assert (H1 : attribution l1 <> "new_direct").
  { subst l1. destruct (decoded_session _ _); discriminate. }
  rewrite run_bind.
  destruct (priority2 _ _ _ _ l1 w) as [[l2|e] w2] eqn:E2; [|discriminate].
  rewrite run_bind.
  destruct (priority3 _ l2 w2) as [[l3|e] w3] eqn:E3; [|discriminate].
  intros E4 Ha.
  destruct (directHandling_new_direct _ _ _ _ _ _ E4 Ha) as [H3|H]; [|exact H].
  exfalso.
  destruct (priority3_attribution _ _ _ _ _ E3) as [H|H];
    [|rewrite H in H3; discriminate].
  rewrite H in H3.
  destruct (priority2_attribution _ _ _ _ _ _ _ _ E2) as [H'|H'];
    rewrite H' in H3; [contradiction | discriminate].
Qed.

(** X6. Whatever strategy matched, a message the webhook reports as
    processed under a session id other than the reserved ['not_stored']
    leaves a record that is engaged, carries the sender's normalised phone
    number, the event's contact and conversation ids and its message text,
    has [engagedAt] set to the time of the request and is queued for export
    again ([syncedToSheets] false). *)
Theorem processed_message_engages_sender pc (env : Env) (event : Event)
    (w w' : World) (sid src : option string) (a : string) :
  gallabox_webhook pc env event w = (Processed sid src a, w') ->
  sid <> Some "not_stored" ->
  exists d, d ∈ store w' /\ engaged_by env event d.
Proof.
  unfold gallabox_webhook.
  destruct (negb (String.eqb _ _)); [discriminate|].
  destruct (String.eqb (normalizedPhone event) ""); [discriminate|].
  rewrite run_bind.
  destruct (matchStrategies _ _ _ _ _ _ _ _ w) as [[l|e] w1] eqn:Hm;
    [|discriminate].
  rewrite run_bind.
  destruct (updateRecord _ _ _ _ _ _ l w1) as [[[]|e] w2] eqn:Hu;
    [|discriminate].
  rewrite run_ret. intros [= <- _ _ <-] Hsid.
  destruct (update_applies l) eqn:Hg.
  - exact (updateRecord_brings _ _ _ _ _ Hg Hu).
  - rewrite (updateRecord_skipped _ _ _ _ _ _ _ _ Hg) in Hu.
    injection Hu as <-.
    unfold update_applies in Hg. apply andb_false_iff in Hg as [Hg|Hg].
    + apply negb_false_iff, String.eqb_eq in Hg.
      exact (matchStrategies_new_direct _ _ _ _ _ _ Hm Hg).
    + apply negb_false_iff, bool_decide_eq_true in Hg. contradiction.
Qed.

Lemma processed_message_engages_sender_witness :
  exists d,
    d ∈ store (snd (gallabox_webhook example_parseContext
                      (at_time 1700000010000) message_with_contact
                      world_clicked))
    /\ engaged_by (at_time 1700000010000) message_with_contact d.
Proof.
  apply (processed_message_engages_sender example_parseContext
           (at_time 1700000010000) message_with_contact world_clicked _
           (Some session1) (Some "instagram") "gallabox_id_match").
  - vm_compute. reflexivity.
  - discriminate.
Defined.

(** ** Attribution of a message to the most recent click *)

Lemma contactName_of_or (event : Event) :
  Js.or (contactName_of event) None = contactName_of event.
Proof.
  unfold contactName_of, Js.or.
  destruct (Js.truthy (ev_contact_name event)) eqn:E; [now rewrite E|].
  reflexivity.
Qed.

Lemma contactName_of_falsy (event : Event) :
  Js.truthy (contactName_of event) = false -> contactName_of event = None.
Proof.
  unfold contactName_of, Js.or.
  destruct (Js.truthy (ev_contact_name event)) eqn:E; [congruence|reflexivity].
Qed.

Lemma priority2_hit env cid conv name l w click :
  Js.truthy (sessionId l) = false ->
  Js.truthy cid || Js.truthy conv = true ->
  select_one_newest (QRecentUnengaged (fiveMinutesAgo env)) (store w)
  = Some click ->
  let enrich := [ Set_contactId cid; Set_conversationId conv;
                  Set_contactName (Js.or name None) ] in
  priority2 env cid conv name l w
  = (Return (mkLocals (Some (_id click)) (toObject click) "gallabox_id_match"),
     mkWorld (update_store (Date_now env) (Some (_id click)) enrich (store w))
       (sink w) (faults w)
       (trace w ++ [FindOne (QRecentUnengaged (fiveMinutesAgo env));
                    FindByIdAndUpdate (Some (_id click)) enrich])).
Proof.
  intros Hs Hc Hsel. cbv zeta. unfold priority2. rewrite Hs, Hc. cbn [negb andb].
  run. rewrite Hsel. run. rewrite <- app_assoc. reflexivity.
Qed.

Lemma is_hex24_not_reserved (i : string) :
  is_hex24 i = true -> i <> "" /\ i <> "not_stored".
Proof. intros H. split; intros ->; discriminate H. Qed.

(** X7. A message that carries a contact or conversation id and no usable
    context token is attributed to the newest click of the last five
    minutes that nobody has engaged with, whoever made that click (its
    [_id] being the 24 hex digits of an ObjectId): the response names that
    click's session and source with attribution [gallabox_id_match], and
    the click's record now carries the sender's phone number and the
    event's contact, conversation, name and message, its click data
    unchanged. *)
Theorem recent_click_is_attributed pc (env : Env) (event : Event) (w : World)
    (click : Doc) :
  reachable pc w ->
  addressed_here env event ->
  normalizedPhone event <> "" ->
  decoded_session pc (ev_context event) = None ->
  Js.truthy (contactId_of event) || Js.truthy (conversationId_of event)
  = true ->
  select_one_newest (QRecentUnengaged (fiveMinutesAgo env)) (store w)
  = Some click ->
  is_hex24 (_id click) = true ->
  let served := gallabox_webhook pc env event w in
  fst served
  = Processed (Some (_id click)) (Some (source click)) "gallabox_id_match"
  /\ exists d,
       lookup_id (Some (_id click)) (store (snd served)) = Some d
       /\ engaged_by env event d
       /\ attribution_source d = "gallabox_id_match"
       /\ contactName d = contactName_of event
       /\ click_facts d = click_facts click.
Proof.
  intros Hw Ha Hp Hctx Hids Hsel Hhex. cbv zeta.
  destruct (is_hex24_not_reserved _ Hhex) as [Hne Hns].
  destruct (reachable_well_keyed pc w Hw) as [Hnd _].
  apply select_one_newest_elem in Hsel as Hin. destruct Hin as [Hin _].
  pose proof (lookup_own_id _ _ Hnd Hin) as Hlook.
  assert (Htr : Js.truthy (Some (_id click)) = true)
    by now apply truthy_Some_nonempty.
  rewrite (gallabox_webhook_accepted pc env event w Ha Hp).
  unfold matchStrategies. rewrite run_bind, priority1_spec, Hctx.
  rewrite run_bind.
  rewrite (priority2_hit env _ _ _ initial_locals w click eq_refl Hids Hsel).
  cbv zeta.
  rewrite run_bind, priority3_skip by exact Htr.
  rewrite directHandling_skip by exact Htr.
  set (enrich := [Set_contactId _; _; _]).
  set (w1 := mkWorld _ _ _ _).
  set (l := mkLocals _ _ _).
  assert (Hl1 : lookup_id (sessionId l) (store w1)
                = Some (update_doc (Date_now env) enrich click)).
  { subst l w1. cbn [sessionId store].
    rewrite lookup_update_store by reflexivity. now rewrite Hlook. }
  assert (Hg : update_applies l = true).
  { subst l. unfold update_applies. cbn [attribution sessionId].
    cbn [String.eqb Ascii.eqb Bool.eqb negb andb].
    apply negb_true_iff, bool_decide_eq_false. congruence. }
  assert (Hc : castable (sessionId l) = true) by exact Hhex.
  rewrite (updateRecord_existing _ _ _ _ _ _ _ w1 _ Hg Hc Hl1).
  cbv zeta. cbn [fst snd store].
  split; [reflexivity|].
  eexists. split.
  { subst l. cbn [sessionId] in *.
    rewrite lookup_update_store by apply keeps_id_updateData.
    rewrite Hl1. reflexivity. }
  split; [apply updateData_brings|].
  pose proof (updateData_fields env (attribution l) (normalizedPhone event)
                (contactId_of event) (conversationId_of event)
                (contactName_of event) (messageContent_of event)
                (Date_now env) (update_doc (Date_now env) enrich click)) as Hf.
  cbv zeta in Hf. destruct Hf as (_ & _ & _ & Hattr & _ & _ & Hname & _).
  split; [exact Hattr|]. split.
  - etransitivity; [exact Hname|].
    destruct (Js.truthy (contactName_of event)) eqn:E; [reflexivity|].
    subst enrich. rewrite contactName_of_or, (contactName_of_falsy _ E).
    destruct click. reflexivity.
  - rewrite click_facts_update_doc, click_facts_updateData.
    subst enrich. destruct click. reflexivity.
Qed.

Lemma recent_click_is_attributed_witness :
  fst (gallabox_webhook example_parseContext (at_time 1700000010000)
         message_with_contact world_clicked)
  = Processed (Some session1) (Some "instagram") "gallabox_id_match".
Proof.
  refine (proj1 (recent_click_is_attributed example_parseContext
                   (at_time 1700000010000) message_with_contact world_clicked
                   (default (schema_defaults "" 0)
                      (lookup_id (Some session1) (store world_clicked)))
                   _ _ _ _ _ _ _)).
  - apply reachable_serve, (reachable_start _ (mkSink false [])).
  - reflexivity.
  - vm_compute. discriminate.
  - reflexivity.
  - reflexivity.
  - vm_compute. reflexivity.
  - vm_compute. reflexivity.
Defined.

(** X8. ['not_stored'] is a reserved session id: when the context token of
    a message names it, the handler answers that the message was processed
    under that session and writes nothing at all, whether or not a click
    is stored under that id. *)
Theorem reserved_session_id_is_never_engaged pc (env : Env) (event : Event)
    (w : World) (ctx : Context) :
  addressed_here env event ->
  normalizedPhone event <> "" ->
  decoded_session pc (ev_context event) = Some ctx ->
  session_id ctx = Some "not_stored" ->
  gallabox_webhook pc env event w
  = (Processed (Some "not_stored") (patch_source (ctx_fields ctx)) "context",
     w).
Proof.
  intros Ha Hp Hctx Hsid.
  rewrite (gallabox_webhook_accepted pc env event w Ha Hp).
  rewrite (context_match_wins _ _ _ _ _ _ _ _ _ _ Hctx).
  rewrite updateRecord_skipped.
  - cbn [sessionId utmData attribution]. now rewrite Hsid.
  - unfold update_applies. cbn [sessionId attribution]. rewrite Hsid.
    reflexivity.
Qed.

(** ** Messages of a conversation that no click explains *)

Lemma conversation_nonempty (event : Event) (conv : string) :
  conversationId_of event = Some conv -> String.eqb conv "" = false.
Proof.
  unfold conversationId_of, Js.or, Js.truthy.
  destruct (ev_conversationId event) as [c|]; [|discriminate].
  destruct (String.eqb c "") eqn:E; cbn [negb]; [discriminate|].
  now intros [= <-].
Qed.

Lemma unmatched_until_direct pc env event w conv :
  decoded_session pc (ev_context event) = None ->
  conversationId_of event = Some conv ->
  select_one_newest (QRecentUnengaged (fiveMinutesAgo env)) (store w) = None ->
  select_one_newest (QPhoneUnengaged (normalizedPhone event)) (store w)
  = None ->
  exists finds,
    matchStrategies pc env (normalizedPhone event) (contactId_of event)
      (conversationId_of event) (contactName_of event)
      (messageContent_of event) (ev_context event) w
    = directHandling env (normalizedPhone event) (contactId_of event)
        (conversationId_of event) (contactName_of event)
        (messageContent_of event) initial_locals
        (mkWorld (store w) (sink w) (faults w) (trace w ++ finds)).
Proof.
  intros Hctx Hconv Hrecent Hphone. unfold matchStrategies.
  rewrite run_bind, priority1_spec, Hctx.
  destruct (priority2_miss env (contactId_of event) (conversationId_of event)
              (contactName_of event) initial_locals w eq_refl
              (or_intror Hrecent))
    as (finds & H2 & _).
  rewrite run_bind, H2, run_bind, priority3_miss by (reflexivity || exact Hphone).
  exists (finds ++ [FindOne (QPhoneUnengaged (normalizedPhone event))]).
  unfold logged. cbn [store sink faults trace]. now rewrite <- app_assoc.
Qed.

Lemma direct_id_is_no_ObjectId (env : Env) : is_hex24 (direct_id env) = false.
Proof.
  unfold is_hex24, direct_id. apply andb_false_intro2. reflexivity.
Qed.

(** X9. A message of a conversation that neither a context token, a recent
    click nor an earlier direct record explains is never stored. With
    [STORE_DIRECT_MESSAGES] at ['true'] the handler asks for a record under
    the id [direct-<time>-<8 characters>]; that string is no ObjectId, the
    [create] is refused and the handler answers 500 with the validation
    error. Otherwise it answers [ignored_direct] under the session
    ['not_stored']. Either way the collection is as it was. *)
Theorem direct_message_is_never_stored pc (env : Env)
    (event : Event) (w : World) (conv : string) :
  reachable pc w ->
  addressed_here env event ->
  normalizedPhone event <> "" ->
  decoded_session pc (ev_context event) = None ->
  conversationId_of event = Some conv ->
  select_one_newest (QRecentUnengaged (fiveMinutesAgo env)) (store w) = None ->
  select_first (QDirectConversation conv) (store w) = None ->
  let served := gallabox_webhook pc env event w in
  store (snd served) = store w
  /\ if bool_decide (STORE_DIRECT_MESSAGES env = Some "true")
     then fst served = Failed (validation_error (direct_id env))
          /\ status (fst served) = 500
     else fst served
          = Processed (Some "not_stored") (Some "direct_message")
              "ignored_direct"
          /\ status (fst served) = 200.
Proof.
  intros Hw Ha Hp Hctx Hconv Hrecent Hdirect. cbv zeta.
  pose proof (phone_query_finds_nothing pc w (normalizedPhone event) Hw)
    as Hphone.
  pose proof (conversation_nonempty event conv Hconv) as Hne.
  rewrite (gallabox_webhook_accepted pc env event w Ha Hp).
  destruct (unmatched_until_direct pc env event w conv Hctx Hconv Hrecent
              Hphone) as (finds & ->).
  unfold directHandling. cbn [sessionId initial_locals Js.truthy negb].
  rewrite Hconv. unfold Js.if_truthy. rewrite Hne.
  run. rewrite Hdirect.
  destruct (bool_decide (STORE_DIRECT_MESSAGES env = Some "true")).
  - rewrite patch_id_first by reflexivity. cbn [castable default].
    rewrite direct_id_is_no_ObjectId. run.
    split; [reflexivity|]. split; reflexivity.
  - rewrite updateRecord_skipped by reflexivity.
    cbn [fst snd store]. split; [reflexivity|]. split; reflexivity.
Qed.

Lemma direct_message_is_never_stored_witness :
  let served := gallabox_webhook example_parseContext
                  (capture_env 1700000000000) message_with_conversation
                  empty_world in
  store (snd served) = []
  /\ fst served
     = Failed (validation_error (direct_id (capture_env 1700000000000)))
  /\ status (fst served) = 500.
Proof.
  refine (direct_message_is_never_stored example_parseContext
            (capture_env 1700000000000) message_with_conversation
            empty_world "c9" _ _ _ _ _ _ _).
  - apply (reachable_start _ (mkSink false [])).
  - reflexivity.
  - vm_compute. discriminate.
  - reflexivity.
  - reflexivity.
  - reflexivity.
  - reflexivity.
Defined.

Lemma reserved_session_id_is_never_engaged_witness :
  gallabox_webhook reserved_parseContext (at_time 1700000010000)
    message_with_reserved_context world_reserved
  = (Processed (Some "not_stored") None "context", world_reserved).
Proof.
  apply (reserved_session_id_is_never_engaged reserved_parseContext
           (at_time 1700000010000) message_with_reserved_context
           world_reserved (mkContext (Some "not_stored") [])).
  - reflexivity.
  - vm_compute. discriminate.
  - reflexivity.
  - reflexivity.
Defined.

(** ** The click endpoint *)

Lemma get_set_same k v o : Js.get k (Js.set k v o) = Some v.
Proof.
  induction o as [|[k' v'] o IH]; cbn.
  - now rewrite String.eqb_refl.
  - destruct (String.eqb k k') eqn:E; cbn; rewrite E; [reflexivity | exact IH].
Qed.

Lemma get_set_other k k' v o :
  k <> k' -> Js.get k (Js.set k' v o) = Js.get k o.
Proof.
  intros Hne. induction o as [|[k0 v0] o IH]; cbn.
  - apply String.eqb_neq in Hne. now rewrite Hne.
  - destruct (String.eqb k' k0) eqn:E; cbn.
    + apply String.eqb_eq in E. subst k0.
      apply String.eqb_neq in Hne. now rewrite Hne.
    + now rewrite IH.
Qed.

Lemma or_lit_nonempty a lit : lit <> "" -> Js.or_lit a lit <> "".
Proof.
  intros Hl. unfold Js.or_lit. destruct a as [s|]; [|exact Hl].
  destruct (String.eqb_spec s ""); assumption.
Qed.

Lemma click_doc_id st env body :
  _id (new_doc st (Date_now env) (click_literal env body))
  = default (objectId st) (toLowerCase <$> cb_session_id body).
Proof.
  unfold new_doc, click_literal. rewrite apply_patch_app.
  rewrite keeps_id_apply by reflexivity.
  destruct (cb_session_id body); reflexivity.
Qed.

Lemma has_id_toLowerCase (i : string) (d : Doc) :
  has_id (toLowerCase i) d = has_id i d.
Proof.
  unfold has_id, same_id. f_equal.
  induction i as [|c i IH]; [reflexivity|].
  cbn [toLowerCase]. rewrite IH. f_equal.
  unfold lower_ascii.
  destruct ((65 <=? nat_of_ascii c)%nat && (nat_of_ascii c <=? 90)%nat)
    eqn:E; [|rewrite E; reflexivity].
  apply andb_prop in E as [E1 E2].
  apply Nat.leb_le in E1. apply Nat.leb_le in E2.
  rewrite nat_ascii_embedding by lia.
  replace (nat_of_ascii c + 32 <=? 90)%nat with false
    by (symmetry; apply Nat.leb_gt; lia).
  rewrite andb_false_r. reflexivity.
Qed.

Lemma existsb_has_id_toLowerCase (i : string) (st : Store) :
  existsb (has_id (toLowerCase i)) st = existsb (has_id i) st.
Proof.
  induction st as [|d st IH]; [reflexivity|].
  cbn [existsb]. now rewrite IH, has_id_toLowerCase.
Qed.

Lemma store_click_run env body w :
  store_click env body w
  = if castable (cb_session_id body)
    then
      match lookup_id (cb_session_id body) (store w) with
      | Some _ =>
          (ClickStored (cb_session_id body),
           logged (FindById (cb_session_id body)) w)
      | None =>
          (ClickStored (cb_session_id body),
           mkWorld (store w ++ [new_doc (store w) (Date_now env)
                                  (click_literal env body)])
             (sink w) (faults w)
             (trace w ++ [FindById (cb_session_id body);
                          Create (click_literal env body)]))
      end
    else (ClickFailed, logged (FindById (cb_session_id body)) w).
Proof.
  unfold store_click. fold (click_literal env body). rewrite run_bind.
  destruct (castable (cb_session_id body)) eqn:Hc.
  2:{ destruct (cb_session_id body) as [i|]; [|discriminate].
      rewrite findById_cast_error by exact Hc. reflexivity. }
  rewrite findById_run by exact Hc. unfold logged at 1.
  cbn [store sink faults trace].
  destruct (lookup_id (cb_session_id body) (store w)) eqn:Hl; [reflexivity|].
  assert (Hp : patch_id (click_literal env body) = cb_session_id body)
    by (unfold click_literal; now apply patch_id_first).
  rewrite create_run by (rewrite Hp; exact Hc).
  cbv zeta. cbn [store sink faults trace]. rewrite click_doc_id.
  assert (Hfree : existsb (has_id (default (objectId (store w))
                                     (toLowerCase <$> cb_session_id body)))
                    (store w) = false).
  { destruct (cb_session_id body) as [i|].
    - change (existsb (has_id (toLowerCase i)) (store w) = false).
      rewrite existsb_has_id_toLowerCase. now apply find_none_existsb.
    - apply objectId_fresh. }
  rewrite Hfree. rewrite <- app_assoc. reflexivity.
Qed.

(** X10. [/store-click] stores a click once and never overwrites. A
    request without a session id, or whose session id is the 24 hex digits
    of an ObjectId, is answered with 201 and the session id as sent: when a
    record with that id exists the collection is left exactly as it was,
    and otherwise one record is added, under the id in lower case (or a
    fresh id when the request has none), not engaged, not synced and with
    no phone number. A request with any other session id is refused by the
    cast of the id: the answer is 500 and the collection is as it was. *)
Theorem click_is_stored_once (env : Env) (body : ClickBody) (w : World) :
  let served := store_click env body w in
  if castable (cb_session_id body)
  then
    fst served = ClickStored (cb_session_id body)
    /\ match lookup_id (cb_session_id body) (store w) with
       | Some _ => store (snd served) = store w
       | None =>
           exists d,
             store (snd served) = store w ++ [d]
             /\ _id d = default (objectId (store w))
                          (toLowerCase <$> cb_session_id body)
             /\ hasEngaged d = false /\ syncedToSheets d = false
             /\ phoneNumber d = None
       end
  else fst served = ClickFailed /\ store (snd served) = store w.
Proof.
  cbv zeta. rewrite store_click_run.
  destruct (castable (cb_session_id body)); [|split; reflexivity].
  destruct (lookup_id (cb_session_id body) (store w)).
  - split; reflexivity.
  - split; [reflexivity|]. eexists. split; [reflexivity|].
    split; [apply click_doc_id|].
    unfold new_doc, click_literal, click_utmData.
    destruct (cb_session_id body); repeat split; reflexivity.
Qed.

(** X11. The record [/store-click] creates (for a request without a
    session id, or with one that is the 24 hex digits of an ObjectId not
    yet in the collection) has no empty attribution dimension, and its
    [original_params] mirror the record: each of [source], [medium],
    [campaign], [content] and [placement] is there with the value the
    record has, and every other parameter the page sent is kept as sent. *)
Theorem stored_click_mirrors_its_dimensions (env : Env) (body : ClickBody)
    (w : World) :
  castable (cb_session_id body) = true ->
  lookup_id (cb_session_id body) (store w) = None ->
  exists d,
    store (snd (store_click env body w)) = store w ++ [d]
    /\ Forall (fun kv => snd kv <> ""
                 /\ Js.get (fst kv) (original_params d) = Some (snd kv))
         (dimensions d)
    /\ forall k, k ∉ map fst (dimensions d) ->
         Js.get k (original_params d)
         = Js.get k (default [] (cb_original_params body)).
Proof.
  intros Hc Hl. rewrite store_click_run, Hc, Hl. cbn [snd store].
  eexists. split; [reflexivity|].
  unfold new_doc, click_literal, click_utmData, dimensions.
  destruct (cb_session_id body); cbn [app apply_patch fold_left apply_setter].
  all: cbn [with_id with_source with_medium with_campaign with_content
            with_placement with_original_params with_click_time
            with_timestamp with_hasEngaged with_syncedToSheets
            schema_defaults _id source medium campaign content placement
            original_params map fst snd].
  all: split;
    [ repeat (apply Forall_cons; split;
              [cbn [fst snd]; split;
               [apply or_lit_nonempty; discriminate
               |repeat (first [apply get_set_same
                              | rewrite get_set_other by discriminate])]|]);
      constructor
    | intros k Hk;
      repeat (rewrite get_set_other;
              [|intros ->; apply Hk; repeat constructor]);
      reflexivity ].
Qed.

Lemma stored_click_mirrors_its_dimensions_witness :
  exists d,
    store (snd (store_click example_env click_with_params empty_world))
    = store empty_world ++ [d]
    /\ Forall (fun kv => snd kv <> ""
                 /\ Js.get (fst kv) (original_params d) = Some (snd kv))
         (dimensions d)
    /\ forall k, k ∉ map fst (dimensions d) ->
         Js.get k (original_params d)
         = Js.get k (default [] (cb_original_params click_with_params)).
Proof.
  apply (stored_click_mirrors_its_dimensions example_env click_with_params
           empty_world).
  - reflexivity.
  - reflexivity.
Defined.

(** ** Secrets and the webhook guard *)

Lemma cache_get_snoc name v cache :
  cache_get name cache = None ->
  cache_get name (cache ++ [(name, v)]) = Some v.
Proof.
  induction cache as [|[k x] cache IH]; cbn.
  - now rewrite String.eqb_refl.
  - destruct (String.eqb name k); [discriminate | exact IH].
Qed.

Lemma getSecret_pinned manager secretName s v s1 :
  getSecret manager secretName s = (Return v, s1) ->
  cache_get secretName (secretCache s1) = Some v.
Proof.
  unfold getSecret.
  destruct (cache_get secretName (secretCache s)) as [cached|] eqn:E.
  - intros [= <- <-]. exact E.
  - destruct (manager secretName) as [x|e]; [|discriminate].
    intros [= <- <-]. cbn [secretCache]. now apply cache_get_snoc.
Qed.

Lemma getSecret_hit manager secretName s v :
  cache_get secretName (secretCache s) = Some v ->
  getSecret manager secretName s = (Return v, s).
Proof. intros H. unfold getSecret. now rewrite H. Qed.

(** X12. A secret is asked of the Secrets Manager at most once: after a
    [getSecret] that returned, every later [getSecret] of that name returns
    the same value without a call, whatever the Secrets Manager holds by
    then; a [getSecret] that failed made one call and cached nothing. *)
Theorem secret_is_fetched_once (manager : SecretsManager)
    (secretName : string) (s : SecretState) :
  match getSecret manager secretName s with
  | (Return v, s1) =>
      forall later, getSecret later secretName s1 = (Return v, s1)
  | (Throw _, s1) =>
      secretCache s1 = secretCache s
      /\ secretCalls s1 = secretCalls s ++ [secretName]
  end.
Proof.
  destruct (getSecret manager secretName s) as [[v|e] s1] eqn:E.
  - intros later. apply getSecret_hit. exact (getSecret_pinned _ _ _ _ _ E).
  - unfold getSecret in E.
    destruct (cache_get secretName (secretCache s)); [discriminate|].
    destruct (manager secretName); [discriminate|].
    injection E as _ <-. split; reflexivity.
Qed.

(** X13. The webhook guard compares the [x-gallabox-token] header with one
    token and lets the request through exactly when they are the same
    value. Unless it answers 500, that token is fixed from then on: every
    later request is decided against it with no call to the Secrets
    Manager. With [GALLABOX_TOKEN] set the token is that variable and the
    secrets are never consulted. The token may be [undefined] (a secret
    without [SecretString]), in which case a request without the header
    passes. *)
Theorem guard_token_is_pinned (manager : SecretsManager)
    (GALLABOX_TOKEN header : option string) (s : SecretState) :
  fst (verifyGallabox manager GALLABOX_TOKEN header s) <> AuthFailed ->
  let s1 := snd (verifyGallabox manager GALLABOX_TOKEN header s) in
  exists gallaboxToken,
    fst (verifyGallabox manager GALLABOX_TOKEN header s)
    = guard_decision gallaboxToken header
    /\ (guard_decision gallaboxToken header = Next <-> header = gallaboxToken)
    /\ (forall later header',
          verifyGallabox later GALLABOX_TOKEN header' s1
          = (guard_decision gallaboxToken header', s1))
    /\ (Js.truthy GALLABOX_TOKEN = true ->
        gallaboxToken = GALLABOX_TOKEN /\ s1 = s).
Proof.
  assert (Hdec : forall tok h : option string,
             guard_decision tok h = Next <-> h = tok).
  { intros tok h. unfold guard_decision.
    destruct (decide (h <> tok)) as [Hne|Heq].
    - rewrite bool_decide_eq_true_2 by exact Hne. split; [discriminate|].
      intros ->. contradiction.
    - rewrite bool_decide_eq_false_2 by exact Heq. split; [|reflexivity].
      intros _. destruct (decide (h = tok)); [assumption | contradiction]. }
  unfold verifyGallabox. destruct (Js.truthy GALLABOX_TOKEN) eqn:Henv.
  - intros _. cbv zeta. exists GALLABOX_TOKEN. fold (guard_decision GALLABOX_TOKEN header).
    assert (Hs : forall h, (if bool_decide (h <> GALLABOX_TOKEN)
                            then (InvalidToken, s) else (Next, s))
                           = (guard_decision GALLABOX_TOKEN h, s)).
    { intros h. unfold guard_decision. now destruct (bool_decide _). }
    rewrite Hs. cbn [fst snd].
    split; [reflexivity|]. split; [apply Hdec|].
    split; [|auto]. intros later header'. apply Hs.
  - destruct (getSecret manager "utm-tracker/gallabox-token" s)
      as [[tok|e] s1] eqn:E; [|cbn; congruence].
    intros _. cbv zeta. exists tok.
    assert (Hs : forall h (st : SecretState), (if bool_decide (h <> tok)
                               then (InvalidToken, st) else (Next, st))
                              = (guard_decision tok h, st)).
    { intros h st. unfold guard_decision. now destruct (bool_decide _). }
    rewrite Hs. cbn [fst snd].
    split; [reflexivity|]. split; [apply Hdec|].
    split; [|discriminate]. intros later header'.
    rewrite (getSecret_hit later _ s1 tok (getSecret_pinned _ _ _ _ _ E)).
    apply Hs.
Qed.

Lemma guard_token_is_pinned_witness :
  exists gallaboxToken,
    fst (verifyGallabox manager_binary None None no_secrets)
    = guard_decision gallaboxToken None
    /\ (guard_decision gallaboxToken None = Next <-> None = gallaboxToken)
    /\ (forall later header',
          verifyGallabox later None header'
            (snd (verifyGallabox manager_binary None None no_secrets))
          = (guard_decision gallaboxToken header',
             snd (verifyGallabox manager_binary None None no_secrets)))
    /\ (Js.truthy None = true ->
        gallaboxToken = None
        /\ snd (verifyGallabox manager_binary None None no_secrets)
           = no_secrets).
Proof.
  apply (guard_token_is_pinned manager_binary None None no_secrets).
  vm_compute. discriminate.
Defined.

(** A token fetched once is kept: after the secret has changed, a request
    with the new token is refused. When the Secrets Manager is out of
    reach the guard answers 500. *)
Example scenario_rotated_token_is_refused :
  fst (verifyGallabox (manager_with "new") None (Some "new")
         (snd (verifyGallabox (manager_with "old") None (Some "old")
                 no_secrets)))
  = InvalidToken
  /\ fst (verifyGallabox manager_down None (Some "old") no_secrets)
     = AuthFailed.
Proof. vm_compute. split; reflexivity. Qed.

(** ** The scheduled sync and the live feed *)

(** X14. [/scheduled-sync] always answers 200, and its body tells what
    happened, when only calls to the Sheets API fail. With [success] true
    there is no [error], [syncedCount] is the size of the batch selected
    and that many rows were appended to the sheet; a [spreadsheetId] is
    reported only when the count is not zero. With [success] false the
    third attempt failed, the [error] begins with ["Final sync failure: "],
    [syncedCount] and [duration] are 0 and no record was changed. *)
Theorem scheduled_sync_report_is_truthful (clock : nat -> Z)
    (startTime endTime finishedAt : Z) (w : World) :
  match post_scheduled_sync clock startTime endTime finishedAt w with
  | (code, report, w') =>
      code = 200 /\ reportedAt report = finishedAt
      /\ if success report
         then error report = None
              /\ duration report = endTime - startTime
              /\ syncedCount report = length (pending (store w))
              /\ sheetRows (sink w')
                 = header_ready (sheetRows (sink w))
                   ++ convertToSheetRows (pending (store w))
              /\ (reportsSpreadsheet report = true
                  <-> (0 < syncedCount report)%nat)
         else syncedCount report = 0%nat /\ duration report = 0
              /\ store w' = store w
              /\ header_touched (sheetRows (sink w)) (sheetRows (sink w'))
              /\ exists err,
                   error report = Some ("Final sync failure: " +:+ err)
  end.
Proof.
  unfold post_scheduled_sync, scheduledSync.
  pose proof (syncLoop_outcome MAX_RETRIES clock 0 w
                ltac:(unfold MAX_RETRIES; lia) ltac:(lia)) as Hout.
  destruct (syncLoop_backoff MAX_RETRIES clock 0 w
              ltac:(unfold MAX_RETRIES; lia) ltac:(lia))
    as (attempts & _ & _ & _ & Hres).
  cbv zeta in Hout, Hres. fold (syncToSheets clock w) in Hout, Hres.
  destruct (syncToSheets clock w) as [[[[|n]|]|e] w'];
    cbn [fst snd] in Hout, Hres; unfold export_outcome in Hout;
    cbn [success error duration syncedCount reportsSpreadsheet reportedAt].
  - destruct Hout as (Hp & _ & _ & Hrows).
    rewrite Hp, Hrows. cbn [length convertToSheetRows map].
    rewrite app_nil_r. repeat split; try reflexivity; try discriminate; lia.
  - destruct Hout as (Hn & Hb & _ & _ & Hrows).
    repeat split; try assumption; try reflexivity; lia.
  - contradiction.
  - destruct Hout as [Hst Hrows], Hres as [_ Herr].
    destruct Herr as [err ->]. repeat split; try assumption. now exists err.
Qed.

Lemma on_change_outcome (now : Z) (change : Change) (w : World) :
  let rw := on_change now change w in
  fst rw = Return tt
  /\ ((store (snd rw) = store w
       /\ sheetRows (sink (snd rw)) = sheetRows (sink w))
      \/ exists doc,
           fullDocument change = Some doc
           /\ sheetRows (sink (snd rw)) = sheetRows (sink w) ++ [sheetRow doc]
           /\ store (snd rw)
              = update_store now (Some (_id doc)) (markSynced now) (store w)).
Proof.
  cbv zeta. unfold on_change, try_catch.
  destruct (negb (String.eqb (operationType change) "insert")
            && negb (String.eqb (operationType change) "update"));
    [cbn; auto|].
  destruct (fullDocument change) as [doc|]; [|cbn; auto].
  unfold initializeSheetsClient, values_append.
  sheets_step; [cbn; auto|].
  sheets_step; [cbn; auto|].
  run. split; [reflexivity|]. right. exists doc.
  split; [reflexivity|]. split; reflexivity.
Qed.

(** X15. The live feed never throws. A change that passes the [$match]
    stage and reaches the listener either changes nothing, or appends
    exactly the row of the changed document to the sheet and marks that
    document synced; a change that does not pass changes nothing. *)
Theorem live_feed_exports_one_row (now : Z) (change : Change) (w : World) :
  let rw := change_feed now change w in
  fst rw = Return tt
  /\ ((store (snd rw) = store w
       /\ sheetRows (sink (snd rw)) = sheetRows (sink w))
      \/ exists doc,
           fullDocument change = Some doc
           /\ export_eligible doc
           /\ sheetRows (sink (snd rw)) = sheetRows (sink w) ++ [sheetRow doc]
           /\ store (snd rw)
              = update_store now (Some (_id doc)) (markSynced now) (store w)).
Proof.
  cbv zeta. unfold change_feed.
  destruct (feed_matches change) eqn:Hfeed; [|cbn; auto].
  destruct (on_change_outcome now change w) as [Hret Hcases].
  cbv zeta in Hret, Hcases. split; [exact Hret|].
  destruct Hcases as [H|(doc & Hdoc & Hrows & Hst)]; [left; exact H|].
  right. exists doc. split; [exact Hdoc|]. split; [|now split].
  unfold feed_matches in Hfeed. rewrite Hdoc in Hfeed.
  apply andb_prop in Hfeed as [Hfeed Hsrc].
  apply andb_prop in Hfeed as [Heng Hsync].
  unfold export_eligible. split; [exact Heng|].
  split; [now apply negb_true_iff in Hsync|].
  now apply negb_true_iff, String.eqb_neq in Hsrc.
Qed.

Lemma beyond_sync_flags_marked now d :
  beyond_sync_flags (update_doc now (markSynced now) d) = beyond_sync_flags d.
Proof. destruct d. reflexivity. Qed.

Lemma mark_store_beyond now docs st :
  map beyond_sync_flags (mark_store now docs st) = map beyond_sync_flags st.
Proof.
  rewrite mark_store_map, map_map. apply map_ext. intros d.
  destruct (in_batch docs d); [apply beyond_sync_flags_marked | reflexivity].
Qed.

(** X21. The export changes nothing of a record but its sync flags: after
    [syncToSheets], and after the change-stream listener, the collection
    holds the same records in the same order, each with the same click
    data, engagement, identifiers, name, message and attribution; only
    [syncedToSheets], [lastSynced] and [updatedAt] may differ. *)
Theorem export_touches_only_sync_flags (clock : nat -> Z) (now : Z)
    (change : Change) (w : World) :
  map beyond_sync_flags (store (snd (syncToSheets clock w)))
  = map beyond_sync_flags (store w)
  /\ map beyond_sync_flags (store (snd (on_change now change w)))
     = map beyond_sync_flags (store w).
Proof.
  split.
  - pose proof (syncLoop_outcome MAX_RETRIES clock 0 w
                  ltac:(unfold MAX_RETRIES; lia) ltac:(lia)) as Hout.
    cbv zeta in Hout. fold (syncToSheets clock w) in Hout.
    destruct (syncToSheets clock w) as [[[[|n]|]|e] w'];
      cbn [fst snd] in *; unfold export_outcome in Hout.
    + destruct Hout as (_ & -> & _). reflexivity.
    + destruct Hout as (_ & _ & (k & _ & ->) & _). apply mark_store_beyond.
    + contradiction.
    + destruct Hout as [-> _]. reflexivity.
  - destruct (on_change_outcome now change w) as [_ Hcases].
    cbv zeta in Hcases.
    destruct Hcases as [[-> _]|(doc & _ & _ & ->)]; [reflexivity|].
    cbn [update_store]. rewrite map_map. apply map_ext. intros d.
    destruct (has_id (_id doc) d);
      [apply beyond_sync_flags_marked | reflexivity].
Qed.

Lemma header_ready_fixed rows below :
  header_ready (header_ready rows ++ below) = header_ready rows ++ below.
Proof. destruct rows as [|[|c r] rest]; reflexivity. Qed.

(** X22. No duplicate rows from the batch sync alone: once a sync has
    exported a waiting list of at most 250 records, a second sync run on
    what the first left, whatever its clock and whichever Sheets calls
    fail, appends nothing to the sheet and changes no record. *)
Theorem second_sync_appends_nothing (clock later : nat -> Z) (w : World)
    (n : nat) (fs : list bool) :
  fst (syncToSheets clock w) = Return (Some (Synced n)) ->
  (length (eligible_docs (store w)) <= 250)%nat ->
  let w1 := snd (syncToSheets clock w) in
  let w2 := snd (syncToSheets later (with_faults fs w1)) in
  sheetRows (sink w2) = sheetRows (sink w1) /\ store w2 = store w1.
Proof.
  intros Hrun Hlen. cbv zeta.
  pose proof (syncLoop_outcome MAX_RETRIES clock 0 w
                ltac:(unfold MAX_RETRIES; lia) ltac:(lia)) as H1.
  cbv zeta in H1. fold (syncToSheets clock w) in H1. rewrite Hrun in H1.
  destruct H1 as (_ & _ & (k & _ & Hst) & _ & Hrows).
  set (w1 := snd (syncToSheets clock w)) in *.
  assert (Hnone : pending (store w1) = []).
  { apply elem_of_nil_inv. intros d Hd. apply pending_elem in Hd.
    rewrite Hst in Hd. apply marked_leave_the_queue in Hd as [Hel Hout].
    apply (pending_all _ _ Hlen), in_batch_self in Hel. congruence. }
  pose proof (syncLoop_outcome MAX_RETRIES later 0 (with_faults fs w1)
                ltac:(unfold MAX_RETRIES; lia) ltac:(lia)) as H2.
  cbv zeta in H2. fold (syncToSheets later (with_faults fs w1)) in H2.
  assert (Hready : header_ready (sheetRows (sink w1)) = sheetRows (sink w1)).
  { rewrite Hrows. apply header_ready_fixed. }
  destruct (syncToSheets later (with_faults fs w1)) as [[[[|m]|]|e] w2];
    cbn [fst snd] in *; unfold export_outcome in H2;
    cbn [with_faults store sink] in H2.
  - destruct H2 as (_ & -> & _ & ->). now rewrite Hready.
  - destruct H2 as (Hm & Hb & _). rewrite Hnone in Hm. cbn in Hm. lia.
  - contradiction.
  - destruct H2 as [-> [->| ->]]; now rewrite ?Hready.
Qed.

Lemma second_sync_appends_nothing_witness :
  sheetRows (sink (snd (syncToSheets sync_clock
                          (with_faults [false; true]
                             (snd (syncToSheets sync_clock three_engaged))))))
  = sheetRows (sink (snd (syncToSheets sync_clock three_engaged))).
Proof.
  apply (second_sync_appends_nothing sync_clock sync_clock three_engaged 3
           [false; true]).
  - vm_compute. reflexivity.
  - vm_compute. lia.
Defined.

(** ** From the click on the page to the engaged record *)

Lemma context_match_on_stored_click pc env event w ctx sid d0 :
  addressed_here env event ->
  normalizedPhone event <> "" ->
  decoded_session pc (ev_context event) = Some ctx ->
  session_id ctx = Some sid ->
  is_hex24 sid = true ->
  lookup_id (Some sid) (store w) = Some d0 ->
  let served := gallabox_webhook pc env event w in
  fst served = Processed (Some sid) (patch_source (ctx_fields ctx)) "context"
  /\ exists d,
       lookup_id (Some sid) (store (snd served)) = Some d
       /\ engaged_by env event d
       /\ attribution_source d = "context"
       /\ click_facts d = click_facts d0.
Proof.
  intros Ha Hp Hctx Hsid Hhex Hlook. cbv zeta.
  destruct (is_hex24_not_reserved _ Hhex) as [_ Hns].
  rewrite (gallabox_webhook_accepted pc env event w Ha Hp).
  rewrite (context_match_wins _ _ _ _ _ _ _ _ _ _ Hctx). rewrite Hsid.
  set (l := mkLocals _ _ _).
  assert (Hg : update_applies l = true).
  { subst l. unfold update_applies. cbn [attribution sessionId].
    cbn [String.eqb Ascii.eqb Bool.eqb negb andb].
    apply negb_true_iff, bool_decide_eq_false. congruence. }
  assert (Hc : castable (sessionId l) = true) by exact Hhex.
  rewrite (updateRecord_existing _ _ _ _ _ _ _ w d0 Hg Hc Hlook).
  cbv zeta. cbn [fst snd store]. split; [reflexivity|].
  subst l. cbn [sessionId attribution].
  rewrite lookup_update_store by apply keeps_id_updateData. rewrite Hlook.
  eexists. split; [reflexivity|].
  split; [apply updateData_brings|].
  split.
  - pose proof (updateData_fields env "context" (normalizedPhone event)
                  (contactId_of event) (conversationId_of event)
                  (contactName_of event) (messageContent_of event)
                  (Date_now env) d0) as Hf.
    cbv zeta in Hf. exact (proj1 (proj2 (proj2 (proj2 Hf)))).
  - now rewrite click_facts_update_doc, click_facts_updateData.
Qed.

(** X16. A message whose context token names a stored click by the 24 hex
    digits of its ObjectId, in either case, engages that very record: the
    response names the session as the token has it with attribution
    [context], the record gets the sender's phone, the event's identifiers
    and message, and keeps its own click data, whatever attribution data
    the token itself carries. *)
Theorem context_token_engages_its_click pc (env : Env) (event : Event)
    (w : World) (ctx : Context) (sid : string) (d0 : Doc) :
  addressed_here env event ->
  normalizedPhone event <> "" ->
  decoded_session pc (ev_context event) = Some ctx ->
  session_id ctx = Some sid ->
  is_hex24 sid = true ->
  lookup_id (Some sid) (store w) = Some d0 ->
  let served := gallabox_webhook pc env event w in
  fst served = Processed (Some sid) (patch_source (ctx_fields ctx)) "context"
  /\ exists d,
       lookup_id (Some sid) (store (snd served)) = Some d
       /\ engaged_by env event d
       /\ attribution_source d = "context"
       /\ click_facts d = click_facts d0.
Proof. apply context_match_on_stored_click. Qed.

Lemma context_token_engages_its_click_witness :
  fst (gallabox_webhook example_parseContext (at_time 1700000010000)
         message_with_context world_clicked)
  = Processed (Some session1) None "context".
Proof.
  refine (proj1 (context_token_engages_its_click example_parseContext
                   (at_time 1700000010000) message_with_context world_clicked
                   (mkContext (Some session1) []) session1
                   (default (schema_defaults "" 0)
                      (lookup_id (Some session1) (store world_clicked)))
                   _ _ _ _ _ _)).
  - reflexivity.
  - vm_compute. discriminate.
  - reflexivity.
  - reflexivity.
  - reflexivity.
  - vm_compute. reflexivity.
Defined.

Section PageToServer.

Variable decodeURIComponent : string -> option string.
Variable encodeContext : Context -> option string.

Lemma param_or_nonempty page names lit v :
  lit <> "" -> param_or decodeURIComponent page names lit = Return v ->
  v <> "".
Proof.
  intros Hl. unfold param_or.
  destruct (getParam _ _ _) as [x|e]; [|discriminate].
  intros [= <-]. exact (or_lit_nonempty (Some x) lit Hl).
Qed.

Lemma buildTrackingData_fields page sessionId body :
  buildTrackingData decodeURIComponent page sessionId = Return body ->
  td_session_id body = sessionId
  /\ td_source body <> ""
  /\ td_original_params body = fromEntries (search page)
  /\ td_click_time body = page_clicked page.
Proof.
  unfold buildTrackingData.
  destruct (param_or _ page _ "facebook") as [src|] eqn:Hsrc; [|discriminate].
  destruct (param_or _ page _ "fb_ads"); [|discriminate].
  destruct (param_or _ page [_; _; _] "unknown"); [|discriminate].
  destruct (param_or _ page [_; _; _] "unknown"); [|discriminate].
  destruct (param_or _ page [_; _] "unknown"); [|discriminate].
  destruct (getParam _ _ _); [|discriminate].
  intros [= <-]. cbn. repeat split.
  assert (Hlit : "facebook" <> "") by discriminate.
  exact (param_or_nonempty page _ "facebook" src Hlit Hsrc).
Qed.

Lemma page_session_id_is_no_ObjectId page :
  is_hex24 (page_session_id page) = false.
Proof.
  unfold is_hex24, page_session_id. apply andb_false_intro2. reflexivity.
Qed.

(** X17. From the click on the page to the server. The page names its
    session [wa-<time>-<8 characters>], which is no ObjectId: whenever the
    page can decode its parameters, [/store-click] refuses the body the
    page posts with 500 and stores nothing, whatever the collection holds,
    and the page, seeing the failed POST, opens WhatsApp without a context
    token. No click of the page reaches the collection. *)
Theorem page_click_is_never_stored (page : Page) (body : TrackingData)
    (click_env : Env) (w : World) (code : Z) :
  buildTrackingData decodeURIComponent page (page_session_id page)
  = Return body ->
  let clicked := store_click click_env (posted_body body) w in
  fst clicked = ClickFailed
  /\ store (snd clicked) = store w
  /\ trace (snd clicked)
     = trace w ++ [FindById (Some (page_session_id page))]
  /\ handleWhatsAppClick decodeURIComponent encodeContext page
       (FetchStatus code)
     = (Return tt, [ PreventDefault; StopPropagation; Fetch body;
                     WindowOpen plain_url ]).
Proof.
  intros Hbuild. cbv zeta.
  destruct (buildTrackingData_fields _ _ _ Hbuild) as (Hsid & _).
  rewrite store_click_run. cbn [posted_body cb_session_id castable].
  rewrite Hsid, page_session_id_is_no_ObjectId.
  split; [reflexivity|]. split; [reflexivity|]. split; [reflexivity|].
  unfold handleWhatsAppClick. rewrite Hbuild. reflexivity.
Qed.

End PageToServer.

Lemma page_click_is_never_stored_witness :
  fst (store_click (at_time 1700000000000) (posted_body example_tracking)
         empty_world) = ClickFailed
  /\ handleWhatsAppClick example_decode example_encode example_page
       (FetchStatus 500)
     = (Return tt, [ PreventDefault; StopPropagation; Fetch example_tracking;
                     WindowOpen plain_url ]).
Proof.
  destruct (page_click_is_never_stored example_decode example_encode
              example_page example_tracking (at_time 1700000000000)
              empty_world 500) as (H1 & _ & _ & H2).
  - vm_compute. reflexivity.
  - split; [exact H1 | exact H2].
Defined.

(** ** The rows of the export *)



(** ** Strings as JavaScript counts them *)




























(** ** The click page *)

Section ClickPageFacts.

Variable decodeURIComponent : string -> option string.
Variable encodeContext : Context -> option string.

Lemma getParam_throws params names :
  undecodable decodeURIComponent params names = true ->
  getParam decodeURIComponent params names = Throw "URIError: URI malformed".
Proof.
  unfold undecodable, getParam.
  destruct (first_name params names) as [v|]; [|discriminate].
  destruct (decodeURIComponent v); [discriminate | reflexivity].
Qed.

Lemma getParam_returns params names :
  undecodable decodeURIComponent params names = false ->
  exists v, getParam decodeURIComponent params names = Return v.
Proof.
  unfold undecodable, getParam.
  destruct (first_name params names) as [v|]; [|eauto].
  destruct (decodeURIComponent v); [eauto | discriminate].
Qed.

(** X19. A click on the button opens WhatsApp exactly once, after the
    POST of the tracking data, with the context link only when the POST
    succeeded and the context could be encoded, and the plain link
    otherwise, unless one of the tracked parameters of the page's URL
    cannot be decoded: then the handler throws after it has cancelled the
    click, and neither posts nor opens anything. *)
Theorem whatsapp_opens_unless_decoding_fails (page : Page)
    (posted : FetchOutcome) :
  let served :=
    handleWhatsAppClick decodeURIComponent encodeContext page posted in
  if existsb (undecodable decodeURIComponent (search page)) tracked_names
  then is_throw (fst served) = true
       /\ snd served = [PreventDefault; StopPropagation]
  else fst served = Return tt
       /\ exists body url,
            snd served
            = [PreventDefault; StopPropagation; Fetch body; WindowOpen url]
            /\ td_session_id body = page_session_id page
            /\ (url = plain_url
                \/ exists encodedContext,
                     posted = FetchOk
                     /\ encodeContext (contextData body)
                        = Some encodedContext
                     /\ url = context_url encodedContext).
Proof.
  cbv zeta.
  unfold handleWhatsAppClick, buildTrackingData, param_or, tracked_names.
  cbn [existsb].
  repeat match goal with
  | |- context [undecodable decodeURIComponent (search page) ?names] =>
      let H := fresh "H" in
      let v := fresh "v" in
      destruct (undecodable decodeURIComponent (search page) names) eqn:H;
      [ rewrite (getParam_throws _ _ H); cbn; split; reflexivity
      | destruct (getParam_returns _ _ H) as [v ->]; cbn [orb] ]
  end.
  destruct posted; [destruct (encodeContext _) as [enc|] eqn:Henc | |];
    cbn [fst snd app]; (split; [reflexivity|]);
    eexists _, _; (split; [reflexivity|]); (split; [reflexivity|]);
    eauto.
Qed.

End ClickPageFacts.

(** A page whose [utm_source] cannot be decoded: the click is cancelled and
    nothing else happens. *)
Example scenario_broken_parameter :
  handleWhatsAppClick strict_decode example_encode broken_page FetchOk
  = (Throw "URIError: URI malformed", [PreventDefault; StopPropagation]).
Proof. vm_compute. reflexivity. Qed.

Lemma poller_run (pollCount ticks : nat) (observations : list bool) :
  (pollCount <= FRONT_MAX_RETRIES)%nat ->
  (FRONT_MAX_RETRIES + 1 - pollCount <= length observations)%nat ->
  exists k attached,
    poller pollCount ticks observations = Some ((ticks + k)%nat, attached)
    /\ (1 <= k <= FRONT_MAX_RETRIES + 1 - pollCount)%nat
    /\ take k observations = replicate (k - 1) false ++ [attached]
    /\ (attached = false -> k = (FRONT_MAX_RETRIES + 1 - pollCount)%nat).
Proof.
  unfold FRONT_MAX_RETRIES.
  revert pollCount ticks.
  induction observations as [|button later IH]; intros pollCount ticks Hc Hl.
  { cbn in Hl. lia. }
  cbn [poller]. destruct button.
  { exists 1%nat, true. split; [|split; [|split]].
    - f_equal. f_equal. lia.
    - lia.
    - reflexivity.
    - discriminate. }
  unfold FRONT_MAX_RETRIES.
  destruct (8 <=? pollCount)%nat eqn:E.
  { apply Nat.leb_le in E. exists 1%nat, false. split; [|split; [|split]].
    - f_equal. f_equal. lia.
    - lia.
    - reflexivity.
    - intros _. lia. }
  apply Nat.leb_gt in E. cbn [length] in Hl.
  destruct (IH (S pollCount) (S ticks) ltac:(lia) ltac:(lia))
    as (k & attached & Hrun & Hk & Htake & Hlast).
  exists (S k), attached. split; [|split; [|split]].
  - rewrite Hrun. f_equal. f_equal. lia.
  - lia.
  - cbn [take]. rewrite Htake.
    replace (S k - 1)%nat with (S (k - 1)) by lia. reflexivity.
  - intros H. specialize (Hlast H). lia.
Qed.

(** X20. The poller looks for the button at most nine times (one more than
    [MAX_RETRIES]): on observations long enough it stops at the first tick
    that finds the button and attaches the handler then, or at the ninth
    tick without attaching. *)
Theorem poller_gives_up_after_nine_ticks (observations : list bool) :
  (FRONT_MAX_RETRIES + 1 <= length observations)%nat ->
  exists k attached,
    poller 0 0 observations = Some (k, attached)
    /\ (1 <= k <= FRONT_MAX_RETRIES + 1)%nat
    /\ take k observations = replicate (k - 1) false ++ [attached]
    /\ (attached = false -> k = (FRONT_MAX_RETRIES + 1)%nat).
Proof.
  intros Hl.
  destruct (poller_run 0 0 observations ltac:(lia) ltac:(lia))
    as (k & attached & Hrun & Hk & Htake & Hlast).
  exists k, attached. rewrite Nat.sub_0_r in *. auto.
Qed.

Lemma poller_gives_up_after_nine_ticks_witness :
  exists k attached,
    poller 0 0 (replicate 9 false) = Some (k, attached)
    /\ (1 <= k <= FRONT_MAX_RETRIES + 1)%nat
    /\ take k (replicate 9 false) = replicate (k - 1) false ++ [attached]
    /\ (attached = false -> k = (FRONT_MAX_RETRIES + 1)%nat).
Proof.
  apply (poller_gives_up_after_nine_ticks (replicate 9 false)).
  vm_compute. lia.
Defined.
